(** * Service-centre request tracker: lifecycle, deadlines, escalation

    A shallow embedding of [src/database.py] (class [Database], the SQLite
    store of repair requests) and of the deadline helpers and the two
    guarded actions of [src/app.py], with the properties of the request
    lifecycle proved over it.

    Conventions of the embedding.
    - A Python [str] and an SQLite TEXT value are a [string] holding the
      UTF-8 bytes of the text; equality of texts is equality of bytes.
    - A Python [int] is a [Z]; a value of dynamic type ([Any], a column
      without a fixed type) is a [value].
    - A naive [datetime] is its number of microseconds since
      0001-01-01 00:00:00 (the proleptic Gregorian calendar of the
      [datetime] module).
    - The clock ([datetime.now()], SQLite's CURRENT_TIMESTAMP) is an
      explicit argument of every operation that reads it.
    - The connection is a pair of table sets: what has been committed and
      what the connection sees (committed rows plus the statements executed
      since the last commit).  A failing statement changes nothing itself,
      and the statements executed before it stay in the open transaction.
    - Library functions that are not part of the repository (hashlib's
      SHA-256, the builtin [float], [repr] of a float and
      [datetime.fromisoformat]) are the fields of the class [PyRuntime];
      every theorem holds for all their behaviours.
    - Columns keep the value that was bound to them: SQLite's type affinity
      conversions are outside the model.  The tables of comments and of
      equipment types, which no operation below reads, are left out. *)

From Stdlib Require Import ZArith String Ascii List Lia Bool.
From Stdlib Require Import DecimalString DecimalZ DecimalPos.
From Stdlib Require DecimalFacts.
From stdpp Require Import base option list gmap strings sorting.

Local Open Scope string_scope.
Local Open Scope Z_scope.

(** ** Python values *)

Module Py.

(** A binary64 float, kept as its IEEE-754 bit pattern.  The code never
    computes with costs; it only tests them for truth. *)
Record pyfloat := PyFloat { float_bits : Z }.

Inductive value :=
| VNone
| VInt (z : Z)
| VFloat (f : pyfloat)
| VStr (s : string).

(** Exceptions the modelled code can meet inside its [try] blocks. *)
Inductive exn :=
| IntegrityError
| ValueError
| TypeError
| KeyError
| OverflowError
| OperationalError.

(** [bool(f)] for a float: false for +0.0 and -0.0 only. *)
Definition float_truthy (f : pyfloat) : bool :=
  negb (float_bits f mod 2 ^ 63 =? 0).

(** [bool(v)]. *)
Definition truthy (v : value) : bool :=
  match v with
  | VNone => false
  | VInt z => negb (z =? 0)
  | VFloat f => float_truthy f
  | VStr s => negb (String.eqb s "")
  end.

(** [a or b]. *)
Definition py_or (a b : value) : value := if truthy a then a else b.

(** A nullable TEXT column read back into Python. *)
Definition of_text (o : option string) : value :=
  match o with Some s => VStr s | None => VNone end.

(** [d.get(k)] on a dictionary with string keys. *)
Definition dict_get (d : gmap string value) (k : string) : value :=
  default VNone (d !! k).

(** [k in d]. *)
Definition dict_mem (d : gmap string value) (k : string) : bool :=
  bool_decide (is_Some (d !! k)).

(** [str(z)] for an int. *)
Definition str_of_int (z : Z) : string := NilZero.string_of_int (Z.to_int z).

Fixpoint zeros (n : nat) : string :=
  match n with O => "" | S n' => String "0" (zeros n') end.

(** Left padding with zeros up to [width] characters; longer texts are
    kept whole. *)
Definition zfill (width : nat) (s : string) : string :=
  zeros (width - String.length s) +:+ s.

(** The format [{z:04d}]: at least four characters, the sign first. *)
Definition format_04d (z : Z) : string :=
  if z <? 0 then String "-" (zfill 3 (str_of_int (- z)))
  else zfill 4 (str_of_int z).

(** [s.replace(" ", "T")]. *)
Fixpoint replace_space_T (s : string) : string :=
  match s with
  | EmptyString => EmptyString
  | String c s' =>
      String (if Ascii.eqb c " " then "T"%char else c) (replace_space_T s')
  end.

(** *** [str.strip()]

    Python strips the characters for which [str.isspace] holds.  On the
    UTF-8 bytes these are the one-byte codes 09-0D, 1C-1F and 20, and the
    encodings of U+0085, U+00A0, U+1680, U+2000-U+200A, U+2028, U+2029,
    U+202F, U+205F and U+3000. *)

Definition ascii_space (b : N) : bool :=
  ((9 <=? b) && (b <=? 13) || (28 <=? b) && (b <=? 32))%N.

(** Length in bytes of the whitespace character a byte list starts with,
    0 when it starts with none. *)
Definition space_prefix (bs : list N) : nat :=
  match bs with
  | b :: rest =>
      if ascii_space b then 1%nat
      else match b, rest with
           | 194%N, 133%N :: _ => 2%nat
           | 194%N, 160%N :: _ => 2%nat
           | 225%N, 154%N :: 128%N :: _ => 3%nat
           | 226%N, 128%N :: c :: _ =>
               if ((128 <=? c) && (c <=? 138) || (c =? 168) || (c =? 169)
                   || (c =? 175))%N then 3%nat else 0%nat
           | 226%N, 129%N :: 159%N :: _ => 3%nat
           | 227%N, 128%N :: 128%N :: _ => 3%nat
           | _, _ => 0%nat
           end
  | [] => 0%nat
  end.

(** The same for a byte list read backwards from the end of the text. *)
Definition space_suffix (rbs : list N) : nat :=
  match rbs with
  | b :: rest =>
      if ascii_space b then 1%nat
      else match b, rest with
           | 133%N, 194%N :: _ => 2%nat
           | 160%N, 194%N :: _ => 2%nat
           | 128%N, 154%N :: 225%N :: _ => 3%nat
           | c, 128%N :: 226%N :: _ =>
               if ((128 <=? c) && (c <=? 138) || (c =? 168) || (c =? 169)
                   || (c =? 175))%N then 3%nat else 0%nat
           | 159%N, 129%N :: 226%N :: _ => 3%nat
           | 128%N, 128%N :: 227%N :: _ => 3%nat
           | _, _ => 0%nat
           end
  | [] => 0%nat
  end.

(** Dropping whitespace characters from the head; [fuel] bounds the number
    of characters dropped and is the length of the list. *)
Fixpoint drop_spaces (pre : list N -> nat) (fuel : nat) (bs : list N)
  : list N :=
  match fuel with
  | O => bs
  | S fuel' =>
      match pre bs with
      | O => bs
      | k => drop_spaces pre fuel' (drop k bs)
      end
  end.

Definition bytes_of (s : string) : list N :=
  map N_of_ascii (list_ascii_of_string s).

Definition text_of (bs : list N) : string :=
  string_of_list_ascii (map ascii_of_N bs).

Definition strip (s : string) : string :=
  let l := drop_spaces space_prefix (String.length s) (bytes_of s) in
  let r := drop_spaces space_suffix (length l) (rev l) in
  text_of (rev r).

End Py.
Export Py.

(** ** Naive datetimes *)

Module DT.

(** Microseconds since 0001-01-01 00:00:00. *)
Record datetime := DateTime { micros : Z }.

Definition US_PER_SECOND : Z := 1000000.
Definition US_PER_DAY : Z := 86400 * US_PER_SECOND.

(** The first instant after 9999-12-31 23:59:59.999999, in days
    ([date.max.toordinal()]). *)
Definition MAX_ORDINAL : Z := 3652059.

Definition in_range (t : datetime) : bool :=
  (0 <=? micros t) && (micros t <? MAX_ORDINAL * US_PER_DAY).

Definition is_leap (y : Z) : bool :=
  (y mod 4 =? 0) && (negb (y mod 100 =? 0) || (y mod 400 =? 0)).

Definition days_in_month (y m : Z) : Z :=
  if m =? 2 then (if is_leap y then 29 else 28)
  else if (m =? 4) || (m =? 6) || (m =? 9) || (m =? 11) then 30
  else 31.

(** Month and day of the month of the [n]-th day (from 0) of year [y]. *)
Fixpoint month_day (y : Z) (fuel : nat) (m n : Z) : Z * Z :=
  match fuel with
  | O => (m, n + 1)
  | S fuel' =>
      if n <? days_in_month y m then (m, n + 1)
      else month_day y fuel' (m + 1) (n - days_in_month y m)
  end.

(** Year, month and day of a day number counted from 0001-01-01 = 0. *)
Definition civil (days : Z) : Z * Z * Z :=
  let n400 := days / 146097 in
  let n := days mod 146097 in
  let n100 := n / 36524 in
  let n := n mod 36524 in
  let n4 := n / 1461 in
  let n := n mod 1461 in
  let n1 := n / 365 in
  let n := n mod 365 in
  let y := n400 * 400 + n100 * 100 + n4 * 4 + n1 + 1 in
  if (n1 =? 4) || (n100 =? 4) then (y - 1, 12, 31)
  else let '(m, d) := month_day y 11 1 n in (y, m, d).

Definition pad (w : nat) (z : Z) : string := zfill w (str_of_int z).

(** [t.strftime("%Y%m%d")]. *)
Definition strftime_Ymd (t : datetime) : string :=
  let '(y, m, d) := civil (micros t / US_PER_DAY) in
  pad 4 y +:+ pad 2 m +:+ pad 2 d.

(** [t.strftime("%Y-%m-%d %H:%M:%S")], also the text SQLite gives for
    CURRENT_TIMESTAMP. *)
Definition strftime_iso (t : datetime) : string :=
  let '(y, m, d) := civil (micros t / US_PER_DAY) in
  let s := (micros t mod US_PER_DAY) / US_PER_SECOND in
  pad 4 y +:+ "-" +:+ pad 2 m +:+ "-" +:+ pad 2 d +:+ " " +:+
  pad 2 (s / 3600) +:+ ":" +:+ pad 2 (s mod 3600 / 60) +:+ ":" +:+
  pad 2 (s mod 60).

(** [t + timedelta(days=n)]: OverflowError when the number of days is not
    a legal timedelta or the sum leaves the range of [datetime]. *)
Definition add_days (t : datetime) (n : Z) : exn + datetime :=
  if (n <? -999999999) || (999999999 <? n) then inl OverflowError
  else
    let r := DateTime (micros t + n * US_PER_DAY) in
    if in_range r then inr r else inl OverflowError.

(** Day number of a civil date, for writing instants down in examples. *)
Definition days_before_year (y : Z) : Z :=
  let p := y - 1 in p * 365 + p / 4 - p / 100 + p / 400.

Fixpoint days_before_month (y : Z) (fuel : nat) (m : Z) : Z :=
  match fuel with
  | O => 0
  | S fuel' =>
      if m <=? 1 then 0
      else days_in_month y (m - 1) + days_before_month y fuel' (m - 1)
  end.

Definition mk_datetime (y m d hh mm ss us : Z) : datetime :=
  DateTime
    (((days_before_year y + days_before_month y 12 m + (d - 1)) * 86400
      + hh * 3600 + mm * 60 + ss) * US_PER_SECOND + us).

End DT.
Export DT.

(** ** The SQLite store *)

Module Sql.

(** *** Rows of the tables created by [Database.create_tables] *)

Record users_row := {
  u_id : Z;
  username : string;
  password : string;
  full_name : value;
  role : value;
  phone : value;
  email : value;
  is_active : bool;
  u_created_at : string
}.

Record requests_row := {
  r_id : Z;
  request_number : string;
  created_date : string;
  equipment_type : value;
  device_model : value;
  fault_type : value;
  problem_description : value;
  customer_name : value;
  customer_phone : value;
  status : string;
  assigned_to : option Z;
  assist_to : option Z;
  estimated_cost : value;
  actual_cost : value;
  deadline : value;
  deadline_extended_to : option string;
  extension_reason : option string;
  client_approval : option string;
  client_approval_at : option string;
  extended_by : option Z;
  completed_date : option string
}.

Record status_history_row := {
  sh_id : Z;
  sh_request_id : Z;
  old_status : option string;
  new_status : string;
  changed_by : option Z;
  changed_at : string
}.

Record help_requests_row := {
  h_id : Z;
  h_request_id : Z;
  requested_by : Z;
  message : string;
  h_status : string;
  h_created_at : string;
  resolved_by : option Z;
  resolved_at : option string;
  resolution_note : option string
}.

(** The tables, with the counters SQLite keeps in [sqlite_sequence] for
    the AUTOINCREMENT keys. *)
Record tables := {
  users : list users_row;
  requests : list requests_row;
  status_history : list status_history_row;
  help_requests : list help_requests_row;
  seq_requests : Z;
  seq_status_history : Z;
  seq_help_requests : Z
}.

(** The database object: the committed tables and the tables as the
    connection sees them. *)
Record Database := {
  committed : tables;
  working : tables
}.

(** *** Computations on the connection *)

Inductive outcome (A : Type) :=
| Ok (a : A)
| Raise (e : exn).
Arguments Ok {A} a.
Arguments Raise {A} e.

Definition sql (A : Type) : Type := Database -> Database * outcome A.

Definition ret {A} (a : A) : sql A := fun db => (db, Ok a).

Definition bind {A B} (k : A -> sql B) (m : sql A) : sql B :=
  fun db =>
    match m db with
    | (db', Ok a) => k a db'
    | (db', Raise e) => (db', Raise e)
    end.

(** With these instances [x ← m; k] and [m;; k] sequence statements. *)
#[export] Instance sql_ret : MRet sql := @ret.
#[export] Instance sql_bind : MBind sql := @bind.

(** [try: body except Exception: handler]. *)
Definition try_except {A} (body : sql A) (handler : exn -> sql A) : sql A :=
  fun db =>
    match body db with
    | (db', Ok a) => (db', Ok a)
    | (db', Raise e) => handler e db'
    end.

(** A Python expression that may raise. *)
Definition eval {A} (r : exn + A) : sql A :=
  fun db => match r with inr a => (db, Ok a) | inl e => (db, Raise e) end.

(** A SELECT: reads the tables the connection sees. *)
Definition query {A} (q : tables -> A) : sql A :=
  fun db => (db, Ok (q (working db))).

(** An INSERT or UPDATE: on success the connection sees the new tables, on
    a constraint failure the statement changes nothing. *)
Definition execute {A} (stmt : tables -> exn + tables * A) : sql A :=
  fun db =>
    match stmt (working db) with
    | inr (t, a) => ({| committed := committed db; working := t |}, Ok a)
    | inl e => (db, Raise e)
    end.

(** [self.conn.commit()]. *)
Definition commit : sql unit :=
  fun db => ({| committed := working db; working := working db |}, Ok tt).

(** *** LIKE

    SQLite's default LIKE: [%] matches any run of characters, [_] one
    character (a whole UTF-8 sequence), any other character matches itself,
    ASCII letters without regard to case. *)

Definition ascii_lower (c : ascii) : ascii :=
  let n := N_of_ascii c in
  if ((65 <=? n) && (n <=? 90))%N then ascii_of_N (n + 32) else c.

Definition ci_eqb (c d : ascii) : bool :=
  Ascii.eqb (ascii_lower c) (ascii_lower d).

Definition is_continuation (c : ascii) : bool :=
  let n := N_of_ascii c in ((128 <=? n) && (n <? 192))%N.

Fixpoint skip_continuation (s : list ascii) : list ascii :=
  match s with
  | c :: s' => if is_continuation c then skip_continuation s' else s
  | [] => []
  end.

Definition skip_char (c : ascii) (rest : list ascii) : list ascii :=
  if (192 <=? N_of_ascii c)%N then skip_continuation rest else rest.

Fixpoint like_match (p s : list ascii) {struct p} : bool :=
  match p with
  | [] => match s with [] => true | _ :: _ => false end
  | c :: p' =>
      if Ascii.eqb c "%" then
        (fix any (s : list ascii) : bool :=
           like_match p' s ||
           match s with [] => false | _ :: s' => any s' end) s
      else if Ascii.eqb c "_" then
        match s with
        | [] => false
        | d :: s' => like_match p' (skip_char d s')
        end
      else
        match s with
        | [] => false
        | d :: s' => ci_eqb c d && like_match p' s'
        end
  end.

(** [text LIKE pattern]. *)
Definition like (text pattern : string) : bool :=
  like_match (list_ascii_of_string pattern) (list_ascii_of_string text).

(** *** Keys *)

Definition max_id (ids : list Z) : Z := foldr Z.max 0 ids.

(** The key an AUTOINCREMENT column gives to a new row: one more than the
    largest key the table holds or has ever held. *)
Definition next_rowid (ids : list Z) (seq : Z) : Z := Z.max (max_id ids) seq + 1.

Definition user_exists (t : tables) (uid : Z) : bool :=
  bool_decide (uid ∈ map u_id (users t)).

Definition request_exists (t : tables) (rid : Z) : bool :=
  bool_decide (rid ∈ map r_id (requests t)).

(** A nullable foreign key into [users]. *)
Definition user_ref_ok (t : tables) (ref : option Z) : bool :=
  match ref with None => true | Some uid => user_exists t uid end.

Definition with_requests (t : tables) (rs : list requests_row) : tables :=
  {| users := users t; requests := rs; status_history := status_history t;
     help_requests := help_requests t; seq_requests := seq_requests t;
     seq_status_history := seq_status_history t;
     seq_help_requests := seq_help_requests t |}.

Definition with_help_requests (t : tables) (hs : list help_requests_row)
  : tables :=
  {| users := users t; requests := requests t;
     status_history := status_history t;
     help_requests := hs; seq_requests := seq_requests t;
     seq_status_history := seq_status_history t;
     seq_help_requests := seq_help_requests t |}.

(** [UPDATE requests SET ... WHERE id=?]: the rows with the key are
    rewritten by [f]; the count of matched rows is the cursor's
    [rowcount]. *)
Definition update_where_id (rid : Z) (f : requests_row -> requests_row)
  (rs : list requests_row) : list requests_row :=
  map (fun r => if decide (r_id r = rid) then f r else r) rs.

Definition matched (rid : Z) (rs : list requests_row) : Z :=
  Z.of_nat (length (filter (fun r => r_id r = rid) rs)).

(** The UPDATE as a statement: it fails when a row is matched and one of
    the user keys it writes ([refs]) names no user (foreign keys are
    checked, PRAGMA foreign_keys = ON). *)
Definition update_requests (rid : Z) (refs : list (option Z))
  (f : requests_row -> requests_row) (t : tables) : exn + tables * Z :=
  if (0 <? matched rid (requests t)) && negb (forallb (user_ref_ok t) refs)
  then inl IntegrityError
  else inr (with_requests t (update_where_id rid f (requests t)),
            matched rid (requests t)).

(** *** Values as SQLite takes them

    The statements above bind values as given.  sqlite3 itself raises
    OverflowError for an int outside 64 bits and stores NaN as NULL, and a
    column converts what it is given by its affinity: a TEXT column turns
    a number into text, a TIMESTAMP column (NUMERIC affinity) turns a text
    that is a well-formed number into that number.  The properties that
    depend on a bound or stored value say for which values binding as given
    is what SQLite does, with the tests below. *)

(** sqlite3 binds the value: an int fits in 64 bits. *)
Definition binds (v : value) : bool :=
  match v with
  | VInt z => (- 2 ^ 63 <=? z) && (z <? 2 ^ 63)
  | _ => true
  end.

(** A TEXT column returns the value as it was bound: NULL or text. *)
Definition kept_as_text (v : value) : bool :=
  match v with
  | VNone | VStr _ => true
  | _ => false
  end.

(** The float is a NaN: all exponent bits set and a mantissa that is not
    zero. *)
Definition nan (f : pyfloat) : bool :=
  2047 * 2 ^ 52 <? float_bits f mod 2 ^ 63.

(** A byte that a number, with blanks around it, can have: a control code
    or the space, a digit, a sign, the point or the letter of the
    exponent. *)
Definition in_number (c : ascii) : bool :=
  let n := N_of_ascii c in
  ((n <=? 32) || (48 <=? n) && (n <=? 57) || (n =? 43) || (n =? 45)
   || (n =? 46) || (n =? 69) || (n =? 101))%N.

(** A TIMESTAMP column keeps the text as text: it is empty or has a byte
    that no number has, like the colon of a time. *)
Definition kept_as_timestamp (s : string) : bool :=
  String.eqb s ""
  || existsb (fun c => negb (in_number c)) (list_ascii_of_string s).

End Sql.
Export Sql.

(** ** Library functions of the Python runtime *)

(** What [datetime.fromisoformat] returns: a naive datetime, or one that
    carries a UTC offset. *)
Inductive parsed_datetime :=
| Naive (t : datetime)
| Aware (t : datetime) (utcoffset_us : Z).

Class PyRuntime := {
  (** [hashlib.sha256(bytes).hexdigest()] *)
  sha256_hexdigest : string -> string;
  (** [float(v)] *)
  float_of : value -> exn + pyfloat;
  (** [repr(f)], which is what [str(f)] gives *)
  float_repr : pyfloat -> string;
  (** [datetime.fromisoformat(s)], [None] for ValueError *)
  fromisoformat : string -> option parsed_datetime
}.

(** ** database.py *)

Module Db.

Section Database.
Context `{PyRuntime}.

(** [_sha256]: the text is UTF-8 encoded, which is how it is held here. *)
Definition _sha256 (s : string) : string := sha256_hexdigest s.

(** *** Users *)

Definition select_user (uname hp : string) (t : tables) : option users_row :=
  head (filter (fun u => username u = uname /\ password u = hp
                         /\ is_active u = true) (users t)).

Definition authenticate_user (uname pw : string) : sql (option users_row) :=
  let hp := _sha256 pw in
  query (select_user uname hp).

(** *** Request number *)

Definition count_like (pattern : string) (t : tables) : Z :=
  Z.of_nat (length (filter (fun r => like (request_number r) pattern = true)
                           (requests t))).

Definition generate_request_number (now : datetime) : sql string :=
  let prefix := "REQ" in
  let date_part := strftime_Ymd now in
  cnt ← query (count_like (prefix +:+ date_part +:+ "%"));
  let cnt := cnt + 1 in
  mret (prefix +:+ date_part +:+ format_04d cnt).

(** *** Requests *)

(** [INSERT INTO requests (...) VALUES (?, ..., 'открыта', ?, ?)]: the
    number is UNIQUE; the columns not named get their defaults. *)
Definition insert_request (number : string)
  (eq_type model fault descr cname cphone : value)
  (cost : pyfloat) (dl : string) (ts : datetime) (t : tables)
  : exn + tables * Z :=
  if bool_decide (number ∈ map request_number (requests t))
  then inl IntegrityError
  else
    let rid := next_rowid (map r_id (requests t)) (seq_requests t) in
    let row :=
      {| r_id := rid; request_number := number;
         created_date := strftime_iso ts;
         equipment_type := eq_type; device_model := model;
         fault_type := fault; problem_description := descr;
         customer_name := cname; customer_phone := cphone;
         status := "открыта";
         assigned_to := None; assist_to := None;
         estimated_cost := VFloat cost; actual_cost := VNone;
         deadline := VStr dl; deadline_extended_to := None;
         extension_reason := None; client_approval := None;
         client_approval_at := None; extended_by := None;
         completed_date := None |} in
    inr ({| users := users t; requests := requests t ++ [row];
            status_history := status_history t;
            help_requests := help_requests t;
            seq_requests := rid;
            seq_status_history := seq_status_history t;
            seq_help_requests := seq_help_requests t |}, rid).

(** [INSERT INTO status_history (request_id, old_status, new_status,
    changed_by)]: both keys are foreign keys. *)
Definition insert_status_history (rid : Z) (old : option string)
  (new : string) (by_user : option Z) (ts : datetime) (t : tables)
  : exn + tables * Z :=
  if request_exists t rid && user_ref_ok t by_user then
    let hid := next_rowid (map sh_id (status_history t))
                 (seq_status_history t) in
    let row :=
      {| sh_id := hid; sh_request_id := rid; old_status := old;
         new_status := new; changed_by := by_user;
         changed_at := strftime_iso ts |} in
    inr ({| users := users t; requests := requests t;
            status_history := status_history t ++ [row];
            help_requests := help_requests t;
            seq_requests := seq_requests t;
            seq_status_history := hid;
            seq_help_requests := seq_help_requests t |}, hid)
  else inl IntegrityError.

Definition add_request (request_data : gmap string value)
  (default_deadline_days : Z)
  (now_number now_deadline ts_request ts_history : datetime)
  : sql (option Z) :=
  try_except
    (request_number ← generate_request_number now_number;
     dl ← eval (add_days now_deadline default_deadline_days);
     let deadline := strftime_iso dl in
     cost ← eval (float_of
                    (py_or (dict_get request_data "estimated_cost") (VInt 0)));
     request_id ← execute
       (insert_request request_number
          (dict_get request_data "equipment_type")
          (dict_get request_data "device_model")
          (dict_get request_data "fault_type")
          (dict_get request_data "problem_description")
          (dict_get request_data "customer_name")
          (dict_get request_data "customer_phone")
          cost deadline ts_request);
     execute (insert_status_history request_id None "открыта" None
                ts_history);;
     commit;;
     mret (Some request_id))
    (fun _ => mret None).

(** The six values of the dictionary that [add_request] binds to the TEXT
    columns of the request. *)
Definition request_texts (request_data : gmap string value) : list value :=
  map (dict_get request_data)
    [ "equipment_type"; "device_model"; "fault_type";
      "problem_description"; "customer_name"; "customer_phone" ].

(** The default of the parameter [default_deadline_days]. *)
Definition DEFAULT_DEADLINE_DAYS : Z := 3.

(** The joined row [get_request] returns. *)
Record request_view := {
  rv_row : requests_row;
  assigned_name : value;
  assist_name : value;
  extended_by_name : value
}.

(** [LEFT JOIN users u ON u.id = ref], column [u.full_name]. *)
Definition joined_names (t : tables) (ref : option Z) : list value :=
  match filter (fun u => Some (u_id u) = ref) (users t) with
  | [] => [VNone]
  | us => map full_name us
  end.

Definition select_request (rid : Z) (t : tables) : option request_view :=
  head (r ← filter (fun r => r_id r = rid) (requests t);
        n1 ← joined_names t (assigned_to r);
        n2 ← joined_names t (assist_to r);
        n3 ← joined_names t (extended_by r);
        [ {| rv_row := r; assigned_name := n1; assist_name := n2;
             extended_by_name := n3 |} ]).

Definition get_request (request_id : Z) : sql (option request_view) :=
  query (select_request request_id).

Definition allowed : list string :=
  [ "equipment_type"; "device_model"; "fault_type"; "problem_description";
    "customer_name"; "customer_phone";
    "estimated_cost"; "actual_cost";
    "deadline" ].

(** One assignment [column=?] of a SET clause, for the columns the clause
    may carry. *)
Definition set_column (k : string) (v : value) (r : requests_row)
  : requests_row :=
  let upd eq_type model fault descr cname cphone ecost acost dl :=
    {| r_id := r_id r; request_number := request_number r;
       created_date := created_date r;
       equipment_type := eq_type; device_model := model;
       fault_type := fault; problem_description := descr;
       customer_name := cname; customer_phone := cphone;
       status := status r;
       assigned_to := assigned_to r; assist_to := assist_to r;
       estimated_cost := ecost; actual_cost := acost;
       deadline := dl; deadline_extended_to := deadline_extended_to r;
       extension_reason := extension_reason r;
       client_approval := client_approval r;
       client_approval_at := client_approval_at r;
       extended_by := extended_by r;
       completed_date := completed_date r |} in
  let keep := upd (equipment_type r) (device_model r) (fault_type r)
                  (problem_description r) (customer_name r)
                  (customer_phone r) in
  if String.eqb k "equipment_type" then
    upd v (device_model r) (fault_type r) (problem_description r)
        (customer_name r) (customer_phone r)
        (estimated_cost r) (actual_cost r) (deadline r)
  else if String.eqb k "device_model" then
    upd (equipment_type r) v (fault_type r) (problem_description r)
        (customer_name r) (customer_phone r)
        (estimated_cost r) (actual_cost r) (deadline r)
  else if String.eqb k "fault_type" then
    upd (equipment_type r) (device_model r) v (problem_description r)
        (customer_name r) (customer_phone r)
        (estimated_cost r) (actual_cost r) (deadline r)
  else if String.eqb k "problem_description" then
    upd (equipment_type r) (device_model r) (fault_type r) v
        (customer_name r) (customer_phone r)
        (estimated_cost r) (actual_cost r) (deadline r)
  else if String.eqb k "customer_name" then
    upd (equipment_type r) (device_model r) (fault_type r)
        (problem_description r) v (customer_phone r)
        (estimated_cost r) (actual_cost r) (deadline r)
  else if String.eqb k "customer_phone" then
    upd (equipment_type r) (device_model r) (fault_type r)
        (problem_description r) (customer_name r) v
        (estimated_cost r) (actual_cost r) (deadline r)
  else if String.eqb k "estimated_cost" then
    keep v (actual_cost r) (deadline r)
  else if String.eqb k "actual_cost" then
    keep (estimated_cost r) v (deadline r)
  else if String.eqb k "deadline" then
    keep (estimated_cost r) (actual_cost r) v
  else r.

(** The whole SET clause, assignments applied left to right. *)
Definition set_columns (fields : list (string * value)) (r : requests_row)
  : requests_row :=
  foldl (fun r kv => set_column kv.1 kv.2 r) r fields.

(** [UPDATE requests SET <fields> WHERE id=?]; a name that is not among
    the columns above would make the statement fail. *)
Definition update_request_fields (rid : Z) (fields : list (string * value))
  (t : tables) : exn + tables * Z :=
  if forallb (fun kv => bool_decide (kv.1 ∈ allowed)) fields
  then inr (with_requests t
              (update_where_id rid (set_columns fields) (requests t)),
            matched rid (requests t))
  else inl OperationalError.

(** The loop over [allowed]: the pairs [(k, update_data[k])] for the
    allowed names present in the dictionary, in the order of [allowed]. *)
Definition collect_fields (update_data : gmap string value)
  : list (string * value) :=
  omap (fun k => match update_data !! k with
                 | Some v => Some (k, v)
                 | None => None
                 end) allowed.

Definition update_request (request_id : Z) (update_data : gmap string value)
  : sql bool :=
  let fields := collect_fields update_data in
  match fields with
  | [] => mret true
  | _ =>
    try_except
      (rowcount ← execute (update_request_fields request_id fields);
       commit;;
       mret (0 <? rowcount))
      (fun _ => mret false)
  end.

(** *** Status and assignment *)

Definition select_status (rid : Z) (t : tables) : option string :=
  status <$> head (filter (fun r => r_id r = rid) (requests t)).

Definition set_status (new : string) (completed : option string)
  (r : requests_row) : requests_row :=
  {| r_id := r_id r; request_number := request_number r;
     created_date := created_date r;
     equipment_type := equipment_type r; device_model := device_model r;
     fault_type := fault_type r;
     problem_description := problem_description r;
     customer_name := customer_name r; customer_phone := customer_phone r;
     status := new;
     assigned_to := assigned_to r; assist_to := assist_to r;
     estimated_cost := estimated_cost r; actual_cost := actual_cost r;
     deadline := deadline r;
     deadline_extended_to := deadline_extended_to r;
     extension_reason := extension_reason r;
     client_approval := client_approval r;
     client_approval_at := client_approval_at r;
     extended_by := extended_by r;
     completed_date := completed |}.

(** [int(changed_by) if changed_by else None]. *)
Definition actor_of (changed_by : option Z) : option Z :=
  match changed_by with
  | Some z => if z =? 0 then None else Some z
  | None => None
  end.

Definition update_request_status (request_id : Z) (new_status : string)
  (changed_by : option Z) (now ts_history : datetime) : sql bool :=
  try_except
    (row ← query (select_status request_id);
     match row with
     | None => mret false
     | Some old_status =>
         let completed_date :=
           if String.eqb new_status "завершена"
           then Some (strftime_iso now) else None in
         execute (update_requests request_id []
                    (set_status new_status completed_date));;
         execute (insert_status_history request_id (Some old_status)
                    new_status (actor_of changed_by) ts_history);;
         commit;;
         mret true
     end)
    (fun _ => mret false).

Definition set_assigned_to (uid : Z) (r : requests_row) : requests_row :=
  {| r_id := r_id r; request_number := request_number r;
     created_date := created_date r;
     equipment_type := equipment_type r; device_model := device_model r;
     fault_type := fault_type r;
     problem_description := problem_description r;
     customer_name := customer_name r; customer_phone := customer_phone r;
     status := status r;
     assigned_to := Some uid; assist_to := assist_to r;
     estimated_cost := estimated_cost r; actual_cost := actual_cost r;
     deadline := deadline r;
     deadline_extended_to := deadline_extended_to r;
     extension_reason := extension_reason r;
     client_approval := client_approval r;
     client_approval_at := client_approval_at r;
     extended_by := extended_by r;
     completed_date := completed_date r |}.

Definition set_assist_to (uid : Z) (r : requests_row) : requests_row :=
  {| r_id := r_id r; request_number := request_number r;
     created_date := created_date r;
     equipment_type := equipment_type r; device_model := device_model r;
     fault_type := fault_type r;
     problem_description := problem_description r;
     customer_name := customer_name r; customer_phone := customer_phone r;
     status := status r;
     assigned_to := assigned_to r; assist_to := Some uid;
     estimated_cost := estimated_cost r; actual_cost := actual_cost r;
     deadline := deadline r;
     deadline_extended_to := deadline_extended_to r;
     extension_reason := extension_reason r;
     client_approval := client_approval r;
     client_approval_at := client_approval_at r;
     extended_by := extended_by r;
     completed_date := completed_date r |}.

Definition assign_request (request_id specialist_id : Z) : sql bool :=
  try_except
    (rowcount ← execute (update_requests request_id [Some specialist_id]
                           (set_assigned_to specialist_id));
     commit;;
     mret (0 <? rowcount))
    (fun _ => mret false).

Definition set_assistant_master (request_id assistant_id : Z) : sql bool :=
  try_except
    (rowcount ← execute (update_requests request_id [Some assistant_id]
                           (set_assist_to assistant_id));
     commit;;
     mret (0 <? rowcount))
    (fun _ => mret false).

Definition reassign_master (request_id new_master_id : Z) : sql bool :=
  assign_request request_id new_master_id.

(** *** Deadline extension *)

Definition set_extension (new_deadline reason approval approved_at : string)
  (uid : Z) (r : requests_row) : requests_row :=
  {| r_id := r_id r; request_number := request_number r;
     created_date := created_date r;
     equipment_type := equipment_type r; device_model := device_model r;
     fault_type := fault_type r;
     problem_description := problem_description r;
     customer_name := customer_name r; customer_phone := customer_phone r;
     status := status r;
     assigned_to := assigned_to r; assist_to := assist_to r;
     estimated_cost := estimated_cost r; actual_cost := actual_cost r;
     deadline := deadline r;
     deadline_extended_to := Some new_deadline;
     extension_reason := Some reason;
     client_approval := Some approval;
     client_approval_at := Some approved_at;
     extended_by := Some uid;
     completed_date := completed_date r |}.

Definition extend_deadline (request_id : Z)
  (new_deadline reason approval_text : string) (extended_by_user : Z)
  (ts : datetime) : sql bool :=
  try_except
    (rowcount ← execute
       (update_requests request_id [Some extended_by_user]
          (set_extension new_deadline reason approval_text
             (strftime_iso ts) extended_by_user));
     commit;;
     mret (0 <? rowcount))
    (fun _ => mret false).

(** *** Help requests *)

Definition insert_help_request (rid uid : Z) (msg : string) (ts : datetime)
  (t : tables) : exn + tables * Z :=
  if request_exists t rid && user_exists t uid then
    let hid := next_rowid (map h_id (help_requests t))
                 (seq_help_requests t) in
    let row :=
      {| h_id := hid; h_request_id := rid; requested_by := uid;
         message := msg; h_status := "open";
         h_created_at := strftime_iso ts;
         resolved_by := None; resolved_at := None;
         resolution_note := None |} in
    inr ({| users := users t; requests := requests t;
            status_history := status_history t;
            help_requests := help_requests t ++ [row];
            seq_requests := seq_requests t;
            seq_status_history := seq_status_history t;
            seq_help_requests := hid |}, hid)
  else inl IntegrityError.

Definition create_help_request (request_id requested_by_user : Z)
  (msg : string) (ts : datetime) : sql (option Z) :=
  try_except
    (hid ← execute (insert_help_request request_id requested_by_user msg ts);
     commit;;
     mret (Some hid))
    (fun _ => mret None).

(** A row of the listing of open help requests. *)
Record open_help_row := {
  help_id : Z;
  oh_request_id : Z;
  oh_message : string;
  oh_created_at : string;
  oh_request_number : string;
  oh_status : string;
  oh_deadline : value;
  oh_deadline_extended_to : option string;
  oh_assigned_to : option Z;
  oh_assigned_name : value;
  oh_assist_to : option Z;
  oh_assist_name : value;
  oh_requested_by : Z;
  oh_requested_by_name : value
}.

(** [ORDER BY hr.created_at DESC]: texts compare byte by byte. *)
Definition newest_first (a b : open_help_row) : Prop :=
  String.leb (oh_created_at b) (oh_created_at a) = true.

#[export] Instance newest_first_dec : RelDecision newest_first.
Proof. intros a b. unfold newest_first. apply _. Defined.

(** The joins and the WHERE clause of [list_open_help_requests]. *)
Definition open_help_join (t : tables) : list open_help_row :=
  hr ← help_requests t;
  r ← filter (fun r => r_id r = h_request_id hr) (requests t);
  n1 ← joined_names t (assigned_to r);
  n2 ← joined_names t (assist_to r);
  u3 ← filter (fun u => u_id u = requested_by hr) (users t);
  if String.eqb (h_status hr) "open" then
    [ {| help_id := h_id hr; oh_request_id := h_request_id hr;
         oh_message := message hr; oh_created_at := h_created_at hr;
         oh_request_number := request_number r; oh_status := status r;
         oh_deadline := deadline r;
         oh_deadline_extended_to := deadline_extended_to r;
         oh_assigned_to := assigned_to r; oh_assigned_name := n1;
         oh_assist_to := assist_to r; oh_assist_name := n2;
         oh_requested_by := requested_by hr;
         oh_requested_by_name := full_name u3 |} ]
  else [].

Definition select_open_help (t : tables) : list open_help_row :=
  merge_sort newest_first (open_help_join t).

Definition list_open_help_requests : sql (list open_help_row) :=
  try_except (query select_open_help) (fun _ => mret []).

Definition set_resolved (uid : Z) (at_ note : string)
  (h : help_requests_row) : help_requests_row :=
  {| h_id := h_id h; h_request_id := h_request_id h;
     requested_by := requested_by h; message := message h;
     h_status := "resolved"; h_created_at := h_created_at h;
     resolved_by := Some uid; resolved_at := Some at_;
     resolution_note := Some note |}.

(** [UPDATE help_requests SET status='resolved', ... WHERE id=?]. *)
Definition update_help_resolved (hid uid : Z) (note : string) (ts : datetime)
  (t : tables) : exn + tables * Z :=
  let n := Z.of_nat (length (filter (fun h => h_id h = hid)
                               (help_requests t))) in
  if (0 <? n) && negb (user_exists t uid) then inl IntegrityError
  else inr (with_help_requests t
              (map (fun h => if decide (h_id h = hid)
                             then set_resolved uid (strftime_iso ts) note h
                             else h) (help_requests t)), n).

Definition resolve_help_request (help_id resolved_by_user : Z)
  (resolution_note : string) (ts : datetime) : sql bool :=
  try_except
    (rowcount ← execute (update_help_resolved help_id resolved_by_user
                           resolution_note ts);
     commit;;
     mret (0 <? rowcount))
    (fun _ => mret false).

(** *** Status history *)

(** [get_status_history] without the joined name and the ordering: the
    entries of a request, in insertion order. *)
Definition history_of (rid : Z) (t : tables) : list status_history_row :=
  filter (fun h => sh_request_id h = rid) (status_history t).

(** A row of [get_status_history]: the entry and the joined name. *)
Record history_view := {
  hv_row : status_history_row;
  changed_by_name : value
}.

(** [ORDER BY sh.changed_at DESC]. *)
Definition latest_first (a b : history_view) : Prop :=
  String.leb (changed_at (hv_row b)) (changed_at (hv_row a)) = true.

#[export] Instance latest_first_dec : RelDecision latest_first.
Proof. intros a b. unfold latest_first. apply _. Defined.

(** The join and the WHERE clause of [get_status_history]. *)
Definition history_join (rid : Z) (t : tables) : list history_view :=
  h ← history_of rid t;
  n ← joined_names t (changed_by h);
  [ {| hv_row := h; changed_by_name := n |} ].

(** Entries with the same time are kept in the order of the table;
    SQLite promises no order among them. *)
Definition select_status_history (rid : Z) (t : tables)
  : list history_view :=
  merge_sort latest_first (history_join rid t).

Definition get_status_history (request_id : Z) : sql (list history_view) :=
  try_except (query (select_status_history request_id)) (fun _ => mret []).

End Database.
End Db.
Export Db.

(** ** app.py: roles, the deadline indicator and the guarded actions *)

Module App.

(** [st.number_input(label, min_value=0.0, step=100.0, value=x)]: whether
    the widget takes [x] as its default; it raises StreamlitAPIException
    when it does not. *)
Class Widgets := {
  number_input_accepts : pyfloat -> bool
}.

Section App.
Context `{PyRuntime}.

(** [st.session_state.user]: the row [authenticate_user] returned, or
    [None] before login. *)
Definition session := option users_row.

(** [role()]: [(user or {}).get("role", "")]. *)
Definition role_of (user : session) : value :=
  match user with Some u => role u | None => VStr "" end.

(** [user_id()]: [int((user or {}).get("id", 0) or 0)]. *)
Definition user_id (user : session) : Z :=
  match user with Some u => u_id u | None => 0 end.

Definition value_is (v : value) (s : string) : bool :=
  match v with VStr s' => String.eqb s' s | _ => false end.

Definition is_admin (user : session) : bool := value_is (role_of user) "admin".
Definition is_specialist (user : session) : bool :=
  value_is (role_of user) "specialist".
Definition is_quality_manager (user : session) : bool :=
  value_is (role_of user) "quality_manager".
Definition can_qm_actions (user : session) : bool :=
  is_quality_manager user || is_admin user.

(** [str(v)]. *)
Definition py_str (v : value) : string :=
  match v with
  | VNone => "None"
  | VInt z => str_of_int z
  | VFloat f => float_repr f
  | VStr s => s
  end.

Definition effective_deadline (r : requests_row) : value :=
  py_or (py_or (of_text (deadline_extended_to r)) (deadline r)) (VStr "").

Definition DAY_US : Z := 24 * 3600 * US_PER_SECOND.

(** The body of the [try]: [delta.total_seconds()] is the number of
    microseconds of [delta] divided by 10^6; its comparisons with 0 and
    with 24 * 3600 are decided by the microseconds.  Subtracting the naive
    [datetime.now()] from an aware datetime raises TypeError, which the
    [except] turns into the empty text, like the ValueError of the
    parser. *)
Definition deadline_state (r : requests_row) (now : datetime) : string :=
  if String.eqb (status r) "завершена" then ""
  else
    let dl := effective_deadline r in
    if negb (truthy dl) then ""
    else
      match fromisoformat (replace_space_T (py_str dl)) with
      | Some (Naive dt) =>
          let delta := micros dt - micros now in
          if delta <? 0 then "Просрочено"
          else if delta <=? DAY_US then "Риск срыва"
          else "В сроке"
      | Some (Aware _ _) => ""
      | None => ""
      end.

(** *** The status control of [page_view_request] *)

(** [assigned_to and int(assigned_to) == user_id()]. *)
Definition assigned_to_user (r : requests_row) (user : session) : bool :=
  match assigned_to r with
  | Some a => negb (a =? 0) && (a =? user_id user)
  | None => false
  end.

Definition can_manage (user : session) (r : requests_row) : bool :=
  is_admin user || (is_specialist user && assigned_to_user r user).

(** What a page shows after a button was pressed. *)
Inductive notice :=
| st_error (msg : string)
| st_success (msg : string)
| nothing.

(** The button "Сохранить статус" of the page of request [rid] with the
    status [sel] chosen: the control exists only under [can_manage] and the
    button only for a status other than the current one. *)
Definition view_request_save_status (user : session) (rid : Z)
  (sel : string) (now ts_history : datetime) : sql notice :=
  r ← get_request rid;
  match r with
  | None => mret (st_error "Заявка не найдена.")
  | Some rv =>
      let r := rv_row rv in
      let status_now :=
        if String.eqb (status r) "" then "открыта" else status r in
      if can_manage user r then
        if negb (String.eqb sel status_now) then
          ok ← update_request_status (r_id r) sel (Some (user_id user))
                 now ts_history;
          mret (if ok : bool then st_success "Статус обновлён."
                else st_error "Не удалось обновить статус.")
        else mret nothing
      else mret nothing
  end.

(** *** The button "Продлить" of [page_quality_control]

    [hr] is the listed help request the form belongs to, [new_dt] the date
    and time picked ([datetime.combine(nd, nt)]). *)
Definition quality_control_extend (user : session) (hr : open_help_row)
  (new_dt : datetime) (reason approval : string) (approved : bool)
  (ts : datetime) : sql notice :=
  if negb (can_qm_actions user) then mret (st_error "Доступ запрещен.")
  else if negb approved then
    mret (st_error "Нужно подтвердить факт согласования.")
  else if String.eqb (strip reason) "" then
    mret (st_error "Укажите причину продления.")
  else if String.eqb (strip approval) "" then
    mret (st_error "Заполните поле согласования клиента.")
  else
    let dt := strftime_iso new_dt in
    ok ← extend_deadline (oh_request_id hr) dt (strip reason)
           (strip approval) (user_id user) ts;
    mret (if ok : bool then st_success "Срок продлён."
          else st_error "Не удалось продлить срок.").

(** *** The other buttons of [page_view_request]

    The page reads [view_request_id] from the session and the request from
    the store before it draws a control; a press of a button runs the page
    again from the top, with that button reading true. *)

(** [r.get("status") or "открыта"]. *)
Definition status_now (r : requests_row) : string :=
  if String.eqb (status r) "" then "открыта" else status r.

(** [not assigned_to]. *)
Definition unassigned (r : requests_row) : bool :=
  match assigned_to r with Some a => a =? 0 | None => true end.

(** [if not rid] for the key kept in the session. *)
Definition selected (key : option Z) : option Z :=
  match key with
  | Some k => if k =? 0 then None else Some k
  | None => None
  end.

(** [if hid] for a key a store operation returned. *)
Definition returned (key : option Z) : bool :=
  match key with Some k => negb (k =? 0) | None => false end.

(** How a run of a page ends: with a notice (or none), or with an
    exception that leaves the script; AttributeError is the one of [r.get]
    on [None], StreamlitAPIException the one of a widget. *)
Inductive page_end :=
| shown (n : notice)
| raised (e : exn)
| AttributeError
| StreamlitAPIException.

(** The cost lines of the request's data, [float(r[k])] when the cost is
    not NULL: the exception they end the page with, if any. *)
Definition cost_line (v : value) : option exn :=
  match v with
  | VNone => None
  | _ => match float_of v with inl e => Some e | inr _ => None end
  end.

(** The page down to its controls: the request they act on, or how the
    page ends before it draws them. *)
Definition view_request_open (view_request_id : option Z)
  : sql (page_end + requests_row) :=
  match selected view_request_id with
  | None => mret (inl (shown (st_error "Заявка не выбрана.")))
  | Some rid =>
      r ← get_request rid;
      mret (match r with
            | None => inl (shown (st_error "Заявка не найдена."))
            | Some rv =>
                match cost_line (estimated_cost (rv_row rv)) with
                | Some e => inl (raised e)
                | None =>
                    match cost_line (actual_cost (rv_row rv)) with
                    | Some e => inl (raised e)
                    | None => inr (rv_row rv)
                    end
                end
            end)
  end.

(** The button "Взять заявку в работу". *)
Definition view_request_take (user : session) (view_request_id : option Z)
  : sql page_end :=
  o ← view_request_open view_request_id;
  match o with
  | inl e => mret e
  | inr r =>
      if is_specialist user && unassigned r
         && negb (String.eqb (status_now r) "завершена")
      then
        ok ← assign_request (r_id r) (user_id user);
        mret (shown (if ok : bool then st_success "Заявка назначена на вас."
                     else st_error "Не удалось назначить заявку."))
      else mret (shown nothing)
  end.

(** The form "Нужна помощь" with the text [msg]. *)
Definition view_request_send_help (user : session)
  (view_request_id : option Z) (msg : string) (ts : datetime)
  : sql page_end :=
  o ← view_request_open view_request_id;
  match o with
  | inl e => mret e
  | inr r =>
      if is_specialist user && assigned_to_user r user
         && negb (String.eqb (status_now r) "завершена")
      then
        if String.eqb (strip msg) ""
        then mret (shown (st_error
                     "Укажите причину (сообщение не должно быть пустым)."))
        else
          hid ← create_help_request (r_id r) (user_id user) (strip msg) ts;
          mret (shown (if returned hid
                       then st_success "Запрос помощи отправлен."
                       else st_error "Не удалось отправить запрос."))
      else mret (shown nothing)
  end.

(** *** The button "Закрыть запрос помощи" of [page_quality_control] *)

Definition quality_control_close (user : session) (hr : open_help_row)
  (note : string) (ts : datetime) : sql notice :=
  if negb (can_qm_actions user) then mret (st_error "Доступ запрещен.")
  else
    ok ← resolve_help_request (help_id hr) (user_id user) (strip note) ts;
    mret (if ok : bool then st_success "Запрос закрыт."
          else st_error "Не удалось закрыть запрос.").

(** *** The forms of [page_new_request] and [page_edit_request] *)

(** [float(x or 0)] for the float [x] of a number input. *)
Definition float_or_0 (x : pyfloat) : pyfloat :=
  if float_truthy x then x else PyFloat 0.

(** ["" if fault_type == "Не указано" else fault_type]. *)
Definition fault_of (fault : string) : string :=
  if String.eqb fault "Не указано" then "" else fault.

(** What the widgets of the two forms return; the selection of the
    equipment type is [None] when there are no types to choose from. *)
Record request_form := {
  in_equipment_type : option string;
  in_device_model : string;
  in_fault_type : string;
  in_customer_name : string;
  in_customer_phone : string;
  in_problem_description : string;
  in_estimated_cost : pyfloat
}.

(** [all([equipment_type, device_model, customer_name, customer_phone,
    problem_description])]. *)
Definition required_filled (f : request_form) : bool :=
  truthy (of_text (in_equipment_type f))
  && negb (String.eqb (in_device_model f) "")
  && negb (String.eqb (in_customer_name f) "")
  && negb (String.eqb (in_customer_phone f) "")
  && negb (String.eqb (in_problem_description f) "").

Definition new_request_data (f : request_form) : gmap string value :=
  <[ "estimated_cost" := VFloat (float_or_0 (in_estimated_cost f)) ]>
  (<[ "customer_phone" := VStr (strip (in_customer_phone f)) ]>
  (<[ "customer_name" := VStr (strip (in_customer_name f)) ]>
  (<[ "problem_description" := VStr (strip (in_problem_description f)) ]>
  (<[ "fault_type" := VStr (fault_of (in_fault_type f)) ]>
  (<[ "device_model" := VStr (strip (in_device_model f)) ]>
  (<[ "equipment_type" := of_text (in_equipment_type f) ]> ∅)))))).

(** The button "Создать" of [page_new_request]. *)
Definition page_new_request_submit (user : session) (f : request_form)
  (t1 t2 t3 t4 : datetime) : sql notice :=
  if negb (is_admin user || is_specialist user)
  then mret (st_error "Доступ запрещен.")
  else if negb (required_filled f)
  then mret (st_error "Заполните все обязательные поля (*)")
  else
    rid ← add_request (new_request_data f) DEFAULT_DEADLINE_DAYS t1 t2 t3 t4;
    mret (if returned rid then st_success "Заявка создана."
          else st_error "Ошибка при создании заявки").

(** A cost input of the edit form with its default,
    [float(r.get(k) or 0)]: how the page ends there, if it does. *)
Definition cost_input `{Widgets} (v : value) : option page_end :=
  match float_of (py_or v (VInt 0)) with
  | inl e => Some (raised e)
  | inr x => if number_input_accepts x then None
             else Some StreamlitAPIException
  end.

(** [assigned_to and int(assigned_to) != user_id()]. *)
Definition assigned_to_other (r : requests_row) (user : session) : bool :=
  match assigned_to r with
  | Some a => negb (a =? 0) && negb (a =? user_id user)
  | None => false
  end.

(** The dictionary [upd] of the button "Сохранить": the fields of the form,
    the actual cost, and for an administrator or a quality manager the
    planned deadline when the input is not blank. *)
Definition edit_request_upd (user : session) (f : request_form)
  (actual : pyfloat) (new_deadline : string) : gmap string value :=
  let upd :=
    <[ "actual_cost" := VFloat (float_or_0 actual) ]>
    (<[ "estimated_cost" := VFloat (float_or_0 (in_estimated_cost f)) ]>
    (<[ "problem_description" := VStr (strip (in_problem_description f)) ]>
    (<[ "fault_type" := VStr (fault_of (in_fault_type f)) ]>
    (<[ "device_model" := VStr (strip (in_device_model f)) ]>
    (<[ "equipment_type" := of_text (in_equipment_type f) ]>
    (<[ "customer_phone" := VStr (strip (in_customer_phone f)) ]>
    (<[ "customer_name" := VStr (strip (in_customer_name f)) ]> ∅))))))) in
  if can_qm_actions user && negb (String.eqb (strip new_deadline) "")
  then <[ "deadline" := VStr (strip new_deadline) ]> upd
  else upd.

(** The button "Сохранить" of [page_edit_request], with the status
    [sel_status] chosen: the guards of the page, the defaults of the two
    cost inputs of the form, then the handler of the button. *)
Definition page_edit_request_save `{Widgets} (user : session)
  (edit_request_id : option Z) (f : request_form) (actual : pyfloat)
  (sel_status new_deadline : string) (now ts_history : datetime)
  : sql page_end :=
  if negb (is_admin user || is_specialist user)
  then mret (shown (st_error "Доступ запрещен."))
  else
    match selected edit_request_id with
    | None => mret (shown (st_error "Заявка не выбрана."))
    | Some rid =>
        r ← get_request rid;
        match r with
        | None => mret AttributeError
        | Some rv =>
            let r := rv_row rv in
            if is_specialist user && assigned_to_other r user
            then mret (shown (st_error
              "Доступ запрещен: мастер может редактировать только назначенные ему заявки."))
            else
              match cost_input (estimated_cost r),
                    cost_input (actual_cost r) with
              | Some e, _ => mret e
              | None, Some e => mret e
              | None, None =>
                ok ← update_request (r_id r)
                       (edit_request_upd user f actual new_deadline);
                if negb ok
                then mret (shown (st_error "Не удалось сохранить изменения."))
                else if negb (String.eqb sel_status (status_now r))
                then
                  ok2 ← update_request_status (r_id r) sel_status
                          (Some (user_id user)) now ts_history;
                  mret (shown (if ok2 : bool then st_success "Сохранено."
                               else st_error
                                 "Поля сохранены, но статус обновить не удалось."))
                else mret (shown (st_success "Сохранено."))
              end
        end
    end.

End App.
End App.
Export App.

(** ** A sample runtime and a sample database

    The theorems below hold for every [PyRuntime].  To run the operations
    on concrete inputs the library functions are given here in a reduced
    form: the digest only tags its argument, [float] is defined on floats
    and on the integer 0, and the parser reads the one layout
    [YYYY-MM-DDTHH:MM:SS]. *)

Module Sample.

Definition digit (c : ascii) : option Z :=
  let n := N_of_ascii c in
  if ((48 <=? n) && (n <=? 57))%N then Some (Z.of_N n - 48) else None.

Fixpoint number (cs : list ascii) (acc : Z) : option Z :=
  match cs with
  | [] => Some acc
  | c :: cs' =>
      match digit c with
      | Some d => number cs' (acc * 10 + d)
      | None => None
      end
  end.

Definition parse_iso (s : string) : option parsed_datetime :=
  match list_ascii_of_string s with
  | [y1; y2; y3; y4; dash1; m1; m2; dash2; d1; d2; sep;
     h1; h2; col1; n1; n2; col2; s1; s2] =>
      if Ascii.eqb dash1 "-" && Ascii.eqb dash2 "-" && Ascii.eqb sep "T"
         && Ascii.eqb col1 ":" && Ascii.eqb col2 ":"
      then
        y ← number [y1; y2; y3; y4] 0;
        m ← number [m1; m2] 0;
        d ← number [d1; d2] 0;
        hh ← number [h1; h2] 0;
        mm ← number [n1; n2] 0;
        ss ← number [s1; s2] 0;
        if (1 <=? y) && (1 <=? m) && (m <=? 12) && (1 <=? d)
           && (d <=? days_in_month y m) && (hh <? 24) && (mm <? 60)
           && (ss <? 60)
        then Some (Naive (mk_datetime y m d hh mm ss 0))
        else None
      else None
  | _ => None
  end.

#[export] Instance runtime : PyRuntime := {|
  sha256_hexdigest s := "sha256:" +:+ s;
  float_of v :=
    match v with
    | VFloat f => inr f
    | VInt 0 => inr (PyFloat 0)
    | VNone => inl TypeError
    | _ => inl ValueError
    end;
  float_repr _ := "float";
  fromisoformat := parse_iso
|}.

Definition user (uid : Z) (uname pw fname urole : string) : users_row :=
  {| u_id := uid; username := uname; password := _sha256 pw;
     full_name := VStr fname; role := VStr urole;
     phone := VNone; email := VNone; is_active := true;
     u_created_at := "2026-01-01 00:00:00" |}.

Definition admin : users_row :=
  user 1 "admin" "admin123" "Администратор системы" "admin".
Definition ivanov : users_row :=
  user 2 "ivanov" "spec123" "Иванов Иван Иванович" "specialist".
Definition qmanager : users_row :=
  user 3 "qmanager" "qm123" "Менеджер по качеству" "quality_manager".

(** The tables of a new database file after [Database.__init__]: the three
    accounts of [add_default_data] and no requests. *)
Definition fresh_tables : tables :=
  {| users := [admin; ivanov; qmanager];
     requests := []; status_history := []; help_requests := [];
     seq_requests := 0; seq_status_history := 0; seq_help_requests := 0 |}.

Definition fresh_db : Database :=
  {| committed := fresh_tables; working := fresh_tables |}.

(** 1000.0 as a binary64. *)
Definition f1000 : pyfloat := PyFloat 4652007308841189376.

Definition sample_data : gmap string value :=
  {[ "equipment_type" := VStr "Кондиционер";
     "device_model" := VStr "Midea X";
     "fault_type" := VStr "Не включается";
     "problem_description" := VStr "Не запускается";
     "customer_name" := VStr "Иванов";
     "customer_phone" := VStr "89990000000";
     "estimated_cost" := VFloat f1000 ]}.

Definition t0 : datetime := mk_datetime 2026 1 10 9 30 0 250000.
Definition utc0 : datetime := mk_datetime 2026 1 10 6 30 0 0.

(** The database after one request was created at [t0]. *)
Definition db1 : Database :=
  (add_request sample_data DEFAULT_DEADLINE_DAYS t0 t0 utc0 utc0 fresh_db).1.

End Sample.

(** ** Runs of the store, invariants and the specification's functions *)

Module Machine.

Section Machine.
Context `{PyRuntime}.

(** The calls that write to the store. *)
Inductive call :=
| AddRequest (request_data : gmap string value) (default_deadline_days : Z)
    (now_number now_deadline ts_request ts_history : datetime)
| UpdateRequest (request_id : Z) (update_data : gmap string value)
| UpdateRequestStatus (request_id : Z) (new_status : string)
    (changed_by : option Z) (now ts_history : datetime)
| AssignRequest (request_id specialist_id : Z)
| SetAssistantMaster (request_id assistant_id : Z)
| ReassignMaster (request_id new_master_id : Z)
| ExtendDeadline (request_id : Z) (new_deadline reason approval : string)
    (extended_by_user : Z) (ts : datetime)
| CreateHelpRequest (request_id requested_by_user : Z) (msg : string)
    (ts : datetime)
| ResolveHelpRequest (help_id resolved_by_user : Z) (note : string)
    (ts : datetime).

(** The database a call leaves behind, whatever it returns. *)
Definition step (c : call) (db : Database) : Database :=
  match c with
  | AddRequest d n t1 t2 t3 t4 => (add_request d n t1 t2 t3 t4 db).1
  | UpdateRequest rid d => (update_request rid d db).1
  | UpdateRequestStatus rid s u now ts =>
      (update_request_status rid s u now ts db).1
  | AssignRequest rid u => (assign_request rid u db).1
  | SetAssistantMaster rid u => (set_assistant_master rid u db).1
  | ReassignMaster rid u => (reassign_master rid u db).1
  | ExtendDeadline rid d r a u ts => (extend_deadline rid d r a u ts db).1
  | CreateHelpRequest rid u m ts => (create_help_request rid u m ts db).1
  | ResolveHelpRequest hid u n ts => (resolve_help_request hid u n ts db).1
  end.

Definition run (cs : list call) (db : Database) : Database :=
  foldl (fun d c => step c d) db cs.

(** Every database observed along a run, the first one included. *)
Fixpoint trace (cs : list call) (db : Database) : list Database :=
  match cs with
  | [] => [db]
  | c :: cs' => db :: trace cs' (step c db)
  end.

(** A property of tables that holds of what is committed and of what the
    connection sees. *)
Definition holds (P : tables -> Prop) (db : Database) : Prop :=
  P (working db) /\ P (committed db).

(** The completion time is set exactly on completed requests. *)
Definition completed_inv (t : tables) : Prop :=
  forall r, r ∈ requests t ->
    completed_date r <> None <-> status r = "завершена".

(** What the schema guarantees: primary keys and user names are unique and
    the keys of history entries and help requests point at rows. *)
Record wf (t : tables) : Prop := {
  wf_user_ids : NoDup (map u_id (users t));
  wf_usernames : NoDup (map username (users t));
  wf_request_ids : NoDup (map r_id (requests t));
  wf_help_ids : NoDup (map h_id (help_requests t));
  wf_history_request :
    forall h, h ∈ status_history t ->
      sh_request_id h ∈ map r_id (requests t);
  wf_help_request :
    forall h, h ∈ help_requests t ->
      h_request_id h ∈ map r_id (requests t);
  wf_help_requester :
    forall h, h ∈ help_requests t ->
      requested_by h ∈ map u_id (users t)
}.

(** The two invariants as tests, to decide them on given tables. *)
Definition completed_check (t : tables) : bool :=
  forallb (fun r => Bool.eqb (bool_decide (completed_date r <> None))
                             (bool_decide (status r = "завершена")))
          (requests t).

Definition wf_check (t : tables) : bool :=
  bool_decide (NoDup (map u_id (users t)))
  && bool_decide (NoDup (map username (users t)))
  && bool_decide (NoDup (map r_id (requests t)))
  && bool_decide (NoDup (map h_id (help_requests t)))
  && forallb (fun h => bool_decide (sh_request_id h ∈ map r_id (requests t)))
       (status_history t)
  && forallb (fun h => bool_decide (h_request_id h ∈ map r_id (requests t)))
       (help_requests t)
  && forallb (fun h => bool_decide (requested_by h ∈ map u_id (users t)))
       (help_requests t).

(** *** The specification's risk indicator *)

Inductive risk := NoSignal | Overdue | AtRisk | OnTrack.

Definition risk_text (k : risk) : string :=
  match k with
  | NoSignal => ""
  | Overdue => "Просрочено"
  | AtRisk => "Риск срыва"
  | OnTrack => "В сроке"
  end.

(** A deadline value is present when it is neither NULL nor empty (nor a
    zero written through [update_request]). *)
Definition present (v : value) : bool := truthy v.

(** The effective deadline in the specification's words: the extended
    deadline if present, else the planned deadline, if there is one. *)
Definition spec_effective_deadline (r : requests_row) : option value :=
  if present (of_text (deadline_extended_to r))
  then Some (of_text (deadline_extended_to r))
  else if present (deadline r) then Some (deadline r)
  else None.

(** Reading a deadline as a local time: the text of the value with the
    blank between date and time replaced, given to the parser.  A text the
    parser rejects, or one with a UTC offset, which cannot be compared with
    the local time, gives no instant. *)
Definition deadline_instant (v : value) : option datetime :=
  match fromisoformat (replace_space_T (py_str v)) with
  | Some (Naive t) => Some t
  | _ => None
  end.

(** [riskState(request, now)] of the specification. *)
Definition riskState (r : requests_row) (now : datetime) : risk :=
  if bool_decide (status r = "завершена") then NoSignal
  else
    match spec_effective_deadline r with
    | None => NoSignal
    | Some v =>
        match deadline_instant v with
        | None => NoSignal
        | Some d =>
            if bool_decide (micros d < micros now) then Overdue
            else if bool_decide (micros d - micros now <= DAY_US) then AtRisk
            else OnTrack
        end
    end.

(** *** The specification's partial update *)

(** Only the nine whitelisted fields can change, each to the value the
    input carries under its name. *)
Definition apply_partial (data : gmap string value) (r : requests_row)
  : requests_row :=
  let pick k old := default old (data !! k) in
  {| r_id := r_id r; request_number := request_number r;
     created_date := created_date r;
     equipment_type := pick "equipment_type" (equipment_type r);
     device_model := pick "device_model" (device_model r);
     fault_type := pick "fault_type" (fault_type r);
     problem_description :=
       pick "problem_description" (problem_description r);
     customer_name := pick "customer_name" (customer_name r);
     customer_phone := pick "customer_phone" (customer_phone r);
     status := status r;
     assigned_to := assigned_to r; assist_to := assist_to r;
     estimated_cost := pick "estimated_cost" (estimated_cost r);
     actual_cost := pick "actual_cost" (actual_cost r);
     deadline := pick "deadline" (deadline r);
     deadline_extended_to := deadline_extended_to r;
     extension_reason := extension_reason r;
     client_approval := client_approval r;
     client_approval_at := client_approval_at r;
     extended_by := extended_by r;
     completed_date := completed_date r |}.

(** The input without its unlisted fields. *)
Definition whitelisted (data : gmap string value) : gmap string value :=
  filter (fun kv => kv.1 ∈ allowed) data.

(** *** Tables after the statements of the operations *)

Definition with_status (t : tables) (rid : Z) (new : string)
  (completed : option string) : tables :=
  with_requests t
    (update_where_id rid (set_status new completed) (requests t)).

Definition history_entry (t : tables) (rid : Z) (old : option string)
  (new : string) (by_user : option Z) (ts : datetime) : status_history_row :=
  {| sh_id := next_rowid (map sh_id (status_history t))
                (seq_status_history t);
     sh_request_id := rid; old_status := old; new_status := new;
     changed_by := by_user; changed_at := strftime_iso ts |}.

Definition with_history (t : tables) (e : status_history_row) : tables :=
  {| users := users t; requests := requests t;
     status_history := status_history t ++ [e];
     help_requests := help_requests t;
     seq_requests := seq_requests t;
     seq_status_history := sh_id e;
     seq_help_requests := seq_help_requests t |}.

(** The completion time a status change writes. *)
Definition completion_stamp (new : string) (now : datetime) : option string :=
  if String.eqb new "завершена" then Some (strftime_iso now) else None.

(** One executed statement of the operations: the tables before and
    after it. *)
Inductive stmt : tables -> tables -> Prop :=
| stmt_status t rid new now :
    stmt t (with_status t rid new (completion_stamp new now))
| stmt_fields t rid fields :
    stmt t (with_requests t
              (update_where_id rid (set_columns fields) (requests t)))
| stmt_assigned t rid uid :
    stmt t (with_requests t
              (update_where_id rid (set_assigned_to uid) (requests t)))
| stmt_assist t rid uid :
    stmt t (with_requests t
              (update_where_id rid (set_assist_to uid) (requests t)))
| stmt_extension t rid dl reason approval at_ uid :
    stmt t (with_requests t
              (update_where_id rid
                 (set_extension dl reason approval at_ uid) (requests t)))
| stmt_insert_request t number e m f d cn cp cost dl ts t' rid :
    insert_request number e m f d cn cp cost dl ts t = inr (t', rid) ->
    stmt t t'
| stmt_insert_history t rid old new by_user ts t' hid :
    insert_status_history rid old new by_user ts t = inr (t', hid) ->
    stmt t t'
| stmt_insert_help t rid uid msg ts t' hid :
    insert_help_request rid uid msg ts t = inr (t', hid) ->
    stmt t t'
| stmt_resolve t hid uid note ts t' n :
    update_help_resolved hid uid note ts t = inr (t', n) ->
    stmt t t'.

(** The open help requests of the tables, by key and creation time, and
    the same two columns of a listing. *)
Definition open_helps (t : tables) : list (Z * string) :=
  map (fun h => (h_id h, h_created_at h))
    (filter (fun h => String.eqb (h_status h) "open" = true)
       (help_requests t)).

Definition listed (l : list open_help_row) : list (Z * string) :=
  map (fun o => (help_id o, oh_created_at o)) l.

(** The day pattern of [generate_request_number]. *)
Definition day_pattern (now : datetime) : string :=
  "REQ" +:+ strftime_Ymd now +:+ "%".

(** The request numbers of the tables, in the order of the rows. *)
Definition numbers (t : tables) : list string :=
  map request_number (requests t).

(** A call that, if it creates a request, numbers it on the day [d]. *)
Definition created_on (d : string) (c : call) : Prop :=
  match c with
  | AddRequest _ _ now_number _ _ _ => strftime_Ymd now_number = d
  | _ => True
  end.

(** The number of day [d] with the sequence number [n]. *)
Definition number_of (d : string) (n : Z) : string :=
  "REQ" +:+ d +:+ format_04d n.

(** The numbers of day [d] with the sequence numbers 1, ..., [k]. *)
Definition day_numbers (d : string) (k : nat) : list string :=
  map (fun i : nat => number_of d (Z.of_nat i)) (seq 1 k).

(** The form the specification gives to a request number: the prefix,
    eight characters of date and four of sequence. *)
Definition four_digit_form (n : string) : Prop :=
  exists d s, n = "REQ" +:+ d +:+ s
              /\ String.length d = 8%nat /\ String.length s = 4%nat.

(** The sequence number a text of decimal digits denotes. *)
Definition int_of_text (s : string) : option Z :=
  Z.of_int <$> NilZero.int_of_string s.

(** What identifies a request: its key, its number and its creation
    time. *)
Definition identity (r : requests_row) : Z * string * string :=
  (r_id r, request_number r, created_date r).

(** The history only grows at its end. *)
Definition history_grows (t t' : tables) : Prop :=
  status_history t `prefix_of` status_history t'.

(** Requests are added at the end and keep what identifies them. *)
Definition requests_stay (t t' : tables) : Prop :=
  map identity (requests t) `prefix_of` map identity (requests t').

(** What a help request is about: all of it but its resolution. *)
Definition help_subject (h : help_requests_row)
  : Z * Z * Z * string * string :=
  (h_id h, h_request_id h, requested_by h, message h, h_created_at h).

(** The accounts are the same, help requests are added at the end and
    keep what they are about. *)
Definition accounts_and_helps_stay (t t' : tables) : Prop :=
  users t' = users t
  /\ map help_subject (help_requests t)
     `prefix_of` map help_subject (help_requests t').

End Machine.
End Machine.
Export Machine.

(** ** Properties *)

Section Properties.
Context `{PyRuntime}.

(** *** Keys and updates *)

Lemma max_id_ge (ids : list Z) (i : Z) : i ∈ ids -> i <= max_id ids.
Proof.
  induction ids as [|j ids IH]; intros Hin.
  - by apply elem_of_nil in Hin.
  - apply elem_of_cons in Hin as [-> | Hin]; simpl; [lia|].
    specialize (IH Hin). lia.
Qed.

Lemma next_rowid_fresh (ids : list Z) (seq : Z) : next_rowid ids seq ∉ ids.
Proof.
  intros Hin. apply max_id_ge in Hin. unfold next_rowid in Hin. lia.
Qed.

Lemma update_where_id_ids rid f rs :
  (forall r, r_id (f r) = r_id r) ->
  map r_id (update_where_id rid f rs) = map r_id rs.
Proof.
  intros Hf. unfold update_where_id. rewrite map_map.
  apply map_ext. intros r. by case_decide.
Qed.

Lemma update_where_id_numbers rid f rs :
  (forall r, request_number (f r) = request_number r) ->
  map request_number (update_where_id rid f rs) = map request_number rs.
Proof.
  intros Hf. unfold update_where_id. rewrite map_map.
  apply map_ext. intros r. by case_decide.
Qed.

Lemma update_where_id_elem rid f rs r' :
  r' ∈ update_where_id rid f rs ->
  exists r, r ∈ rs /\ r' = if decide (r_id r = rid) then f r else r.
Proof.
  unfold update_where_id. rewrite list_elem_of_fmap.
  intros (r & -> & Hr). eauto.
Qed.

Lemma select_status_Some rid t :
  rid ∈ map r_id (requests t) -> is_Some (select_status rid t).
Proof.
  unfold select_status. intros Hin.
  apply list_elem_of_fmap in Hin as (r & -> & Hr).
  destruct (filter (fun r0 => r_id r0 = r_id r) (requests t)) as [|r1 l] eqn:E.
  - assert (r ∈ filter (fun r0 => r_id r0 = r_id r) (requests t)) as Hf
      by (apply list_elem_of_filter; done).
    rewrite E in Hf. by apply elem_of_nil in Hf.
  - simpl. eauto.
Qed.

Lemma select_status_elem rid t s :
  select_status rid t = Some s ->
  exists r, r ∈ requests t /\ r_id r = rid /\ status r = s.
Proof.
  unfold select_status.
  destruct (filter (fun r0 => r_id r0 = rid) (requests t)) as [|r1 l] eqn:E;
    simpl; [done|].
  intros [= <-]. exists r1.
  assert (r1 ∈ filter (fun r0 => r_id r0 = rid) (requests t)) as Hf
    by (rewrite E; left).
  apply list_elem_of_filter in Hf as [? ?]. done.
Qed.

Lemma select_status_None rid t :
  select_status rid t = None -> rid ∉ map r_id (requests t).
Proof.
  intros Hn Hin. apply select_status_Some in Hin as [s Hs]. congruence.
Qed.

Lemma matched_pos rid rs : 0 < matched rid rs <-> rid ∈ map r_id rs.
Proof.
  unfold matched. split.
  - intros Hpos.
    destruct (filter (fun r => r_id r = rid) rs) as [|r l] eqn:E;
      simpl in Hpos; [lia|].
    assert (r ∈ filter (fun r => r_id r = rid) rs) as Hf by (rewrite E; left).
    apply list_elem_of_filter in Hf as [<- Hr].
    apply list_elem_of_fmap. eauto.
  - intros Hin. apply list_elem_of_fmap in Hin as (r & -> & Hr).
    assert (r ∈ filter (fun r0 => r_id r0 = r_id r) rs) as Hf
      by (apply list_elem_of_filter; done).
    destruct (filter (fun r0 => r_id r0 = r_id r) rs); simpl;
      [by apply elem_of_nil in Hf | lia].
Qed.

Lemma request_exists_with_status t rid rid' new cd :
  request_exists (with_status t rid' new cd) rid = request_exists t rid.
Proof.
  unfold request_exists, with_status. simpl.
  by rewrite update_where_id_ids.
Qed.

(** *** The status change, statement by statement *)

Lemma update_request_status_unfold rid new by_user now ts db :
  update_request_status rid new by_user now ts db =
  match select_status rid (working db) with
  | None => (db, Ok false)
  | Some old =>
      let t1 := with_status (working db) rid new (completion_stamp new now) in
      if user_ref_ok (working db) (actor_of by_user) then
        let t2 := with_history t1
                    (history_entry t1 rid (Some old) new
                       (actor_of by_user) ts) in
        ({| committed := t2; working := t2 |}, Ok true)
      else ({| committed := committed db; working := t1 |}, Ok false)
  end.
Proof.
  unfold update_request_status, try_except, mbind, sql_bind, bind, query,
    mret, sql_ret, ret.
  destruct (select_status rid (working db)) as [old|] eqn:Hsel; [|done].
  unfold execute at 1. unfold update_requests. simpl forallb.
  rewrite andb_false_r. cbn [working committed].
  unfold execute, insert_status_history. cbn [working committed].
  change (with_requests (working db) _)
    with (with_status (working db) rid new (completion_stamp new now)).
  rewrite request_exists_with_status.
  assert (request_exists (working db) rid = true) as ->.
  { apply bool_decide_eq_true.
    apply select_status_elem in Hsel as (r & Hr & <- & _).
    apply list_elem_of_fmap. eauto. }
  assert (user_ref_ok (with_status (working db) rid new
                         (completion_stamp new now)) (actor_of by_user)
          = user_ref_ok (working db) (actor_of by_user)) as -> by done.
  destruct (user_ref_ok (working db) (actor_of by_user)); done.
Qed.


(** *** The other operations, statement by statement *)

Lemma update_commit_unfold rid refs f db :
  try_except
    (rowcount ← execute (update_requests rid refs f);
     commit;; mret (0 <? rowcount))
    (fun _ => mret false) db =
  if (0 <? matched rid (requests (working db)))
     && negb (forallb (user_ref_ok (working db)) refs)
  then (db, Ok false)
  else
    let t := with_requests (working db)
               (update_where_id rid f (requests (working db))) in
    ({| committed := t; working := t |},
     Ok (0 <? matched rid (requests (working db)))).
Proof.
  unfold try_except, mbind, sql_bind, bind, mret, sql_ret, ret, execute,
    commit, update_requests.
  destruct ((0 <? matched rid (requests (working db)))
            && negb (forallb (user_ref_ok (working db)) refs)); done.
Qed.

Lemma assign_request_unfold rid uid db :
  assign_request rid uid db =
  if (0 <? matched rid (requests (working db)))
     && negb (user_exists (working db) uid)
  then (db, Ok false)
  else
    let t := with_requests (working db)
               (update_where_id rid (set_assigned_to uid)
                  (requests (working db))) in
    ({| committed := t; working := t |},
     Ok (0 <? matched rid (requests (working db)))).
Proof.
  unfold assign_request. rewrite update_commit_unfold. simpl.
  by rewrite andb_true_r.
Qed.

Lemma set_assistant_master_unfold rid uid db :
  set_assistant_master rid uid db =
  if (0 <? matched rid (requests (working db)))
     && negb (user_exists (working db) uid)
  then (db, Ok false)
  else
    let t := with_requests (working db)
               (update_where_id rid (set_assist_to uid)
                  (requests (working db))) in
    ({| committed := t; working := t |},
     Ok (0 <? matched rid (requests (working db)))).
Proof.
  unfold set_assistant_master. rewrite update_commit_unfold. simpl.
  by rewrite andb_true_r.
Qed.

Lemma extend_deadline_unfold rid dl reason approval uid ts db :
  extend_deadline rid dl reason approval uid ts db =
  if (0 <? matched rid (requests (working db)))
     && negb (user_exists (working db) uid)
  then (db, Ok false)
  else
    let t := with_requests (working db)
               (update_where_id rid
                  (set_extension dl reason approval (strftime_iso ts) uid)
                  (requests (working db))) in
    ({| committed := t; working := t |},
     Ok (0 <? matched rid (requests (working db)))).
Proof.
  unfold extend_deadline. rewrite update_commit_unfold. simpl.
  by rewrite andb_true_r.
Qed.

Lemma collect_fields_allowed data :
  forallb (fun kv => bool_decide (kv.1 ∈ allowed)) (collect_fields data)
  = true.
Proof.
  apply forallb_forall. intros [k v] Hin. apply bool_decide_eq_true.
  apply list_elem_of_In in Hin. unfold collect_fields in Hin.
  apply list_elem_of_omap in Hin as (k' & Hk' & Hv).
  destruct (data !! k'); [|done]. by injection Hv as <- _.
Qed.

Lemma update_request_unfold rid data db :
  update_request rid data db =
  match collect_fields data with
  | [] => (db, Ok true)
  | fields =>
      let t := with_requests (working db)
                 (update_where_id rid (set_columns fields)
                    (requests (working db))) in
      ({| committed := t; working := t |},
       Ok (0 <? matched rid (requests (working db))))
  end.
Proof.
  unfold update_request.
  pose proof (collect_fields_allowed data) as Hall.
  destruct (collect_fields data) as [|kv fields]; [done|].
  unfold try_except, mbind, sql_bind, bind, mret, sql_ret, ret, execute,
    commit, update_request_fields.
  by rewrite Hall.
Qed.

Lemma create_help_request_unfold rid uid msg ts db :
  create_help_request rid uid msg ts db =
  match insert_help_request rid uid msg ts (working db) with
  | inr (t, hid) => ({| committed := t; working := t |}, Ok (Some hid))
  | inl _ => (db, Ok None)
  end.
Proof.
  unfold create_help_request, try_except, mbind, sql_bind, bind, mret,
    sql_ret, ret, execute, commit.
  by destruct (insert_help_request rid uid msg ts (working db)) as [e|[t h]].
Qed.

Lemma resolve_help_request_unfold hid uid note ts db :
  resolve_help_request hid uid note ts db =
  match update_help_resolved hid uid note ts (working db) with
  | inr (t, n) => ({| committed := t; working := t |}, Ok (0 <? n))
  | inl _ => (db, Ok false)
  end.
Proof.
  unfold resolve_help_request, try_except, mbind, sql_bind, bind, mret,
    sql_ret, ret, execute, commit.
  by destruct (update_help_resolved hid uid note ts (working db))
    as [e|[t n]].
Qed.

Lemma generate_request_number_unfold now db :
  generate_request_number now db =
  (db, Ok ("REQ" +:+ strftime_Ymd now +:+
           format_04d (count_like (day_pattern now) (working db) + 1))).
Proof. reflexivity. Qed.

(** The number [add_request] gives to a request created at [now]. *)
Lemma add_request_unfold data days t1 t2 t3 t4 db :
  add_request data days t1 t2 t3 t4 db =
  let number := "REQ" +:+ strftime_Ymd t1 +:+
                format_04d (count_like (day_pattern t1) (working db) + 1) in
  match add_days t2 days with
  | inl _ => (db, Ok None)
  | inr dl =>
      match float_of (py_or (dict_get data "estimated_cost") (VInt 0)) with
      | inl _ => (db, Ok None)
      | inr cost =>
          match insert_request number
                  (dict_get data "equipment_type")
                  (dict_get data "device_model")
                  (dict_get data "fault_type")
                  (dict_get data "problem_description")
                  (dict_get data "customer_name")
                  (dict_get data "customer_phone")
                  cost (strftime_iso dl) t3 (working db) with
          | inl _ => (db, Ok None)
          | inr (tA, rid) =>
              let tB := with_history tA
                          (history_entry tA rid None "открыта" None t4) in
              ({| committed := tB; working := tB |}, Ok (Some rid))
          end
      end
  end.
Proof.
  unfold add_request, try_except. unfold mbind at 1, sql_bind at 1, bind at 1.
  rewrite generate_request_number_unfold.
  unfold mbind, sql_bind, bind, eval, mret, sql_ret, ret.
  destruct (add_days t2 days) as [e|dl]; [done|].
  destruct (float_of _) as [e|cost]; [done|].
  unfold execute at 1. cbn [working committed]. cbv zeta.
  destruct (insert_request _ _ _ _ _ _ _ _ _ _ _) as [e|[tA rid]] eqn:Hins;
    [done|].
  unfold execute, insert_status_history, commit. cbn [working committed].
  assert (request_exists tA rid = true) as ->.
  { unfold insert_request in Hins. case_bool_decide; [done|].
    injection Hins as <- <-. apply bool_decide_eq_true. simpl.
    rewrite map_app. apply elem_of_app. right. simpl. left. }
  done.
Qed.


(** *** Every call is a sequence of statements and at most one commit *)

Lemma step_shape c db :
  rtc stmt (working db) (working (step c db)) /\
  (committed (step c db) = committed db
   \/ committed (step c db) = working (step c db)).
Proof.
  destruct c as [data days n1 n2 ts1 ts2|rid data|rid new who now ts
                 |rid uid|rid uid|rid uid|rid dl reason approval uid ts
                 |rid uid msg ts|hid uid note ts]; simpl.
  - rewrite add_request_unfold. cbv zeta.
    destruct (add_days _ _); [by auto using rtc_refl|].
    destruct (float_of _); [by auto using rtc_refl|].
    destruct (insert_request _ _ _ _ _ _ _ _ _ _ _) as [e|[tA rid]] eqn:Hins;
      [by auto using rtc_refl|].
    simpl. split; [|by right].
    eapply rtc_l; [by eapply stmt_insert_request|].
    apply rtc_once.
    eapply (stmt_insert_history tA rid None "открыта" None ts2).
    unfold insert_status_history.
    assert (request_exists tA rid = true) as ->; [|reflexivity].
    unfold insert_request in Hins. case_bool_decide; [done|].
    injection Hins as <- <-. apply bool_decide_eq_true. simpl.
    rewrite map_app. apply elem_of_app. right. simpl. left.
  - rewrite update_request_unfold.
    destruct (collect_fields data); [by auto using rtc_refl|].
    simpl. split; [|by right]. apply rtc_once, stmt_fields.
  - rewrite update_request_status_unfold.
    destruct (select_status _ _) as [old|] eqn:Hsel;
      [|by auto using rtc_refl].
    cbv zeta.
    destruct (user_ref_ok _ _) eqn:Hu; simpl.
    + split; [|by right].
      eapply rtc_l; [apply stmt_status|]. apply rtc_once.
      eapply (stmt_insert_history _ rid (Some old) new (actor_of who) ts).
      unfold insert_status_history.
      rewrite request_exists_with_status.
      assert (request_exists (working db) rid = true) as ->.
      { apply bool_decide_eq_true.
        apply select_status_elem in Hsel as (r & Hr & <- & _).
        apply list_elem_of_fmap. eauto. }
      assert (user_ref_ok (with_status (working db) rid new
                             (completion_stamp new now))
                (actor_of who) = true) as -> by exact Hu.
      reflexivity.
    + split; [|by left]. apply rtc_once, stmt_status.
  - rewrite assign_request_unfold.
    destruct (_ && _); [by auto using rtc_refl|].
    simpl. split; [|by right]. apply rtc_once, stmt_assigned.
  - rewrite set_assistant_master_unfold.
    destruct (_ && _); [by auto using rtc_refl|].
    simpl. split; [|by right]. apply rtc_once, stmt_assist.
  - unfold reassign_master. rewrite assign_request_unfold.
    destruct (_ && _); [by auto using rtc_refl|].
    simpl. split; [|by right]. apply rtc_once, stmt_assigned.
  - rewrite extend_deadline_unfold.
    destruct (_ && _); [by auto using rtc_refl|].
    simpl. split; [|by right]. apply rtc_once, stmt_extension.
  - rewrite create_help_request_unfold.
    destruct (insert_help_request _ _ _ _ _) as [e|[t hid]] eqn:Hins;
      [by auto using rtc_refl|].
    simpl. split; [|by right]. eapply rtc_once, stmt_insert_help, Hins.
  - rewrite resolve_help_request_unfold.
    destruct (update_help_resolved _ _ _ _ _) as [e|[t n]] eqn:Hupd;
      [by auto using rtc_refl|].
    simpl. split; [|by right]. eapply rtc_once, stmt_resolve, Hupd.
Qed.

Lemma holds_step (P : tables -> Prop) :
  (forall t t', stmt t t' -> P t -> P t') ->
  forall c db, holds P db -> holds P (step c db).
Proof.
  intros Hstmt c db [Hw Hc].
  destruct (step_shape c db) as [Hrtc Hcommit].
  assert (P (working (step c db))) as Hw'.
  { clear Hcommit. induction Hrtc; eauto. }
  split; [done|]. destruct Hcommit as [-> | ->]; done.
Qed.

Lemma holds_trace (P : tables -> Prop) :
  (forall t t', stmt t t' -> P t -> P t') ->
  forall cs db, holds P db -> Forall (holds P) (trace cs db).
Proof.
  intros Hstmt cs. induction cs as [|c cs IH]; intros db Hdb; simpl.
  - by constructor.
  - constructor; [done|]. apply IH. by apply holds_step.
Qed.

Lemma holds_run (P : tables -> Prop) :
  (forall t t', stmt t t' -> P t -> P t') ->
  forall cs db, holds P db -> holds P (run cs db).
Proof.
  intros Hstmt cs. induction cs as [|c cs IH]; intros db Hdb; simpl; [done|].
  apply IH. by apply holds_step.
Qed.

(** *** The completion time follows the status *)

Lemma completion_stamp_iff new now :
  completion_stamp new now <> None <-> new = "завершена".
Proof.
  unfold completion_stamp.
  destruct (String.eqb_spec new "завершена"); split; congruence.
Qed.

Lemma completed_inv_update t rid f :
  (forall r, status (f r) = status r) ->
  (forall r, completed_date (f r) = completed_date r) ->
  completed_inv t ->
  completed_inv (with_requests t (update_where_id rid f (requests t))).
Proof.
  intros Hs Hc Hinv r' Hr'. simpl in Hr'.
  apply update_where_id_elem in Hr' as (r & Hr & ->).
  case_decide; [|by apply Hinv].
  rewrite Hs, Hc. by apply Hinv.
Qed.

Lemma set_columns_frame fields r :
  r_id (set_columns fields r) = r_id r
  /\ request_number (set_columns fields r) = request_number r
  /\ created_date (set_columns fields r) = created_date r
  /\ status (set_columns fields r) = status r
  /\ assigned_to (set_columns fields r) = assigned_to r
  /\ assist_to (set_columns fields r) = assist_to r
  /\ deadline_extended_to (set_columns fields r) = deadline_extended_to r
  /\ extension_reason (set_columns fields r) = extension_reason r
  /\ client_approval (set_columns fields r) = client_approval r
  /\ client_approval_at (set_columns fields r) = client_approval_at r
  /\ extended_by (set_columns fields r) = extended_by r
  /\ completed_date (set_columns fields r) = completed_date r.
Proof.
  unfold set_columns. revert r.
  induction fields as [|[k v] fields IH]; intros r; simpl; [done|].
  specialize (IH (set_column k v r)).
  assert (r_id (set_column k v r) = r_id r
          /\ request_number (set_column k v r) = request_number r
          /\ created_date (set_column k v r) = created_date r
          /\ status (set_column k v r) = status r
          /\ assigned_to (set_column k v r) = assigned_to r
          /\ assist_to (set_column k v r) = assist_to r
          /\ deadline_extended_to (set_column k v r) = deadline_extended_to r
          /\ extension_reason (set_column k v r) = extension_reason r
          /\ client_approval (set_column k v r) = client_approval r
          /\ client_approval_at (set_column k v r) = client_approval_at r
          /\ extended_by (set_column k v r) = extended_by r
          /\ completed_date (set_column k v r) = completed_date r) as Hk.
  { unfold set_column.
    repeat (match goal with |- context [String.eqb ?a ?b] =>
                              destruct (String.eqb a b) end);
      simpl; done. }
  destruct IH as (?&?&?&?&?&?&?&?&?&?&?&?).
  destruct Hk as (?&?&?&?&?&?&?&?&?&?&?&?).
  repeat split; congruence.
Qed.

Lemma completed_inv_stmt t t' : stmt t t' -> completed_inv t -> completed_inv t'.
Proof.
  destruct 1 as [t rid new now|t rid fields|t rid uid|t rid uid
                 |t rid dl reason approval at_ uid
                 |t number e m f d cn cp cost dl ts t' rid Hins
                 |t rid old new by_user ts t' hid Hins
                 |t rid uid msg ts t' hid Hins
                 |t hid uid note ts t' n Hupd]; intros Hinv.
  - intros r' Hr'. simpl in Hr'.
    apply update_where_id_elem in Hr' as (r & Hr & ->).
    case_decide; [|by apply Hinv]. simpl. apply completion_stamp_iff.
  - apply completed_inv_update; [| |done]; intros r;
      by destruct (set_columns_frame fields r) as (?&?&?&?&?&?&?&?&?&?&?&?).
  - by apply completed_inv_update.
  - by apply completed_inv_update.
  - by apply completed_inv_update.
  - unfold insert_request in Hins. case_bool_decide; [done|].
    injection Hins as <- <-. intros r Hr. simpl in Hr.
    apply elem_of_app in Hr as [Hr | Hr]; [by apply Hinv|].
    apply list_elem_of_singleton in Hr as ->. simpl. split; [done|].
    intros Heq. by apply String.eqb_eq in Heq.
  - unfold insert_status_history in Hins.
    destruct (_ && _); [|done]. injection Hins as <- <-. exact Hinv.
  - unfold insert_help_request in Hins.
    destruct (_ && _); [|done]. injection Hins as <- <-. exact Hinv.
  - unfold update_help_resolved in Hupd.
    destruct (_ && _); [done|]. injection Hupd as <- <-. exact Hinv.
Qed.


Lemma completed_check_sound t : completed_check t = true -> completed_inv t.
Proof.
  unfold completed_check, completed_inv. rewrite forallb_forall.
  intros Hall r Hr. apply list_elem_of_In, Hall in Hr.
  apply Bool.eqb_prop in Hr.
  split; intros Hx.
  - eapply bool_decide_eq_true_1. rewrite <- Hr. by apply bool_decide_eq_true_2.
  - eapply bool_decide_eq_true_1. rewrite Hr. by apply bool_decide_eq_true_2.
Qed.

Lemma wf_check_sound t : wf_check t = true -> wf t.
Proof.
  unfold wf_check. rewrite !andb_true_iff, !forallb_forall.
  intros [[[[[[H1 H2] H3] H4] H5] H6] H7].
  apply bool_decide_eq_true in H1, H2, H3, H4.
  split; try done; intros h Hh; apply list_elem_of_In in Hh.
  - by apply H5, bool_decide_eq_true in Hh.
  - by apply H6, bool_decide_eq_true in Hh.
  - by apply H7, bool_decide_eq_true in Hh.
Qed.

(** *** Claims on the status change *)

(** C1.  Along every run of calls that starts where the completion time is
    set exactly on the completed requests, this stays so in every database
    observed, for what is committed and for what the connection sees; and
    whatever a status change returns, the rows of its request then carry
    the new status and a completion time that is the time of the call when
    the new status is completed and NULL otherwise, whatever it was. *)
Theorem completed_date_iff_completed (db : Database) (cs : list call) :
  holds completed_inv db ->
  Forall (holds completed_inv) (trace cs db)
  /\ forall rid new who now ts r,
       r ∈ requests (working (step (UpdateRequestStatus rid new who now ts)
                                   db)) ->
       r_id r = rid ->
       status r = new
       /\ (new = "завершена" -> completed_date r = Some (strftime_iso now))
       /\ (new <> "завершена" -> completed_date r = None)
       /\ (completed_date r <> None <-> status r = "завершена").
Proof.
  intros Hinv. split.
  - apply holds_trace; [apply completed_inv_stmt | done].
  - intros rid new who now ts r Hr Hid. simpl in Hr.
    rewrite update_request_status_unfold in Hr.
    destruct (select_status rid (working db)) as [old|] eqn:Hsel.
    + assert (r ∈ update_where_id rid
                    (set_status new (completion_stamp new now))
                    (requests (working db))) as Hr'.
      { cbv zeta in Hr. by destruct (user_ref_ok _ _). }
      apply update_where_id_elem in Hr' as (r0 & Hr0 & ->).
      case_decide; [|done]. simpl.
      split; [done|]. unfold completion_stamp.
      destruct (String.eqb_spec new "завершена");
        repeat split; intros; congruence.
    + apply select_status_None in Hsel. exfalso. apply Hsel.
      apply list_elem_of_fmap. eauto.
Qed.

(** C4, as the code has it.  A status change returns true or false and
    never raises.  It returns true exactly when the request exists and the
    actor is NULL or an existing user; then exactly one history entry, with
    the status read at the call, the new status and the actor (NULL for an
    absent actor or 0), is appended and committed together with the status
    update.  For an unknown request nothing changes.  When the store
    rejects the history entry, nothing is committed and no entry is added,
    and the status update stays in the open transaction of the
    connection. *)
Theorem update_request_status_outcome (db : Database) (rid : Z)
  (new : string) (who : option Z) (now ts : datetime) :
  let res := update_request_status rid new who now ts db in
  let updated := update_where_id rid
                   (set_status new (completion_stamp new now))
                   (requests (working db)) in
  (res.2 = Ok true \/ res.2 = Ok false)
  /\ (res.2 = Ok true <->
        rid ∈ map r_id (requests (working db))
        /\ user_ref_ok (working db) (actor_of who) = true)
  /\ (res.2 = Ok true ->
        exists old e,
          select_status rid (working db) = Some old
          /\ sh_request_id e = rid /\ old_status e = Some old
          /\ new_status e = new /\ changed_by e = actor_of who
          /\ status_history (working res.1)
              = app (status_history (working db)) [e]
          /\ requests (working res.1) = updated
          /\ committed res.1 = working res.1)
  /\ (rid ∉ map r_id (requests (working db)) -> res.1 = db)
  /\ (rid ∈ map r_id (requests (working db)) ->
        user_ref_ok (working db) (actor_of who) = false ->
        committed res.1 = committed db
        /\ status_history (working res.1) = status_history (working db)
        /\ requests (working res.1) = updated).
Proof.
  cbv zeta. rewrite update_request_status_unfold.
  destruct (select_status rid (working db)) as [old|] eqn:Hsel.
  - assert (rid ∈ map r_id (requests (working db))) as Hin.
    { apply select_status_elem in Hsel as (r & Hr & <- & _).
      apply list_elem_of_fmap. eauto. }
    cbv zeta. destruct (user_ref_ok (working db) (actor_of who)) eqn:Hu; simpl.
    + repeat split; try done; auto.
      intros _. eexists old, _. repeat split; reflexivity.
    + repeat split; try done; auto.
      intros [_ ?]. done.
  - pose proof (select_status_None _ _ Hsel) as Hnot. simpl.
    repeat split; try done; auto.
    intros [? _]. done.
Qed.


(** *** The guards of the pages *)

Lemma joined_names_nonempty t ref : joined_names t ref <> [].
Proof.
  unfold joined_names.
  by destruct (filter (fun u => Some (u_id u) = ref) (users t)).
Qed.

Lemma select_request_row rid t rv :
  select_request rid t = Some rv ->
  rv_row rv ∈ requests t /\ r_id (rv_row rv) = rid.
Proof.
  unfold select_request. intros Hhd.
  apply head_Some_elem_of in Hhd.
  apply list_elem_of_bind in Hhd as (r & Hrv & Hr).
  apply list_elem_of_filter in Hr as [Hid Hr].
  apply list_elem_of_bind in Hrv as (n1 & Hrv & _).
  apply list_elem_of_bind in Hrv as (n2 & Hrv & _).
  apply list_elem_of_bind in Hrv as (n3 & Hrv & _).
  apply list_elem_of_singleton in Hrv as ->. done.
Qed.

Lemma select_request_Some rid t :
  rid ∈ map r_id (requests t) -> is_Some (select_request rid t).
Proof.
  intros Hin. apply list_elem_of_fmap in Hin as (r & -> & Hr).
  unfold select_request.
  destruct (joined_names t (assigned_to r)) as [|n1 l1] eqn:E1;
    [by apply joined_names_nonempty in E1|].
  destruct (joined_names t (assist_to r)) as [|n2 l2] eqn:E2;
    [by apply joined_names_nonempty in E2|].
  destruct (joined_names t (extended_by r)) as [|n3 l3] eqn:E3;
    [by apply joined_names_nonempty in E3|].
  match goal with |- is_Some (head ?l) => destruct l as [|x ?] eqn:E end;
    [|by eexists].
  exfalso.
  assert ({| rv_row := r; assigned_name := n1; assist_name := n2;
             extended_by_name := n3 |} ∈ @nil request_view) as Hx;
    [|by apply elem_of_nil in Hx].
  rewrite <- E. apply list_elem_of_bind. exists r. split.
  - apply list_elem_of_bind. exists n1. split; [|rewrite E1; left].
    apply list_elem_of_bind. exists n2. split; [|rewrite E2; left].
    apply list_elem_of_bind. exists n3. split; [|rewrite E3; left].
    left.
  - by apply list_elem_of_filter.
Qed.

Lemma can_manage_false user r :
  is_admin user = false ->
  ~ (is_specialist user = true /\ assigned_to r = Some (user_id user)) ->
  can_manage user r = false.
Proof.
  intros Ha Hn. unfold can_manage. rewrite Ha. simpl.
  destruct (is_specialist user) eqn:Hs; [|done]. simpl.
  unfold assigned_to_user. destruct (assigned_to r) as [a|] eqn:Hr; [|done].
  destruct (Z.eqb_spec a (user_id user)) as [->|]; [|by rewrite andb_false_r].
  exfalso. by apply Hn.
Qed.

(** C2, as the code has it.  [update_request_status] does not look at the
    role of the actor or at the assignment: for an existing request and an
    actor who is an existing user, neither admin nor the assigned
    technician, it returns true and the request has the new status.  The
    rule is enforced by [page_view_request]: for such an actor the button
    of the page does nothing, the database stays as it is (status,
    completion time and history included). *)
Theorem status_change_guarded_by_page (user : session) (db : Database)
  (rid : Z) (sel : string) (now ts : datetime) :
  rid ∈ map r_id (requests (working db)) ->
  user_exists (working db) (user_id user) = true ->
  is_admin user = false ->
  (forall r, r ∈ requests (working db) -> r_id r = rid ->
     ~ (is_specialist user = true /\ assigned_to r = Some (user_id user))) ->
  (exists db',
     update_request_status rid sel (Some (user_id user)) now ts db
     = (db', Ok true)
     /\ committed db' = working db'
     /\ forall r, r ∈ requests (working db') -> r_id r = rid ->
          status r = sel /\ completed_date r = completion_stamp sel now)
  /\ view_request_save_status user rid sel now ts db = (db, Ok nothing).
Proof.
  intros Hin Hu Ha Hn. split.
  - rewrite update_request_status_unfold.
    destruct (select_status_Some _ _ Hin) as [old ->]. cbv zeta.
    assert (user_ref_ok (working db) (actor_of (Some (user_id user))) = true)
      as ->.
    { simpl. by destruct (user_id user =? 0). }
    eexists. split; [reflexivity|]. split; [reflexivity|].
    intros r Hr Hid. simpl in Hr.
    apply update_where_id_elem in Hr as (r0 & Hr0 & ->).
    case_decide; [done|]. done.
  - unfold view_request_save_status, get_request, mbind, sql_bind, bind,
      query.
    destruct (select_request_Some _ _ Hin) as [rv Hrv]. rewrite Hrv.
    apply select_request_row in Hrv as [Hr Hid].
    by rewrite (can_manage_false user (rv_row rv) Ha (Hn _ Hr Hid)).
Qed.

(** C3, as the code has it.  [extend_deadline] does not look at the reason
    or at the approval text: for an existing request and an existing user
    it returns true and writes the five extension fields together, also
    when the reason or the approval text is empty or blank.  The rule is
    enforced by [page_quality_control]: with a reason or an approval text
    that is empty once stripped, its button reports an error and the
    database stays as it is. *)
Theorem extension_inputs_checked_by_page (user : session)
  (hr : open_help_row) (new_dt : datetime) (reason approval : string)
  (approved : bool) (ts : datetime) (db : Database) :
  strip reason = "" \/ strip approval = "" ->
  (exists msg,
     quality_control_extend user hr new_dt reason approval approved ts db
     = (db, Ok (st_error msg)))
  /\ forall rid dl uid,
       rid ∈ map r_id (requests (working db)) ->
       user_exists (working db) uid = true ->
       exists db',
         extend_deadline rid dl reason approval uid ts db = (db', Ok true)
         /\ committed db' = working db'
         /\ requests (working db')
            = update_where_id rid
                (set_extension dl reason approval (strftime_iso ts) uid)
                (requests (working db)).
Proof.
  intros Hempty. split.
  - unfold quality_control_extend.
    destruct (negb (can_qm_actions user)); [by eexists|].
    destruct (negb approved); [by eexists|].
    destruct (String.eqb_spec (strip reason) ""); [by eexists|].
    destruct (String.eqb_spec (strip approval) ""); [by eexists|].
    by destruct Hempty.
  - intros rid dl uid Hin Hu. rewrite extend_deadline_unfold, Hu.
    rewrite andb_false_r. cbv zeta.
    apply matched_pos in Hin. apply Z.ltb_lt in Hin. rewrite Hin.
    by eexists.
Qed.


(** *** Creation of a request *)

Lemma filter_none {A} (P : A -> Prop) `{forall x, Decision (P x)} (l : list A) :
  (forall x, x ∈ l -> ~ P x) -> filter P l = [].
Proof.
  induction l as [|x l IH]; intros Hl; [done|].
  rewrite filter_cons. destruct (decide (P x)) as [Hp|_].
  - exfalso. apply (Hl x); [left | done].
  - apply IH. intros y Hy. apply Hl. by right.
Qed.

Lemma insert_request_inv number e m f d cn cp cost dl ts t t' rid :
  insert_request number e m f d cn cp cost dl ts t = inr (t', rid) ->
  exists row,
    (number ∉ map request_number (requests t))
    /\ rid = next_rowid (map r_id (requests t)) (seq_requests t)
    /\ r_id row = rid /\ request_number row = number
    /\ status row = "открыта" /\ completed_date row = None
    /\ deadline row = VStr dl /\ deadline_extended_to row = None
    /\ assigned_to row = None
    /\ requests t' = app (requests t) [row]
    /\ users t' = users t /\ status_history t' = status_history t
    /\ help_requests t' = help_requests t
    /\ seq_status_history t' = seq_status_history t.
Proof.
  unfold insert_request. case_bool_decide as Hn; [done|].
  intros [= <- <-]. eexists. repeat split; simpl; try reflexivity. done.
Qed.

(** What a successful [add_request] leaves.  The connection sees one more
    request, with a key no request had, the status "открыта", no
    completion time and as planned deadline the text of the time
    [datetime.now()] gave for it ([t2]) plus the given number of days (3 by
    default); the creation time of the row is not used for it.  Exactly
    one history entry exists for the request, the initial one from NULL to
    "открыта" without actor, where none existed before; and request and
    entry are committed together. *)
Theorem add_request_creates_open_request (db : Database)
  (data : gmap string value) (days : Z) (t1 t2 t3 t4 : datetime) (rid : Z) :
  (forall h, h ∈ status_history (working db) ->
     sh_request_id h ∈ map r_id (requests (working db))) ->
  (add_request data days t1 t2 t3 t4 db).2 = Ok (Some rid) ->
  let db' := (add_request data days t1 t2 t3 t4 db).1 in
  exists row dl e,
    requests (working db') = app (requests (working db)) [row]
    /\ r_id row = rid
    /\ (rid ∉ map r_id (requests (working db)))
    /\ status row = "открыта"
    /\ completed_date row = None
    /\ add_days t2 days = inr dl
    /\ micros dl = micros t2 + days * US_PER_DAY
    /\ deadline row = VStr (strftime_iso dl)
    /\ deadline_extended_to row = None
    /\ status_history (working db')
       = app (status_history (working db)) [e]
    /\ sh_request_id e = rid /\ old_status e = None
    /\ new_status e = "открыта" /\ changed_by e = None
    /\ history_of rid (working db) = []
    /\ history_of rid (working db') = [e]
    /\ committed db' = working db'.
Proof.
  intros Hfk. cbv zeta. rewrite add_request_unfold. cbv zeta.
  destruct (add_days t2 days) as [x|dl] eqn:Hdl; [done|].
  destruct (float_of _) as [x|cost]; [done|].
  destruct (insert_request _ _ _ _ _ _ _ _ _ _ _) as [x|[tA rid']] eqn:Hins;
    [done|].
  simpl. intros [= ->].
  apply insert_request_inv in Hins
    as (row & _ & Hrid & Hid & _ & Hst & Hcd & Hd & Hx & _ & Hreq & _ & Hh & _).
  assert (rid ∉ map r_id (requests (working db))) as Hfresh
    by (rewrite Hrid; apply next_rowid_fresh).
  assert (history_of rid (working db) = []) as Hnone.
  { apply filter_none. intros h Hh' Heq. apply Hfresh. rewrite <- Heq.
    by apply Hfk. }
  exists row, dl, (history_entry tA rid None "открыта" None t4).
  repeat split; try done.
  - unfold add_days in Hdl. destruct (_ || _); [done|].
    destruct (in_range _); [|done]. by injection Hdl as <-.
  - by rewrite Hh.
  - unfold history_of. simpl. rewrite Hh, filter_app.
    fold (history_of rid (working db)). rewrite Hnone. simpl.
    rewrite filter_cons. simpl. by case_decide.
Qed.


(** *** The schema's guarantees are kept by every statement *)

Lemma wf_update t rid f :
  (forall r, r_id (f r) = r_id r) ->
  wf t -> wf (with_requests t (update_where_id rid f (requests t))).
Proof.
  intros Hf [H1 H2 H3 H4 H5 H6 H7].
  split; simpl; rewrite ?update_where_id_ids; done.
Qed.

Lemma NoDup_snoc_fresh (ids : list Z) (i : Z) :
  NoDup ids -> i ∉ ids -> NoDup (ids ++ [i]).
Proof.
  intros Hnd Hi. apply NoDup_app. split; [done|]. split.
  - intros x Hx Hx'. apply list_elem_of_singleton in Hx' as ->. done.
  - apply NoDup_singleton.
Qed.

Lemma wf_stmt t t' : stmt t t' -> wf t -> wf t'.
Proof.
  destruct 1 as [t rid new now|t rid fields|t rid uid|t rid uid
                 |t rid dl reason approval at_ uid
                 |t number e m f d cn cp cost dl ts t' rid Hins
                 |t rid old new by_user ts t' hid Hins
                 |t rid uid msg ts t' hid Hins
                 |t hid uid note ts t' n Hupd]; intros Hwf.
  - by apply wf_update.
  - apply wf_update; [|done]. intros r.
    by destruct (set_columns_frame fields r) as (?&_).
  - by apply wf_update.
  - by apply wf_update.
  - by apply wf_update.
  - destruct Hwf as [H1 H2 H3 H4 H5 H6 H7].
    unfold insert_request in Hins. case_bool_decide; [done|].
    injection Hins as <- <-.
    split; simpl; try done.
    + rewrite map_app. simpl. apply NoDup_snoc_fresh; [done|].
      apply next_rowid_fresh.
    + intros h Hh. rewrite map_app. apply elem_of_app. left. by apply H5.
    + intros h Hh. rewrite map_app. apply elem_of_app. left. by apply H6.
  - destruct Hwf as [H1 H2 H3 H4 H5 H6 H7].
    unfold insert_status_history in Hins.
    destruct (request_exists t rid) eqn:Hex; [|done].
    destruct (user_ref_ok t by_user); [|done].
    injection Hins as <- <-. apply bool_decide_eq_true in Hex.
    split; simpl; try done.
    intros h Hh. apply elem_of_app in Hh as [Hh | Hh]; [by apply H5|].
    by apply list_elem_of_singleton in Hh as ->.
  - destruct Hwf as [H1 H2 H3 H4 H5 H6 H7].
    unfold insert_help_request in Hins.
    destruct (request_exists t rid) eqn:Hex; [|done].
    destruct (user_exists t uid) eqn:Hu; [|done].
    injection Hins as <- <-.
    apply bool_decide_eq_true in Hex. apply bool_decide_eq_true in Hu.
    split; simpl; try done.
    + rewrite map_app. simpl. apply NoDup_snoc_fresh; [done|].
      apply next_rowid_fresh.
    + intros h Hh. apply elem_of_app in Hh as [Hh | Hh]; [by apply H6|].
      by apply list_elem_of_singleton in Hh as ->.
    + intros h Hh. apply elem_of_app in Hh as [Hh | Hh]; [by apply H7|].
      by apply list_elem_of_singleton in Hh as ->.
  - destruct Hwf as [H1 H2 H3 H4 H5 H6 H7].
    unfold update_help_resolved in Hupd.
    destruct (_ && _); [done|]. injection Hupd as <- <-.
    assert (forall h0 : help_requests_row,
              h_id (if decide (h_id h0 = hid)
                    then set_resolved uid (strftime_iso ts) note h0 else h0)
              = h_id h0) as Hid by (intros h0; by case_decide).
    split; simpl; try done.
    + rewrite map_map. erewrite map_ext; [exact H4|]. exact Hid.
    + intros h Hh. apply list_elem_of_fmap in Hh as (h0 & -> & Hh0).
      case_decide; simpl; by apply H6.
    + intros h Hh. apply list_elem_of_fmap in Hh as (h0 & -> & Hh0).
      case_decide; simpl; by apply H7.
Qed.

(** The guarantees hold in every database of a run that starts with
    them. *)
Lemma wf_trace cs db : holds wf db -> Forall (holds wf) (trace cs db).
Proof. apply holds_trace, wf_stmt. Qed.

Lemma wf_run cs db : holds wf db -> holds wf (run cs db).
Proof. apply holds_run, wf_stmt. Qed.


(** *** Help requests *)

Lemma filter_key_unique {A K} `{EqDecision K} (key : A -> K) (l : list A)
  (x : A) :
  NoDup (map key l) -> x ∈ l -> filter (fun y => key y = key x) l = [x].
Proof.
  induction l as [|a l IH]; intros Hnd Hx; [by apply elem_of_nil in Hx|].
  simpl in Hnd. apply NoDup_cons in Hnd as [Ha Hnd].
  rewrite filter_cons.
  apply elem_of_cons in Hx as [-> | Hx].
  - rewrite decide_True by done. f_equal.
    apply filter_none. intros y Hy Heq. apply Ha. rewrite <- Heq.
    apply list_elem_of_fmap. eauto.
  - rewrite decide_False; [by apply IH|].
    intros Heq. apply Ha. rewrite Heq. apply list_elem_of_fmap. eauto.
Qed.

Lemma filter_key_at_most_one {A K} `{EqDecision K} (key : A -> K)
  (l : list A) (k : K) :
  NoDup (map key l) ->
  filter (fun y => key y = k) l = []
  \/ exists x, filter (fun y => key y = k) l = [x].
Proof.
  intros Hnd.
  destruct (filter (fun y => key y = k) l) as [|x rest] eqn:E; [by left|].
  right. exists x.
  assert (x ∈ filter (fun y => key y = k) l) as Hx by (rewrite E; left).
  apply list_elem_of_filter in Hx as [<- Hx].
  rewrite <- E. by apply filter_key_unique.
Qed.

Lemma joined_names_single t ref :
  NoDup (map u_id (users t)) -> exists n, joined_names t ref = [n].
Proof.
  intros Hnd. unfold joined_names.
  assert (NoDup (map (fun u => Some (u_id u)) (users t))) as Hnd'.
  { rewrite <- (map_map u_id Some). apply (NoDup_fmap_2 Some). exact Hnd. }
  destruct (filter_key_at_most_one (fun u => Some (u_id u)) (users t) ref
              Hnd') as [-> | [u ->]]; simpl; eauto.
Qed.

Lemma bind_map_filter {A B C} (f : A -> list B) (g : B -> C) (h : A -> C)
  (P : A -> bool) (l : list A) :
  (forall x, x ∈ l -> map g (f x) = if P x then [h x] else []) ->
  map g (l ≫= f) = map h (filter (fun x => P x = true) l).
Proof.
  induction l as [|a l IH]; intros Hl; [done|].
  rewrite bind_cons, map_app, filter_cons, (Hl a) by left.
  rewrite IH by (intros x Hx; apply Hl; by right).
  by destruct (P a).
Qed.

Lemma open_help_join_listed t :
  wf t -> listed (open_help_join t) = open_helps t.
Proof.
  intros [H1 H2 H3 H4 H5 H6 H7]. unfold listed, open_helps, open_help_join.
  apply (bind_map_filter _ _ (fun h => (h_id h, h_created_at h))
           (fun h => String.eqb (h_status h) "open")).
  intros hr Hhr.
  pose proof (H6 hr Hhr) as Hreq. pose proof (H7 hr Hhr) as Hus.
  apply list_elem_of_fmap in Hreq as (r & Hrid & Hr).
  apply list_elem_of_fmap in Hus as (u & Huid & Hu).
  rewrite Hrid, (filter_key_unique r_id _ r H3 Hr), bind_singleton.
  destruct (joined_names_single t (assigned_to r) H1) as [n1 ->].
  rewrite bind_singleton.
  destruct (joined_names_single t (assist_to r) H1) as [n2 ->].
  rewrite bind_singleton.
  rewrite Huid, (filter_key_unique u_id _ u H1 Hu), bind_singleton.
  by destruct (String.eqb (h_status hr) "open").
Qed.

(** Texts are totally ordered byte by byte. *)
Lemma string_compare_trans_le (a b c : string) :
  String.compare a b <> Gt -> String.compare b c <> Gt ->
  String.compare a c <> Gt.
Proof.
  revert b c. induction a as [|x a IH]; intros [|y b] [|z c]; simpl;
    try congruence.
  unfold Ascii.compare.
  destruct (N.compare_spec (N_of_ascii x) (N_of_ascii y)) as [Hxy|Hxy|Hxy];
    destruct (N.compare_spec (N_of_ascii y) (N_of_ascii z)) as [Hyz|Hyz|Hyz];
    try congruence; intros Hab Hbc.
  - rewrite Hxy, Hyz, N.compare_refl. by eapply IH.
  - rewrite Hxy. by apply N.compare_lt_iff in Hyz as ->.
  - rewrite <- Hyz. by apply N.compare_lt_iff in Hxy as ->.
  - assert (N_of_ascii x < N_of_ascii z)%N as Hxz by lia.
    by apply N.compare_lt_iff in Hxz as ->.
Qed.

#[local] Instance newest_first_total : Total newest_first.
Proof.
  intros a b. unfold newest_first.
  destruct (String.leb_total (oh_created_at b) (oh_created_at a)); auto.
Qed.

#[local] Instance newest_first_trans : Transitive newest_first.
Proof.
  intros a b c. unfold newest_first, String.leb. intros Hab Hbc.
  pose proof (string_compare_trans_le (oh_created_at c) (oh_created_at b)
                (oh_created_at a)) as Ht.
  destruct (String.compare (oh_created_at c) (oh_created_at b)); try done;
    destruct (String.compare (oh_created_at b) (oh_created_at a)); try done;
    destruct (String.compare (oh_created_at c) (oh_created_at a)); try done;
    exfalso; by apply Ht.
Qed.

Lemma list_open_help_requests_spec db :
  wf (working db) ->
  exists l,
    list_open_help_requests db = (db, Ok l)
    /\ listed l ≡ₚ open_helps (working db)
    /\ StronglySorted newest_first l.
Proof.
  intros Hwf. exists (select_open_help (working db)). split; [done|]. split.
  - rewrite <- (open_help_join_listed _ Hwf). unfold listed, select_open_help.
    apply fmap_Permutation, merge_sort_Permutation.
  - apply StronglySorted_merge_sort; apply _.
Qed.


Lemma create_help_request_ok rid uid msg ts db :
  rid ∈ map r_id (requests (working db)) ->
  uid ∈ map u_id (users (working db)) ->
  exists hid row t',
    create_help_request rid uid msg ts db
    = ({| committed := t'; working := t' |}, Ok (Some hid))
    /\ (hid ∉ map h_id (help_requests (working db)))
    /\ h_id row = hid /\ h_request_id row = rid /\ requested_by row = uid
    /\ message row = msg /\ h_status row = "open"
    /\ h_created_at row = strftime_iso ts
    /\ help_requests t' = app (help_requests (working db)) [row]
    /\ requests t' = requests (working db)
    /\ users t' = users (working db)
    /\ stmt (working db) t'.
Proof.
  intros Hr Hu. rewrite create_help_request_unfold.
  destruct (insert_help_request rid uid msg ts (working db))
    as [e|[t' hid]] eqn:Hins.
  - exfalso. unfold insert_help_request in Hins.
    unfold request_exists, user_exists in Hins.
    rewrite !bool_decide_eq_true_2 in Hins by done. done.
  - pose proof (stmt_insert_help _ _ _ _ _ _ _ Hins) as Hstmt.
    unfold insert_help_request in Hins.
    destruct (_ && _); [|done]. injection Hins as <- <-.
    eexists _, _, _. split; [reflexivity|].
    split; [apply next_rowid_fresh|]. repeat split; try reflexivity.
    exact Hstmt.
Qed.

Lemma resolve_help_request_ok hid uid note ts db :
  hid ∈ map h_id (help_requests (working db)) ->
  uid ∈ map u_id (users (working db)) ->
  exists t',
    resolve_help_request hid uid note ts db
    = ({| committed := t'; working := t' |}, Ok true)
    /\ help_requests t'
       = map (fun h => if decide (h_id h = hid)
                       then set_resolved uid (strftime_iso ts) note h else h)
           (help_requests (working db))
    /\ requests t' = requests (working db)
    /\ users t' = users (working db)
    /\ status_history t' = status_history (working db)
    /\ stmt (working db) t'.
Proof.
  intros Hh Hu. rewrite resolve_help_request_unfold.
  destruct (update_help_resolved hid uid note ts (working db))
    as [e|[t' n]] eqn:Hupd.
  - exfalso. unfold update_help_resolved, user_exists in Hupd.
    rewrite (bool_decide_eq_true_2 _ Hu), andb_false_r in Hupd. done.
  - pose proof (stmt_resolve _ _ _ _ _ _ _ Hupd) as Hstmt.
    unfold update_help_resolved in Hupd.
    destruct (_ && _); [done|]. injection Hupd as <- <-.
    assert ((0 <? Z.of_nat (length (filter (fun h => h_id h = hid)
                                      (help_requests (working db)))))
            = true) as ->.
    { apply Z.ltb_lt.
      apply list_elem_of_fmap in Hh as (h & -> & Hh).
      assert (h ∈ filter (fun h0 => h_id h0 = h_id h)
                    (help_requests (working db))) as Hf
        by (by apply list_elem_of_filter).
      destruct (filter _ _); [by apply elem_of_nil in Hf | simpl; lia]. }
    eexists. split; [reflexivity|]. by repeat split.
Qed.

Lemma open_helps_elem t hid at_ :
  (hid, at_) ∈ open_helps t <->
  exists h, h ∈ help_requests t /\ h_id h = hid /\ h_created_at h = at_
            /\ h_status h = "open".
Proof.
  unfold open_helps. rewrite list_elem_of_fmap. split.
  - intros (h & [= -> ->] & Hh).
    apply list_elem_of_filter in Hh as [Hs Hh].
    apply String.eqb_eq in Hs. eauto.
  - intros (h & Hh & <- & <- & Hs). exists h. split; [done|].
    apply list_elem_of_filter. split; [|done]. by apply String.eqb_eq.
Qed.

(** C8.  Two help requests opened one after the other for the same request
    are both created, both open and both listed.  Resolving the first
    rewrites only the rows of [help_requests] with its key and no other
    table: the second is still open and still listed, the first is no
    longer listed.  For tables with the schema's guarantees the listing
    holds all and only the open help requests, the newest first. *)
Theorem resolving_one_help_request_leaves_the_other (db : Database)
  (rid uid resolver : Z) (m1 m2 note : string) (ts1 ts2 ts3 : datetime) :
  wf (working db) ->
  rid ∈ map r_id (requests (working db)) ->
  uid ∈ map u_id (users (working db)) ->
  resolver ∈ map u_id (users (working db)) ->
  (exists h1 h2 db1 db2 db3 l2 l3,
    create_help_request rid uid m1 ts1 db = (db1, Ok (Some h1))
    /\ create_help_request rid uid m2 ts2 db1 = (db2, Ok (Some h2))
    /\ h1 <> h2
    /\ list_open_help_requests db2 = (db2, Ok l2)
    /\ (h1, strftime_iso ts1) ∈ listed l2
    /\ (h2, strftime_iso ts2) ∈ listed l2
    /\ resolve_help_request h1 resolver note ts3 db2 = (db3, Ok true)
    /\ help_requests (working db3)
       = map (fun h => if decide (h_id h = h1)
                       then set_resolved resolver (strftime_iso ts3) note h
                       else h)
           (help_requests (working db2))
    /\ (forall h, h ∈ help_requests (working db2) -> h_id h <> h1 ->
          h ∈ help_requests (working db3))
    /\ requests (working db3) = requests (working db2)
    /\ status_history (working db3) = status_history (working db2)
    /\ (exists row, row ∈ help_requests (working db3) /\ h_id row = h2
                    /\ h_request_id row = rid /\ h_status row = "open")
    /\ list_open_help_requests db3 = (db3, Ok l3)
    /\ (h2, strftime_iso ts2) ∈ listed l3
    /\ (h1 ∉ map help_id l3))
  /\ (forall d, wf (working d) ->
        exists l, list_open_help_requests d = (d, Ok l)
                  /\ listed l ≡ₚ open_helps (working d)
                  /\ StronglySorted newest_first l).
Proof.
  intros Hwf Hr Hu Hres. split; [|apply list_open_help_requests_spec].
  destruct (create_help_request_ok rid uid m1 ts1 db Hr Hu)
    as (h1 & row1 & t1 & Hc1 & Hf1 & Hid1 & Hrq1 & _ & _ & Hs1 & Hat1 & Hh1
        & Hreq1 & Hus1 & Hst1).
  set (db1 := {| committed := t1; working := t1 |}) in *.
  assert (wf t1) as Hwf1 by (by eapply wf_stmt).
  assert (rid ∈ map r_id (requests (working db1))) as Hr1
    by (simpl; by rewrite Hreq1).
  assert (uid ∈ map u_id (users (working db1))) as Hu1
    by (simpl; by rewrite Hus1).
  destruct (create_help_request_ok rid uid m2 ts2 db1 Hr1 Hu1)
    as (h2 & row2 & t2 & Hc2 & Hf2 & Hid2 & Hrq2 & _ & _ & Hs2 & Hat2 & Hh2
        & Hreq2 & Hus2 & Hst2).
  set (db2 := {| committed := t2; working := t2 |}) in *.
  assert (wf t2) as Hwf2 by (by eapply wf_stmt).
  simpl in Hh2, Hf2, Hreq2, Hus2.
  assert (row1 ∈ help_requests t2) as Hrow1.
  { rewrite Hh2, Hh1. apply elem_of_app. left. apply elem_of_app. right.
    left. }
  assert (row2 ∈ help_requests t2) as Hrow2.
  { rewrite Hh2. apply elem_of_app. right. left. }
  assert (h1 <> h2) as Hne.
  { intros ->. apply Hf2. rewrite Hh1, map_app. apply elem_of_app. right.
    simpl. rewrite Hid1. left. }
  destruct (list_open_help_requests_spec db2 Hwf2) as (l2 & Hl2 & Hp2 & _).
  assert (h1 ∈ map h_id (help_requests (working db2))) as Hin1.
  { simpl. apply list_elem_of_fmap. eauto. }
  assert (resolver ∈ map u_id (users (working db2))) as Hres2.
  { simpl. by rewrite Hus2, Hus1. }
  destruct (resolve_help_request_ok h1 resolver note ts3 db2 Hin1 Hres2)
    as (t3 & Hrs & Hh3 & Hreq3 & Hus3 & Hsh3 & Hst3).
  set (db3 := {| committed := t3; working := t3 |}) in *.
  assert (wf t3) as Hwf3 by (by eapply wf_stmt).
  simpl in Hh3, Hreq3, Hus3, Hsh3.
  destruct (list_open_help_requests_spec db3 Hwf3) as (l3 & Hl3 & Hp3 & _).
  assert (forall h, h ∈ help_requests t2 -> h_id h <> h1 ->
            h ∈ help_requests t3) as Hframe.
  { intros h Hh Hn. rewrite Hh3. apply list_elem_of_fmap. exists h.
    split; [|done]. by rewrite decide_False. }
  exists h1, h2, db1, db2, db3, l2, l3.
  split; [done|]. split; [done|]. split; [done|]. split; [done|].
  split. { rewrite Hp2. apply open_helps_elem. eauto 10. }
  split. { rewrite Hp2. apply open_helps_elem. eauto 10. }
  split; [done|]. split; [done|]. split; [done|]. split; [done|].
  split; [done|].
  split. { exists row2. split; [|done]. apply Hframe; [done|congruence]. }
  split; [done|].
  split.
  { rewrite Hp3. apply open_helps_elem. exists row2.
    split; [|done]. apply Hframe; [done|congruence]. }
  intros Hin.
  assert (map help_id l3 = map fst (listed l3)) as Hfst.
  { unfold listed. rewrite map_map. done. }
  rewrite Hfst in Hin. apply list_elem_of_fmap in Hin as ([i at_] & Hi & Hin).
  simpl in Hi. subst i. rewrite Hp3 in Hin.
  apply open_helps_elem in Hin as (h & Hh & Hid & _ & Hopen).
  simpl in Hh. rewrite Hh3 in Hh.
  apply list_elem_of_fmap in Hh as (h0 & -> & Hh0).
  case_decide; simpl in *; congruence.
Qed.


(** *** Partial update *)

Lemma set_columns_collect data r :
  set_columns (collect_fields data) r = apply_partial data r.
Proof.
  unfold collect_fields, allowed, apply_partial. simpl.
  destruct (data !! "equipment_type"), (data !! "device_model"),
    (data !! "fault_type"), (data !! "problem_description"),
    (data !! "customer_name"), (data !! "customer_phone"),
    (data !! "estimated_cost"), (data !! "actual_cost"),
    (data !! "deadline"); destruct r; vm_compute; reflexivity.
Qed.

Lemma apply_partial_frame data r :
  r_id (apply_partial data r) = r_id r
  /\ status (apply_partial data r) = status r
  /\ completed_date (apply_partial data r) = completed_date r.
Proof. done. Qed.

Lemma collect_fields_nil data r :
  collect_fields data = [] -> apply_partial data r = r.
Proof. intros Hnil. by rewrite <- set_columns_collect, Hnil. Qed.

Lemma whitelisted_lookup data k :
  k ∈ allowed -> whitelisted data !! k = data !! k.
Proof.
  intros Hk. unfold whitelisted. apply option_eq. intros v.
  rewrite map_lookup_filter_Some. split; [by intros [? _]|].
  intros Hv. split; [exact Hv | exact Hk].
Qed.

Lemma collect_fields_ext (d1 d2 : gmap string value) :
  (forall k, k ∈ allowed -> d1 !! k = d2 !! k) ->
  collect_fields d1 = collect_fields d2.
Proof.
  intros Hext. unfold collect_fields. apply list_omap_ext.
  apply Forall2_same_length_lookup. split; [done|].
  intros i k k' Hk Hk'. assert (k' = k) as -> by congruence.
  rewrite (Hext k); [done|]. by eapply list_elem_of_lookup_2.
Qed.

(** C9.  Whatever [update_request] returns, the requests the connection
    then sees are the former ones with, in the rows of the given key, each
    whitelisted field replaced by the value the input has under its name
    and every other column kept: the status and the completion time of
    every request are the same, and so are the status history and the other
    tables.  Fields of the input outside the whitelist have no effect on
    the call. *)
Theorem update_request_writes_only_whitelisted (db : Database) (rid : Z)
  (data : gmap string value) :
  let db' := (update_request rid data db).1 in
  requests (working db')
  = update_where_id rid (apply_partial data) (requests (working db))
  /\ map status (requests (working db'))
     = map status (requests (working db))
  /\ map completed_date (requests (working db'))
     = map completed_date (requests (working db))
  /\ status_history (working db') = status_history (working db)
  /\ help_requests (working db') = help_requests (working db)
  /\ users (working db') = users (working db)
  /\ (committed db' = working db' \/ db' = db)
  /\ ((update_request rid data db).2 = Ok true
      \/ (update_request rid data db).2 = Ok false)
  /\ update_request rid (whitelisted data) db = update_request rid data db
  /\ (forall k v, k ∉ allowed ->
        update_request rid (<[k:=v]> data) db = update_request rid data db).
Proof.
  cbv zeta.
  assert (requests (working (update_request rid data db).1)
          = update_where_id rid (apply_partial data) (requests (working db)))
    as Hreq.
  { rewrite update_request_unfold.
    destruct (collect_fields data) as [|kv fields] eqn:Hf.
    - simpl. unfold update_where_id.
      rewrite <- (map_id (requests (working db))) at 1.
      apply map_ext. intros r. case_decide; [|done].
      by rewrite collect_fields_nil.
    - simpl. unfold update_where_id. apply map_ext. intros r.
      case_decide; [|done]. by rewrite <- Hf, set_columns_collect. }
  split; [exact Hreq|].
  split. { rewrite Hreq. unfold update_where_id. rewrite map_map.
           apply map_ext. intros r. by case_decide. }
  split. { rewrite Hreq. unfold update_where_id. rewrite map_map.
           apply map_ext. intros r. by case_decide. }
  rewrite update_request_unfold.
  split. { by destruct (collect_fields data). }
  split. { by destruct (collect_fields data). }
  split. { by destruct (collect_fields data). }
  split. { destruct (collect_fields data); simpl; auto. }
  split. { destruct (collect_fields data); simpl; auto.
           destruct (0 <? _); auto. }
  split.
  - rewrite <- update_request_unfold. unfold update_request.
    rewrite (collect_fields_ext (whitelisted data) data); [done|].
    intros k Hk. by apply whitelisted_lookup.
  - intros k v Hk. rewrite <- update_request_unfold. unfold update_request.
    rewrite (collect_fields_ext (<[k:=v]> data) data); [done|].
    intros k' Hk'. apply lookup_insert_ne. congruence.
Qed.


(** *** Authentication *)

(** C10.  [authenticate_user] leaves the database as it is and returns a
    user row or [None].  A row it returns is a row of [users] with the
    given name, with the SHA-256 digest of the given password as stored
    password and with the active flag set.  It returns [None] exactly when
    no row has these three properties; in particular, user names being
    unique, for a user whose active flag is not set, whatever the
    password. *)
Theorem authenticate_user_spec (db : Database) (uname pw : string) :
  exists res,
    authenticate_user uname pw db = (db, Ok res)
    /\ (forall u, res = Some u ->
          u ∈ users (working db) /\ username u = uname
          /\ password u = _sha256 pw /\ is_active u = true)
    /\ (res = None <->
          ~ exists u, u ∈ users (working db) /\ username u = uname
                      /\ password u = _sha256 pw /\ is_active u = true)
    /\ (NoDup (map username (users (working db))) ->
        forall u, u ∈ users (working db) -> username u = uname ->
                  is_active u = false -> res = None).
Proof.
  exists (select_user uname (_sha256 pw) (working db)).
  split; [reflexivity|].
  assert (forall u, select_user uname (_sha256 pw) (working db) = Some u ->
            u ∈ users (working db) /\ username u = uname
            /\ password u = _sha256 pw /\ is_active u = true) as Hsome.
  { intros u Hu. unfold select_user in Hu. apply head_Some_elem_of in Hu.
    apply list_elem_of_filter in Hu as [(? & ? & ?) ?]. done. }
  assert (select_user uname (_sha256 pw) (working db) = None <->
          ~ exists u, u ∈ users (working db) /\ username u = uname
                      /\ password u = _sha256 pw /\ is_active u = true)
    as Hnone.
  { split.
    - intros Hn (u & Hu & H1 & H2 & H3). unfold select_user in Hn.
      apply head_None in Hn.
      assert (u ∈ filter (fun u => username u = uname
                                   /\ password u = _sha256 pw
                                   /\ is_active u = true)
                    (users (working db))) as Hf
        by (apply list_elem_of_filter; done).
      rewrite Hn in Hf. by apply elem_of_nil in Hf.
    - intros Hn.
      destruct (select_user uname (_sha256 pw) (working db)) as [u|] eqn:E;
        [|done].
      exfalso. apply Hn. exists u. by apply Hsome. }
  split; [exact Hsome|]. split; [exact Hnone|].
  intros Hnd u Hu Hname Hact. apply Hnone.
  intros (u' & Hu' & Hname' & _ & Hact').
  assert (u' = u) as ->; [|congruence].
  pose proof (filter_key_unique username _ u Hnd Hu) as Hf.
  assert (u' ∈ filter (fun y => username y = username u)
                 (users (working db))) as Hin
    by (apply list_elem_of_filter; split; [congruence | done]).
  rewrite Hf in Hin. by apply list_elem_of_singleton in Hin.
Qed.

(** *** The risk indicator *)

(** C7.  The indicator the page shows is the text of the specification's
    risk state: nothing for a completed request, nothing without effective
    deadline (the extended deadline if present, else the planned one),
    overdue when the deadline is before now, at risk when it is at most 24
    hours away, on track otherwise; and a deadline text the parser rejects
    gives the empty text, no exception. *)
Theorem deadline_state_is_riskState (r : requests_row) (now : datetime) :
  deadline_state r now = risk_text (riskState r now)
  /\ (forall v,
        spec_effective_deadline r = Some v ->
        fromisoformat (replace_space_T (py_str v)) = None ->
        deadline_state r now = "").
Proof.
  assert (effective_deadline r
          = default (VStr "") (spec_effective_deadline r)
          /\ truthy (effective_deadline r)
             = bool_decide (is_Some (spec_effective_deadline r))) as [He Ht].
  { unfold effective_deadline, spec_effective_deadline, present, py_or.
    destruct (truthy (of_text (deadline_extended_to r))) eqn:Ha;
      [|destruct (truthy (deadline r)) eqn:Hb];
      simpl; rewrite ?Ha, ?Hb; simpl; rewrite ?Ha, ?Hb; done. }
  split.
  - unfold deadline_state, riskState. rewrite Ht, He.
    destruct (String.eqb_spec (status r) "завершена") as [Hs|Hs].
    + by rewrite (bool_decide_eq_true_2 (status r = _)).
    + rewrite (bool_decide_eq_false_2 (status r = _)) by done.
      destruct (spec_effective_deadline r) as [v|]; simpl; [|done].
      unfold deadline_instant.
      destruct (fromisoformat _) as [[dt|dt off]|]; [|done|done].
      destruct (Z.ltb_spec (micros dt - micros now) 0).
      * by rewrite (bool_decide_eq_true_2 (micros dt < _)) by lia.
      * rewrite (bool_decide_eq_false_2 (micros dt < _)) by lia.
        destruct (Z.leb_spec (micros dt - micros now) DAY_US).
        -- by rewrite (bool_decide_eq_true_2 (_ <= DAY_US)) by lia.
        -- by rewrite (bool_decide_eq_false_2 (_ <= DAY_US)) by lia.
  - intros v Hv Hparse. unfold deadline_state. rewrite Ht, He, Hv. simpl.
    rewrite Hparse. by destruct (String.eqb _ _).
Qed.


(** *** Request numbers *)

Lemma list_ascii_of_string_app (a b : string) :
  list_ascii_of_string (a +:+ b)
  = app (list_ascii_of_string a) (list_ascii_of_string b).
Proof. induction a as [|c a IH]; simpl; [done|]. by rewrite IH. Qed.

Lemma ci_eqb_refl c : ci_eqb c c = true.
Proof. unfold ci_eqb. apply Ascii.eqb_refl. Qed.

Lemma like_match_any_tail s : like_match ["%"%char] s = true.
Proof. simpl. induction s as [|c s IH]; [done|]. by rewrite IH. Qed.

(** A text followed by anything matches the pattern made of the text and
    a final [%]. *)
Lemma like_match_prefix (p s : list ascii) :
  like_match (app p ["%"%char]) (app p s) = true.
Proof.
  induction p as [|c p IH]; [apply like_match_any_tail|].
  cbn [app like_match].
  destruct (Ascii.eqb_spec c "%") as [->|Hpc].
  - rewrite (orb_true_iff _ _). right.
    destruct (app p s); by rewrite IH.
  - destruct (Ascii.eqb_spec c "_") as [->|Hus].
    + exact IH.
    + by rewrite ci_eqb_refl, IH.
Qed.

Lemma like_prefix (p s : string) : like (p +:+ s) (p +:+ "%") = true.
Proof.
  unfold like. rewrite !list_ascii_of_string_app. apply like_match_prefix.
Qed.

Lemma string_app_cons (c : ascii) (a b : string) :
  String c a +:+ b = String c (a +:+ b).
Proof. reflexivity. Qed.

Lemma string_app_assoc (a b c : string) : (a +:+ b) +:+ c = a +:+ (b +:+ c).
Proof.
  induction a as [|x a IH]; [done|]. rewrite !string_app_cons. by f_equal.
Qed.

Lemma count_like_numbers p t :
  count_like p t
  = Z.of_nat (length (filter (fun n => like n p = true) (numbers t))).
Proof.
  unfold count_like, numbers. f_equal.
  induction (requests t) as [|r rs IH]; [done|].
  simpl. rewrite !filter_cons. simpl.
  destruct (decide (like (request_number r) p = true)); simpl;
    by rewrite IH.
Qed.

Lemma count_like_same p t t' :
  numbers t' = numbers t -> count_like p t' = count_like p t.
Proof. intros Hn. by rewrite !count_like_numbers, Hn. Qed.

Lemma count_like_snoc d n t t' :
  numbers t' = app (numbers t) [number_of d n] ->
  count_like ("REQ" +:+ d +:+ "%") t'
  = count_like ("REQ" +:+ d +:+ "%") t + 1.
Proof.
  intros Hn. rewrite !count_like_numbers, Hn, filter_app, length_app.
  rewrite filter_cons. unfold number_of.
  assert (like ("REQ" +:+ d +:+ format_04d n) ("REQ" +:+ d +:+ "%") = true)
    as Hlike.
  { rewrite <- !(string_app_assoc "REQ" d). apply like_prefix. }
  rewrite decide_True by exact Hlike. simpl. lia.
Qed.

(** What a call does to the request numbers. *)
Lemma step_numbers d c db :
  created_on d c ->
  numbers (working (step c db)) = numbers (working db)
  \/ numbers (working (step c db))
     = app (numbers (working db))
         [number_of d (count_like ("REQ" +:+ d +:+ "%") (working db) + 1)].
Proof.
  destruct c as [data days n1 n2 ts1 ts2|rid data|rid new who now ts
                 |rid uid|rid uid|rid uid|rid dl reason approval uid ts
                 |rid uid msg ts|hid uid note ts]; simpl; intros Hd.
  - rewrite add_request_unfold. cbv zeta.
    destruct (add_days _ _); [by left|].
    destruct (float_of _); [by left|].
    destruct (insert_request _ _ _ _ _ _ _ _ _ _ _) as [e|[tA rid]] eqn:Hins;
      [by left|].
    right. apply insert_request_inv in Hins
      as (row & _ & _ & _ & Hnum & _ & _ & _ & _ & _ & Hreq & _).
    unfold numbers. simpl. rewrite Hreq, map_app. simpl.
    rewrite Hnum. unfold day_pattern, number_of. by rewrite Hd.
  - left. rewrite update_request_unfold.
    destruct (collect_fields data); [done|]. unfold numbers. simpl.
    apply update_where_id_numbers. intros r.
    by destruct (set_columns_frame (p :: l) r) as (_&?&_).
  - left. rewrite update_request_status_unfold.
    destruct (select_status _ _); [|done]. cbv zeta.
    destruct (user_ref_ok _ _); unfold numbers; simpl;
      by apply update_where_id_numbers.
  - left. rewrite assign_request_unfold.
    destruct (_ && _); [done|]. unfold numbers. simpl.
    by apply update_where_id_numbers.
  - left. rewrite set_assistant_master_unfold.
    destruct (_ && _); [done|]. unfold numbers. simpl.
    by apply update_where_id_numbers.
  - left. unfold reassign_master. rewrite assign_request_unfold.
    destruct (_ && _); [done|]. unfold numbers. simpl.
    by apply update_where_id_numbers.
  - left. rewrite extend_deadline_unfold.
    destruct (_ && _); [done|]. unfold numbers. simpl.
    by apply update_where_id_numbers.
  - left. rewrite create_help_request_unfold.
    destruct (insert_help_request _ _ _ _ _) as [e|[t hid]] eqn:Hins;
      [done|].
    unfold insert_help_request in Hins. destruct (_ && _); [|done].
    by injection Hins as <- <-.
  - left. rewrite resolve_help_request_unfold.
    destruct (update_help_resolved _ _ _ _ _) as [e|[t n]] eqn:Hupd;
      [done|].
    unfold update_help_resolved in Hupd. destruct (_ && _); [done|].
    by injection Hupd as <- <-.
Qed.

Lemma run_numbers d cs db :
  Forall (created_on d) cs ->
  exists m : nat,
    numbers (working (run cs db))
    = app (numbers (working db))
        (map (fun i : nat =>
                number_of d (count_like ("REQ" +:+ d +:+ "%") (working db)
                             + Z.of_nat i))
             (seq 1 m))
    /\ count_like ("REQ" +:+ d +:+ "%") (working (run cs db))
       = count_like ("REQ" +:+ d +:+ "%") (working db) + Z.of_nat m.
Proof.
  revert db. induction cs as [|c cs IH]; intros db Hall.
  - exists 0%nat. simpl. rewrite app_nil_r. split; [done|lia].
  - apply Forall_cons in Hall as [Hc Hall]. simpl.
    destruct (IH (step c db) Hall) as (m & Hnum & Hcnt).
    destruct (step_numbers d c db Hc) as [Hsame | Hsnoc].
    + exists m. rewrite Hnum, Hcnt, Hsame.
      by rewrite (count_like_same _ _ _ Hsame).
    + exists (S m). rewrite Hnum, Hcnt, Hsnoc.
      rewrite (count_like_snoc _ _ _ _ Hsnoc). split; [|lia].
      rewrite <- app_assoc. f_equal. simpl. f_equal.
      rewrite <- (seq_shift m 1), map_map. apply map_ext. intros i.
      f_equal. lia.
Qed.

(** *** The sequence part *)

Lemma string_length_app (a b : string) :
  String.length (a +:+ b) = (String.length a + String.length b)%nat.
Proof.
  induction a as [|c a IH]; [done|]. rewrite string_app_cons. simpl.
  by rewrite IH.
Qed.

Lemma zeros_length n : String.length (zeros n) = n.
Proof. induction n as [|n IH]; simpl; [done|]. by rewrite IH. Qed.

Lemma zfill_length w s :
  String.length (zfill w s) = Nat.max w (String.length s).
Proof. unfold zfill. rewrite string_length_app, zeros_length. lia. Qed.

Lemma format_04d_min_length n : (4 <= String.length (format_04d n))%nat.
Proof.
  unfold format_04d. destruct (n <? 0); simpl; rewrite zfill_length; lia.
Qed.

Lemma of_uint_acc_lower d acc :
  Z.pos acc * 10 ^ Z.of_nat (Decimal.nb_digits d)
  <= Z.pos (Pos.of_uint_acc d acc).
Proof.
  revert acc. induction d as [|d IH|d IH|d IH|d IH|d IH|d IH|d IH|d IH|d IH
                              |d IH]; intros acc;
    cbn [Decimal.nb_digits Pos.of_uint_acc]; [simpl; lia|..];
    rewrite Nat2Z.inj_succ, Z.pow_succ_r by lia;
    match goal with
    | |- _ <= Z.pos (Pos.of_uint_acc _ ?a) => specialize (IH a)
    end; nia.
Qed.

Lemma string_of_uint_length d :
  String.length (NilEmpty.string_of_uint d) = Decimal.nb_digits d.
Proof. induction d; simpl; congruence. Qed.

(** A positive number below 10000 is written with at most four digits. *)
Lemma to_uint_digits p :
  Z.pos p <= 9999 -> (Decimal.nb_digits (Pos.to_uint p) <= 4)%nat.
Proof.
  intros Hp.
  pose proof (DecimalPos.Unsigned.of_to p) as Hof.
  pose proof (DecimalPos.Unsigned.to_of (Pos.to_uint p)) as Hto.
  rewrite Hof in Hto. simpl in Hto.
  pose proof (DecimalPos.Unsigned.to_uint_nonzero p) as Hnz.
  assert (forall l k, Pos.of_uint_acc l k = p ->
                      (S (Decimal.nb_digits l) <= 4)%nat) as Hlead.
  { intros l k Hk. pose proof (of_uint_acc_lower l k) as Hlow.
    rewrite Hk in Hlow.
    destruct (Nat.le_gt_cases (S (Decimal.nb_digits l)) 4) as [|Hgt];
      [done|].
    assert (10 ^ 4 <= 10 ^ Z.of_nat (Decimal.nb_digits l)) as Hpow
      by (apply Z.pow_le_mono_r; lia).
    change (10 ^ 4) with 10000 in Hpow. nia. }
  destruct (Pos.to_uint p) as [|l|l|l|l|l|l|l|l|l|l] eqn:Hd;
    cbn [Decimal.nb_digits]; [lia| |simpl in Hof; injection Hof as Hof;
                                    by eapply Hlead..].
  exfalso. unfold Decimal.unorm in Hto. cbn [Decimal.nzhead] in Hto.
  destruct (Decimal.nzhead l) eqn:Hn; try done.
  by apply DecimalFacts.nzhead_nonzero in Hn.
Qed.

Lemma format_04d_length_4 n :
  0 <= n <= 9999 -> String.length (format_04d n) = 4%nat.
Proof.
  intros Hn. unfold format_04d. rewrite (proj2 (Z.ltb_ge n 0)) by lia.
  rewrite zfill_length. unfold str_of_int.
  destruct n as [|p|p]; [reflexivity| |lia]. simpl.
  pose proof (to_uint_digits p (proj2 Hn)) as Hlen.
  pose proof (DecimalPos.Unsigned.to_uint_nonnil p) as Hnil.
  assert (NilZero.string_of_uint (Pos.to_uint p)
          = NilEmpty.string_of_uint (Pos.to_uint p)) as ->
    by (by destruct (Pos.to_uint p)).
  rewrite string_of_uint_length. lia.
Qed.

Lemma uint_of_string_zeros k d :
  NilEmpty.uint_of_string (zeros k +:+ NilEmpty.string_of_uint d)
  = Some (Nat.iter k Decimal.D0 d).
Proof.
  induction k as [|k IH]; [apply NilEmpty.usu|].
  cbn [zeros Nat.iter]. rewrite string_app_cons.
  cbn [NilEmpty.uint_of_string]. by rewrite IH.
Qed.

Lemma of_uint_zeros k d :
  Pos.of_uint (Nat.iter k Decimal.D0 d) = Pos.of_uint d.
Proof. induction k as [|k IH]; simpl; done. Qed.

Lemma int_of_text_format_04d n :
  0 <= n -> int_of_text (format_04d n) = Some n.
Proof.
  intros Hn. unfold format_04d. rewrite (proj2 (Z.ltb_ge n 0)) by lia.
  unfold zfill, str_of_int, int_of_text.
  pose proof (DecimalZ.of_to n) as Hof.
  set (k := (4 - _)%nat). clearbody k.
  destruct (Z.to_int n) as [d|d] eqn:Hd.
  2: { destruct n; simpl in Hd; try done; lia. }
  assert (d <> Decimal.Nil) as Hnil.
  { intros ->. destruct n as [|p|p]; simpl in Hd; try done;
      injection Hd as Hd; revert Hd;
      apply DecimalPos.Unsigned.to_uint_nonnil. }
  simpl NilZero.string_of_int.
  assert (NilZero.string_of_uint d = NilEmpty.string_of_uint d) as ->
    by (by destruct d).
  assert (NilZero.int_of_string (zeros k +:+ NilEmpty.string_of_uint d)
          = Some (Decimal.Pos (Nat.iter k Decimal.D0 d))) as ->.
  { pose proof (uint_of_string_zeros k d) as Hu.
    destruct k as [|k].
    - change (zeros 0 +:+ NilEmpty.string_of_uint d)
        with (NilEmpty.string_of_uint d) in *.
      destruct d; simpl in *; try done; by rewrite Hu.
    - change (zeros (S k) +:+ NilEmpty.string_of_uint d)
        with (String "0" (zeros k +:+ NilEmpty.string_of_uint d)) in *.
      unfold NilZero.int_of_string, NilZero.uint_of_string.
      simpl Ascii.eqb. cbv iota. by rewrite Hu. }
  simpl. unfold Z.of_uint. rewrite of_uint_zeros.
  simpl in Hof. unfold Z.of_uint in Hof. by rewrite Hof.
Qed.

Lemma number_of_inj d i j :
  0 <= i -> 0 <= j -> number_of d i = number_of d j -> i = j.
Proof.
  intros Hi Hj Heq. unfold number_of in Heq.
  apply (inj (String.append "REQ")), (inj (String.append d)) in Heq.
  apply (f_equal int_of_text) in Heq.
  rewrite !int_of_text_format_04d in Heq by done. by injection Heq.
Qed.

Lemma filter_all {A} (P : A -> Prop) `{forall x, Decision (P x)} (l : list A) :
  (forall x, x ∈ l -> P x) -> filter P l = l.
Proof.
  induction l as [|x l IH]; intros Hl; [done|].
  rewrite filter_cons, decide_True by (apply Hl; left).
  f_equal. apply IH. intros y Hy. apply Hl. by right.
Qed.

Lemma count_like_day_numbers d k t :
  numbers t = day_numbers d k ->
  count_like ("REQ" +:+ d +:+ "%") t = Z.of_nat k.
Proof.
  intros Hn. rewrite count_like_numbers, Hn, filter_all.
  - unfold day_numbers. by rewrite length_map, length_seq.
  - intros n Hin. unfold day_numbers in Hin.
    apply list_elem_of_fmap in Hin as (i & -> & _). unfold number_of.
    rewrite <- !(string_app_assoc "REQ" d). apply like_prefix.
Qed.

Lemma day_numbers_S d k :
  day_numbers d (S k)
  = app (day_numbers d k) [number_of d (Z.of_nat k + 1)].
Proof.
  unfold day_numbers. rewrite seq_S, map_app. simpl. do 3 f_equal. lia.
Qed.

Lemma not_four_digit_form_16 n :
  String.length n = 16%nat -> ~ four_digit_form n.
Proof.
  intros Hlen (d & s & -> & Hd & Hs).
  rewrite !string_length_app, Hd, Hs in Hlen. simpl in Hlen. lia.
Qed.

(** C6, as the code has it.  A generated request number is the prefix REQ,
    the date of the call as [%Y%m%d] and the sequence number, which is one
    more than the count of the numbers matching the pattern of the day, in
    decimal with zeros on the left up to four characters: at least four
    characters, exactly four up to 9999, and the text reads back as the
    number.  Along a run of calls whose creations all fall on one day, the
    numbers generated are those of that day with the sequence numbers
    k+1, k+2, ..., k+m, in this order, where k numbers matched the pattern
    of the day before the run and m requests were created. *)
Theorem request_numbers_consecutive (db : Database) (d : string)
  (cs : list call) :
  Forall (created_on d) cs ->
  (forall now dbx,
     generate_request_number now dbx
     = (dbx, Ok (number_of (strftime_Ymd now)
                   (count_like (day_pattern now) (working dbx) + 1))))
  /\ (forall n, 0 <= n ->
        (4 <= String.length (format_04d n))%nat
        /\ (n <= 9999 -> String.length (format_04d n) = 4%nat)
        /\ int_of_text (format_04d n) = Some n)
  /\ exists m : nat,
      numbers (working (run cs db))
      = app (numbers (working db))
          (map (fun i : nat =>
                  number_of d
                    (count_like ("REQ" +:+ d +:+ "%") (working db)
                     + Z.of_nat i))
               (seq 1 m))
      /\ count_like ("REQ" +:+ d +:+ "%") (working (run cs db))
         = count_like ("REQ" +:+ d +:+ "%") (working db) + Z.of_nat m.
Proof.
  intros Hall. split; [reflexivity|]. split.
  - intros n Hn. split; [apply format_04d_min_length|]. split.
    + intros Hle. apply format_04d_length_4. lia.
    + by apply int_of_text_format_04d.
  - by apply run_numbers.
Qed.

End Properties.


(** ** Further properties of the store *)

Section Operations.
Context `{PyRuntime}.

(** *** What no call undoes *)

(** A relation between tables that every statement respects holds between
    what the connection sees before and after a run of calls. *)
Lemma run_related (R : relation tables) `{!PreOrder R} :
  (forall t t', stmt t t' -> R t t') ->
  forall cs db, R (working db) (working (run cs db)).
Proof.
  intros Hstmt cs. induction cs as [|c cs IH]; intros db; simpl; [done|].
  transitivity (working (step c db)); [|apply IH].
  destruct (step_shape c db) as [Hrtc _].
  induction Hrtc as [|t1 t2 t3 H12 _ IH']; [done|].
  transitivity t2; [by apply Hstmt | exact IH'].
Qed.

#[local] Instance history_grows_preorder : PreOrder history_grows.
Proof.
  split.
  - intros t. unfold history_grows. done.
  - intros t1 t2 t3. unfold history_grows. apply transitivity.
Qed.

#[local] Instance requests_stay_preorder : PreOrder requests_stay.
Proof.
  split.
  - intros t. unfold requests_stay. done.
  - intros t1 t2 t3. unfold requests_stay. apply transitivity.
Qed.

Lemma update_where_id_identity rid f rs :
  (forall r, identity (f r) = identity r) ->
  map identity (update_where_id rid f rs) = map identity rs.
Proof.
  intros Hf. unfold update_where_id. rewrite map_map.
  apply map_ext. intros r. by case_decide.
Qed.

Lemma stmt_history_grows t t' : stmt t t' -> history_grows t t'.
Proof.
  unfold history_grows.
  destruct 1 as [t rid new now|t rid fields|t rid uid|t rid uid
                 |t rid dl reason approval at_ uid
                 |t number e m f d cn cp cost dl ts t' rid Hins
                 |t rid old new by_user ts t' hid Hins
                 |t rid uid msg ts t' hid Hins
                 |t hid uid note ts t' n Hupd]; simpl; try done.
  - apply insert_request_inv in Hins
      as (row & _ & _ & _ & _ & _ & _ & _ & _ & _ & _ & _ & -> & _). done.
  - unfold insert_status_history in Hins. destruct (_ && _); [|done].
    injection Hins as <- <-. simpl. by apply prefix_app_r.
  - unfold insert_help_request in Hins. destruct (_ && _); [|done].
    by injection Hins as <- <-.
  - unfold update_help_resolved in Hupd. destruct (_ && _); [done|].
    by injection Hupd as <- <-.
Qed.

Lemma stmt_requests_stay t t' : stmt t t' -> requests_stay t t'.
Proof.
  unfold requests_stay.
  destruct 1 as [t rid new now|t rid fields|t rid uid|t rid uid
                 |t rid dl reason approval at_ uid
                 |t number e m f d cn cp cost dl ts t' rid Hins
                 |t rid old new by_user ts t' hid Hins
                 |t rid uid msg ts t' hid Hins
                 |t hid uid note ts t' n Hupd]; simpl.
  - by rewrite update_where_id_identity.
  - rewrite update_where_id_identity; [done|]. intros r. unfold identity.
    by destruct (set_columns_frame fields r) as (-> & -> & -> & _).
  - by rewrite update_where_id_identity.
  - by rewrite update_where_id_identity.
  - by rewrite update_where_id_identity.
  - apply insert_request_inv in Hins
      as (row & _ & _ & _ & _ & _ & _ & _ & _ & _ & -> & _).
    rewrite map_app. by apply prefix_app_r.
  - unfold insert_status_history in Hins. destruct (_ && _); [|done].
    by injection Hins as <- <-.
  - unfold insert_help_request in Hins. destruct (_ && _); [|done].
    by injection Hins as <- <-.
  - unfold update_help_resolved in Hupd. destruct (_ && _); [done|].
    by injection Hupd as <- <-.
Qed.

(** X1.  The guarantees of the schema (unique keys and user names, history
    entries and help requests pointing at existing requests and users) hold
    in every database observed along a run of calls that starts with
    them. *)
Theorem schema_guarantees_kept (db : Database) (cs : list call) :
  holds wf db -> Forall (holds wf) (trace cs db).
Proof. apply holds_trace, wf_stmt. Qed.

(** X2.  The status history is an append-only log: whatever calls are made,
    the entries the connection saw before are still there, unchanged and in
    the same order, as the first entries of the history, and one call adds
    at most one entry. *)
Theorem status_history_append_only (db : Database) (cs : list call) :
  status_history (working db) `prefix_of` status_history (working (run cs db))
  /\ forall c,
      (length (status_history (working (step c db)))
       <= S (length (status_history (working db))))%nat.
Proof.
  split; [apply (run_related history_grows), stmt_history_grows|].
  intros c.
  destruct c as [data days n1 n2 ts1 ts2|rid data|rid new who now ts
                 |rid uid|rid uid|rid uid|rid dl reason approval uid ts
                 |rid uid msg ts|hid uid note ts]; simpl.
  - rewrite add_request_unfold. cbv zeta.
    destruct (add_days _ _); [simpl; lia|].
    destruct (float_of _); [simpl; lia|].
    destruct (insert_request _ _ _ _ _ _ _ _ _ _ _) as [e|[tA rid]] eqn:Hins;
      [simpl; lia|].
    apply insert_request_inv in Hins
      as (row & _ & _ & _ & _ & _ & _ & _ & _ & _ & _ & _ & Hh & _).
    simpl. rewrite Hh, length_app. simpl. lia.
  - rewrite update_request_unfold. destruct (collect_fields data); simpl; lia.
  - rewrite update_request_status_unfold.
    destruct (select_status _ _); [|simpl; lia]. cbv zeta.
    destruct (user_ref_ok _ _); simpl; [|lia].
    rewrite length_app. simpl. lia.
  - rewrite assign_request_unfold. destruct (_ && _); simpl; lia.
  - rewrite set_assistant_master_unfold. destruct (_ && _); simpl; lia.
  - unfold reassign_master. rewrite assign_request_unfold.
    destruct (_ && _); simpl; lia.
  - rewrite extend_deadline_unfold. destruct (_ && _); simpl; lia.
  - rewrite create_help_request_unfold.
    destruct (insert_help_request _ _ _ _ _) as [e|[t hid]] eqn:Hins;
      [simpl; lia|].
    unfold insert_help_request in Hins. destruct (_ && _); [|done].
    injection Hins as <- <-. simpl. lia.
  - rewrite resolve_help_request_unfold.
    destruct (update_help_resolved _ _ _ _ _) as [e|[t n]] eqn:Hupd;
      [simpl; lia|].
    unfold update_help_resolved in Hupd. destruct (_ && _); [done|].
    injection Hupd as <- <-. simpl. lia.
Qed.

(** X3.  No call deletes a request or changes its key, its number or its
    creation time: the requests the connection saw before a run are, with
    these three columns unchanged and in the same order, the first requests
    it sees after the run. *)
Theorem request_identity_stable (db : Database) (cs : list call) :
  map identity (requests (working db))
  `prefix_of` map identity (requests (working (run cs db))).
Proof. apply (run_related requests_stay), stmt_requests_stay. Qed.


(** *** Outcomes of the single operations *)

(** X4.  [add_request] is all or nothing.  For a dictionary whose six
    text values sqlite3 binds (an int among them fits in 64 bits), it
    returns a key exactly when the deadline can be computed, [float]
    accepts the estimated cost (0 for an absent or false one) and the
    generated number is not yet in use; the key is new and request and
    first history entry are committed.  When it returns [None] the
    database is left exactly as it was. *)
Theorem add_request_all_or_nothing (db : Database) (data : gmap string value)
  (days : Z) (t1 t2 t3 t4 : datetime) :
  forallb binds (request_texts data) = true ->
  let res := add_request data days t1 t2 t3 t4 db in
  let number := number_of (strftime_Ymd t1)
                  (count_like (day_pattern t1) (working db) + 1) in
  ((exists rid, res.2 = Ok (Some rid)) <->
     (exists dl, add_days t2 days = inr dl)
     /\ (exists cost,
          float_of (py_or (dict_get data "estimated_cost") (VInt 0))
          = inr cost)
     /\ (number ∉ numbers (working db)))
  /\ (res.2 = Ok None -> res.1 = db)
  /\ (forall rid, res.2 = Ok (Some rid) ->
        (rid ∉ map r_id (requests (working db)))
        /\ committed res.1 = working res.1
        /\ numbers (working res.1) = app (numbers (working db)) [number])
  /\ (res.2 = Ok None \/ exists rid, res.2 = Ok (Some rid)).
Proof.
  intros _. cbv zeta. rewrite add_request_unfold. cbv zeta.
  destruct (add_days t2 days) as [e1|dl] eqn:Hdl.
  { simpl. split; [|split; [done|split; [done|by left]]].
    split; [by intros [rid ?]|]. by intros [[dl' ?] _]. }
  destruct (float_of _) as [e2|cost] eqn:Hcost.
  { simpl. split; [|split; [done|split; [done|by left]]].
    split; [by intros [rid ?]|]. by intros (_ & [c ?] & _). }
  destruct (insert_request _ _ _ _ _ _ _ _ _ _ _) as [e3|[tA rid]] eqn:Hins.
  - simpl. unfold insert_request in Hins.
    case_bool_decide as Hin; [|done].
    split; [|split; [done|split; [done|by left]]].
    split; [by intros [r ?]|]. intros (_ & _ & Hn). exfalso. by apply Hn.
  - apply insert_request_inv in Hins
      as (row & Hfresh & Hrid & Hid & Hnum & _ & _ & _ & _ & _ & Hreq & _).
    simpl. split; [|split; [done|split; [|right; eauto]]].
    + split; [|by eauto]. intros _. split; [eauto|]. split; [eauto|].
      exact Hfresh.
    + intros r [= <-]. split; [rewrite Hrid; apply next_rowid_fresh|].
      split; [done|]. unfold numbers. simpl. rewrite Hreq, map_app. simpl.
      by rewrite Hnum.
Qed.

Lemma collect_fields_nil_iff data :
  collect_fields data = [] <-> forall k, k ∈ allowed -> data !! k = None.
Proof.
  unfold collect_fields. split.
  - intros Hnil k Hk. destruct (data !! k) as [v|] eqn:Hv; [|done].
    exfalso.
    assert ((k, v) ∈ omap (fun k => match data !! k with
                                    | Some v => Some (k, v)
                                    | None => None
                                    end) allowed) as Hin.
    { apply list_elem_of_omap. exists k. split; [done|]. by rewrite Hv. }
    rewrite Hnil in Hin. by apply elem_of_nil in Hin.
  - intros Hnone.
    destruct (omap _ allowed) as [|[k v] l] eqn:Hl; [done|]. exfalso.
    assert ((k, v) ∈ omap (fun k => match data !! k with
                                    | Some v => Some (k, v)
                                    | None => None
                                    end) allowed) as Hin
      by (rewrite Hl; left).
    apply list_elem_of_omap in Hin as (k' & Hk' & Hv).
    by rewrite (Hnone k' Hk') in Hv.
Qed.

(** X5.  The return value of [update_request], for a key and whitelisted
    values that sqlite3 binds (ints that fit in 64 bits).  When the input
    has none of the whitelisted names, it returns true without touching
    the database and without committing, for any key, also one no request
    has.  When the input has one of them, the call commits and returns
    true exactly when a request has the key. *)
Theorem update_request_result (db : Database) (rid : Z)
  (data : gmap string value) :
  binds (VInt rid) = true ->
  (forall k v, k ∈ allowed -> data !! k = Some v -> binds v = true) ->
  ((forall k, k ∈ allowed -> data !! k = None) ->
     update_request rid data db = (db, Ok true))
  /\ ((exists k, k ∈ allowed /\ is_Some (data !! k)) ->
       committed (update_request rid data db).1
       = working (update_request rid data db).1
       /\ (update_request rid data db).2
          = Ok (bool_decide (rid ∈ map r_id (requests (working db))))).
Proof.
  intros _ _. rewrite update_request_unfold. split.
  - intros Hnone. apply collect_fields_nil_iff in Hnone. by rewrite Hnone.
  - intros (k & Hk & [v Hv]).
    destruct (collect_fields data) as [|kv l] eqn:Hf.
    + exfalso. rewrite (proj1 (collect_fields_nil_iff data) Hf k Hk) in Hv.
      done.
    + simpl. split; [done|]. f_equal.
      destruct (decide (rid ∈ map r_id (requests (working db)))) as [Hin|Hn].
      * rewrite bool_decide_eq_true_2 by done.
        apply Z.ltb_lt. by apply matched_pos.
      * rewrite bool_decide_eq_false_2 by done.
        apply Z.ltb_ge. rewrite <- matched_pos in Hn. lia.
Qed.

Lemma update_where_id_none rid f rs :
  rid ∉ map r_id rs -> update_where_id rid f rs = rs.
Proof.
  intros Hn. unfold update_where_id. rewrite <- (map_id rs) at 2.
  apply map_ext_in. intros r Hr. case_decide as Hid; [|done].
  exfalso. apply Hn. apply list_elem_of_fmap. exists r.
  split; [done | by apply list_elem_of_In].
Qed.

Lemma matched_ltb rid rs :
  (0 <? matched rid rs) = bool_decide (rid ∈ map r_id rs).
Proof.
  destruct (decide (rid ∈ map r_id rs)) as [Hin|Hn].
  - rewrite bool_decide_eq_true_2 by done.
    apply Z.ltb_lt. by apply matched_pos.
  - rewrite bool_decide_eq_false_2 by done.
    apply Z.ltb_ge. rewrite <- matched_pos in Hn. lia.
Qed.

(** X6.  [assign_request] (and [reassign_master], which only calls it)
    returns true exactly when the request exists and the specialist is a
    user.  Then the rows with the key get the specialist as [assigned_to],
    whoever was assigned before, no other column or table changes, and the
    change is committed.  When the request exists and the specialist is no
    user, the database is left as it was.  When no request has the key, the
    requests stay as they are and the call still commits. *)
Theorem assign_request_outcome (db : Database) (rid uid : Z) :
  let res := assign_request rid uid db in
  reassign_master rid uid db = res
  /\ res.2 = Ok (bool_decide (rid ∈ map r_id (requests (working db)))
                && user_exists (working db) uid)
  /\ (res.2 = Ok true ->
        requests (working res.1)
        = update_where_id rid (set_assigned_to uid) (requests (working db))
        /\ status_history (working res.1) = status_history (working db)
        /\ help_requests (working res.1) = help_requests (working db)
        /\ users (working res.1) = users (working db)
        /\ committed res.1 = working res.1)
  /\ (rid ∈ map r_id (requests (working db)) ->
        user_exists (working db) uid = false -> res.1 = db)
  /\ (rid ∉ map r_id (requests (working db)) ->
        requests (working res.1) = requests (working db)
        /\ committed res.1 = working res.1).
Proof.
  cbv zeta. split; [reflexivity|]. rewrite assign_request_unfold, matched_ltb.
  destruct (decide (rid ∈ map r_id (requests (working db)))) as [Hin|Hn].
  - rewrite bool_decide_eq_true_2 by done.
    destruct (user_exists (working db) uid) eqn:Hu; simpl.
    + split; [done|]. split; [done|]. split; [done|]. by intros ?.
    + split; [done|]. split; [done|]. split; [done|]. by intros ?.
  - rewrite bool_decide_eq_false_2 by done. simpl.
    split; [done|]. split; [done|]. split; [by intros ?|].
    intros _. split; [|done]. by apply update_where_id_none.
Qed.


(** X7.  After a successful [extend_deadline] with a new deadline that the
    column keeps as text (a text that is no number, like a formatted time,
    or the empty text), the effective deadline of the request is the new
    deadline text, whatever the planned deadline is (nothing compares the
    two, so an extension may also shorten), and the planned deadline itself
    is kept.  With an empty new deadline the five fields are written all
    the same, and the effective deadline remains the planned one. *)
Theorem extension_sets_effective_deadline (db : Database) (rid : Z)
  (dl reason approval : string) (uid : Z) (ts : datetime) :
  kept_as_timestamp dl = true ->
  rid ∈ map r_id (requests (working db)) ->
  user_exists (working db) uid = true ->
  let res := extend_deadline rid dl reason approval uid ts db in
  res.2 = Ok true
  /\ map deadline (requests (working res.1))
     = map deadline (requests (working db))
  /\ forall r, r ∈ requests (working res.1) -> r_id r = rid ->
       deadline_extended_to r = Some dl
       /\ effective_deadline r
          = (if String.eqb dl "" then py_or (deadline r) (VStr "")
             else VStr dl).
Proof.
  intros _ Hin Hu. cbv zeta.
  rewrite extend_deadline_unfold, Hu, andb_false_r.
  cbv zeta. simpl. rewrite matched_ltb, bool_decide_eq_true_2 by done.
  split; [done|]. split.
  - unfold update_where_id. rewrite map_map. apply map_ext.
    intros r. by case_decide.
  - intros r Hr Hid. apply update_where_id_elem in Hr as (r0 & Hr0 & ->).
    destruct (decide (r_id r0 = rid)) as [_|Hne]; [|congruence].
    simpl. split; [done|].
    unfold effective_deadline, py_or. simpl.
    destruct (String.eqb dl "") eqn:E; simpl; rewrite ?E; simpl; [|done].
    by destruct (truthy (deadline r0)).
Qed.

(** X8.  [resolve_help_request] does not look at the status of the help
    request: for an existing help request and resolvers who are users, a
    second call on the already resolved help request succeeds like the
    first and overwrites the resolver, the time and the note of the first;
    no help request is added or removed. *)
Theorem resolve_help_request_overwrites (db : Database) (hid u1 u2 : Z)
  (note1 note2 : string) (ts1 ts2 : datetime) :
  hid ∈ map h_id (help_requests (working db)) ->
  u1 ∈ map u_id (users (working db)) ->
  u2 ∈ map u_id (users (working db)) ->
  let first := resolve_help_request hid u1 note1 ts1 db in
  let second := resolve_help_request hid u2 note2 ts2 first.1 in
  first.2 = Ok true /\ second.2 = Ok true
  /\ (forall h, h ∈ help_requests (working first.1) -> h_id h = hid ->
        h_status h = "resolved" /\ resolved_by h = Some u1
        /\ resolved_at h = Some (strftime_iso ts1)
        /\ resolution_note h = Some note1)
  /\ (forall h, h ∈ help_requests (working second.1) -> h_id h = hid ->
        h_status h = "resolved" /\ resolved_by h = Some u2
        /\ resolved_at h = Some (strftime_iso ts2)
        /\ resolution_note h = Some note2)
  /\ map h_id (help_requests (working second.1))
     = map h_id (help_requests (working db)).
Proof.
  intros Hh Hu1 Hu2. cbv zeta.
  destruct (resolve_help_request_ok hid u1 note1 ts1 db Hh Hu1)
    as (t1 & -> & Hh1 & _ & Hus1 & _ & _).
  cbn [fst snd].
  assert (forall (u : Z) (at_ note : string) (l : list help_requests_row),
            map h_id (map (fun h => if decide (h_id h = hid)
                                    then set_resolved u at_ note h else h) l)
            = map h_id l) as Hids.
  { intros u at_ note l. rewrite map_map. apply map_ext.
    intros h. by case_decide. }
  assert (hid ∈ map h_id (help_requests
                            (working {| committed := t1; working := t1 |})))
    as Hh'.
  { simpl. by rewrite Hh1, Hids. }
  assert (u2 ∈ map u_id (users (working {| committed := t1;
                                            working := t1 |}))) as Hu2'.
  { simpl. by rewrite Hus1. }
  destruct (resolve_help_request_ok hid u2 note2 ts2 _ Hh' Hu2')
    as (t2 & -> & Hh2 & _ & _ & _ & _).
  cbn [fst snd working committed] in *. split; [done|]. split; [done|]. split; [|split].
  - intros h Hin Hid. rewrite Hh1 in Hin.
    apply list_elem_of_fmap in Hin as (h0 & -> & _).
    destruct (decide (h_id h0 = hid)); [done|congruence].
  - intros h Hin Hid. rewrite Hh2 in Hin.
    apply list_elem_of_fmap in Hin as (h0 & -> & _).
    destruct (decide (h_id h0 = hid)); [done|congruence].
  - by rewrite Hh2, Hids, Hh1, Hids.
Qed.

(** X9.  [create_help_request] returns a key exactly when the request
    exists and the requester is a user; it looks neither at the status of
    the request, nor at who is assigned, nor at the message.  The key is
    new, the help request is appended as open and committed; when it
    returns [None] the database is left as it was. *)
Theorem create_help_request_outcome (db : Database) (rid uid : Z)
  (msg : string) (ts : datetime) :
  let res := create_help_request rid uid msg ts db in
  ((exists hid, res.2 = Ok (Some hid)) <->
     rid ∈ map r_id (requests (working db))
     /\ uid ∈ map u_id (users (working db)))
  /\ (res.2 = Ok None -> res.1 = db)
  /\ (res.2 = Ok None \/ exists hid, res.2 = Ok (Some hid))
  /\ (forall hid, res.2 = Ok (Some hid) ->
        (hid ∉ map h_id (help_requests (working db)))
        /\ help_requests (working res.1)
           = app (help_requests (working db))
               [ {| h_id := hid; h_request_id := rid; requested_by := uid;
                    message := msg; h_status := "open";
                    h_created_at := strftime_iso ts;
                    resolved_by := None; resolved_at := None;
                    resolution_note := None |} ]
        /\ requests (working res.1) = requests (working db)
        /\ committed res.1 = working res.1).
Proof.
  cbv zeta. rewrite create_help_request_unfold.
  unfold insert_help_request, request_exists, user_exists.
  destruct (decide (rid ∈ map r_id (requests (working db)))) as [Hr|Hr];
    destruct (decide (uid ∈ map u_id (users (working db)))) as [Hu|Hu].
  - rewrite !bool_decide_eq_true_2 by done. simpl.
    split; [split; [done|by eauto]|]. split; [done|]. split; [eauto|].
    intros hid [= <-]. split; [apply next_rowid_fresh|done].
  - rewrite (bool_decide_eq_false_2 (uid ∈ _)), andb_false_r by done. simpl.
    split; [split; [by intros [? ?]|by intros [_ ?]]|].
    split; [done|]. split; [by left|done].
  - rewrite (bool_decide_eq_false_2 (rid ∈ _)) by done. simpl.
    split; [split; [by intros [? ?]|by intros [? _]]|].
    split; [done|]. split; [by left|done].
  - rewrite (bool_decide_eq_false_2 (rid ∈ _)) by done. simpl.
    split; [split; [by intros [? ?]|by intros [? _]]|].
    split; [done|]. split; [by left|done].
Qed.


(** *** The indicator over time *)

(** X10.  As time passes the indicator of a request only moves from on
    track to at risk to overdue: if it is overdue now it is overdue at any
    later time, if it is on track at a later time it is on track now, and
    whether it is empty does not depend on the time. *)
Theorem deadline_state_progress (r : requests_row) (now later : datetime) :
  micros now <= micros later ->
  (deadline_state r now = "Просрочено" ->
   deadline_state r later = "Просрочено")
  /\ (deadline_state r later = "В сроке" -> deadline_state r now = "В сроке")
  /\ (deadline_state r now = "" <-> deadline_state r later = "").
Proof.
  intros Hle. unfold deadline_state.
  destruct (String.eqb (status r) "завершена"); [done|].
  destruct (negb (truthy (effective_deadline r))); [done|].
  destruct (fromisoformat _) as [[dt|dt off]|]; [|done|done].
  destruct (Z.ltb_spec (micros dt - micros now) 0);
    destruct (Z.ltb_spec (micros dt - micros later) 0);
    destruct (Z.leb_spec (micros dt - micros now) DAY_US);
    destruct (Z.leb_spec (micros dt - micros later) DAY_US);
    try lia; repeat split; intros; try done.
Qed.

(** *** Pending statements *)

(** X11.  Only a status change whose history entry is rejected leaves
    statements uncommitted: after any other call on a connection without
    pending statements, what the connection sees is what is committed. *)
Theorem only_rejected_status_change_leaves_pending (db : Database)
  (c : call) :
  working db = committed db ->
  working (step c db) = committed (step c db)
  \/ exists rid new who now ts,
      c = UpdateRequestStatus rid new who now ts
      /\ rid ∈ map r_id (requests (working db))
      /\ user_ref_ok (working db) (actor_of who) = false
      /\ committed (step c db) = committed db
      /\ working (step c db)
         = with_status (working db) rid new (completion_stamp new now).
Proof.
  intros Hclean.
  destruct c as [data days n1 n2 ts1 ts2|rid data|rid new who now ts
                 |rid uid|rid uid|rid uid|rid dl reason approval uid ts
                 |rid uid msg ts|hid uid note ts]; simpl.
  - left. rewrite add_request_unfold. cbv zeta.
    destruct (add_days _ _); [done|]. destruct (float_of _); [done|].
    by destruct (insert_request _ _ _ _ _ _ _ _ _ _ _) as [e|[tA rid]].
  - left. rewrite update_request_unfold. by destruct (collect_fields data).
  - rewrite update_request_status_unfold.
    destruct (select_status _ _) as [old|] eqn:Hsel; [|by left]. cbv zeta.
    destruct (user_ref_ok _ _) eqn:Hu; [by left|]. right.
    exists rid, new, who, now, ts. split; [done|]. split; [|done].
    apply select_status_elem in Hsel as (r & Hr & <- & _).
    apply list_elem_of_fmap. eauto.
  - left. rewrite assign_request_unfold. by destruct (_ && _).
  - left. rewrite set_assistant_master_unfold. by destruct (_ && _).
  - left. unfold reassign_master. rewrite assign_request_unfold.
    by destruct (_ && _).
  - left. rewrite extend_deadline_unfold. by destruct (_ && _).
  - left. rewrite create_help_request_unfold.
    by destruct (insert_help_request _ _ _ _ _) as [e|[t hid]].
  - left. rewrite resolve_help_request_unfold.
    by destruct (update_help_resolved _ _ _ _ _) as [e|[t n]].
Qed.

(** *** Reading back what was created *)

(** X12.  A request that [add_request] created from a dictionary whose
    six text values are texts or absent, and whose cost [float] does not
    turn into a NaN, is returned by [get_request] under the returned key,
    with the six text fields taken from the input (NULL for an absent
    one), the estimated cost converted by [float], no actual cost, nobody
    assigned and no names joined. *)
Theorem created_request_is_read_back (db : Database)
  (data : gmap string value) (days : Z) (t1 t2 t3 t4 : datetime) (rid : Z) :
  forallb kept_as_text (request_texts data) = true ->
  (forall c,
     float_of (py_or (dict_get data "estimated_cost") (VInt 0)) = inr c ->
     nan c = false) ->
  (add_request data days t1 t2 t3 t4 db).2 = Ok (Some rid) ->
  let db' := (add_request data days t1 t2 t3 t4 db).1 in
  exists rv cost,
    get_request rid db' = (db', Ok (Some rv))
    /\ float_of (py_or (dict_get data "estimated_cost") (VInt 0)) = inr cost
    /\ r_id (rv_row rv) = rid
    /\ equipment_type (rv_row rv) = dict_get data "equipment_type"
    /\ device_model (rv_row rv) = dict_get data "device_model"
    /\ fault_type (rv_row rv) = dict_get data "fault_type"
    /\ problem_description (rv_row rv) = dict_get data "problem_description"
    /\ customer_name (rv_row rv) = dict_get data "customer_name"
    /\ customer_phone (rv_row rv) = dict_get data "customer_phone"
    /\ estimated_cost (rv_row rv) = VFloat cost
    /\ actual_cost (rv_row rv) = VNone
    /\ created_date (rv_row rv) = strftime_iso t3
    /\ assigned_to (rv_row rv) = None /\ assist_to (rv_row rv) = None
    /\ assigned_name rv = VNone /\ assist_name rv = VNone
    /\ extended_by_name rv = VNone.
Proof.
  intros _ _. cbv zeta. rewrite add_request_unfold. cbv zeta.
  destruct (add_days t2 days) as [e1|dl]; [done|].
  destruct (float_of _) as [e2|cost]; [done|].
  destruct (insert_request _ _ _ _ _ _ _ _ _ _ _) as [e3|[tA rid']] eqn:Hins;
    [done|].
  simpl. intros [= ->].
  unfold insert_request in Hins. case_bool_decide; [done|].
  injection Hins as <- Hrid.
  pose proof (next_rowid_fresh (map r_id (requests (working db)))
                (seq_requests (working db))) as Hfresh.
  rewrite Hrid in Hfresh.
  unfold get_request, query, select_request. simpl.
  rewrite filter_app, filter_none.
  2: { intros r Hr Heq. apply Hfresh. rewrite <- Heq.
       apply list_elem_of_fmap. eauto. }
  rewrite filter_cons, decide_True by (simpl; congruence).
  simpl. unfold joined_names. simpl.
  rewrite filter_none by (intros u _; discriminate).
  simpl. eexists _, cost. split; [reflexivity|]. by repeat split.
Qed.

(** *** Collisions of request numbers *)

(** X13.  When the number that would be generated for a day is already in
    use, every creation on that day fails and leaves the database as it
    was, so that a retry generates the same number and fails again. *)
Theorem number_collision_blocks_creation (db : Database) (d : string) :
  number_of d (count_like ("REQ" +:+ d +:+ "%") (working db) + 1)
    ∈ numbers (working db) ->
  forall data days t1 t2 t3 t4,
    strftime_Ymd t1 = d ->
    add_request data days t1 t2 t3 t4 db = (db, Ok None).
Proof.
  intros Hin data days t1 t2 t3 t4 Hd.
  rewrite add_request_unfold. cbv zeta.
  destruct (add_days _ _); [done|]. destruct (float_of _); [done|].
  unfold insert_request, day_pattern. rewrite Hd.
  by rewrite bool_decide_eq_true_2.
Qed.

(** X14.  When the numbers matching the pattern of a day are exactly those
    with the sequence numbers 1 to k, in this order, a creation on that day
    does not collide: it succeeds as soon as the deadline can be computed,
    [float] accepts the cost and sqlite3 binds the six text values (an int
    among them fits in 64 bits), and afterwards the numbers matching the
    pattern are those with the sequence numbers 1 to k+1. *)
Theorem serialized_creation_never_collides (db : Database) (d : string)
  (k : nat) (data : gmap string value) (days : Z) (t1 t2 t3 t4 : datetime) :
  filter (fun n => like n ("REQ" +:+ d +:+ "%") = true) (numbers (working db))
  = day_numbers d k ->
  strftime_Ymd t1 = d ->
  is_Some (match add_days t2 days with inr dl => Some dl | inl _ => None end)
  ->
  is_Some (match float_of (py_or (dict_get data "estimated_cost") (VInt 0))
           with inr c => Some c | inl _ => None end) ->
  forallb binds (request_texts data) = true ->
  let res := add_request data days t1 t2 t3 t4 db in
  (exists rid, res.2 = Ok (Some rid))
  /\ filter (fun n => like n ("REQ" +:+ d +:+ "%") = true)
       (numbers (working res.1))
     = day_numbers d (S k).
Proof.
  intros Hday Hd [dl Hdl] [cost Hcost] _. cbv zeta.
  assert (count_like ("REQ" +:+ d +:+ "%") (working db) = Z.of_nat k) as Hcnt.
  { rewrite count_like_numbers, Hday. unfold day_numbers.
    by rewrite length_map, length_seq. }
  assert (like (number_of d (Z.of_nat k + 1)) ("REQ" +:+ d +:+ "%") = true)
    as Hlike.
  { unfold number_of. rewrite <- !(string_app_assoc "REQ" d).
    apply like_prefix. }
  rewrite add_request_unfold. cbv zeta.
  destruct (add_days t2 days) as [e1|dl']; [done|].
  destruct (float_of _) as [e2|cost']; [done|].
  unfold day_pattern. rewrite Hd, Hcnt.
  destruct (insert_request _ _ _ _ _ _ _ _ _ _ _) as [e3|[tA rid]] eqn:Hins.
  - exfalso. unfold insert_request in Hins.
    case_bool_decide as Hin; [|done].
    assert (number_of d (Z.of_nat k + 1) ∈ day_numbers d k) as Hin'.
    { rewrite <- Hday. apply list_elem_of_filter. split; [done|].
      exact Hin. }
    unfold day_numbers in Hin'.
    apply list_elem_of_fmap in Hin' as (i & Heq & Hi).
    apply list_elem_of_In, in_seq in Hi.
    apply number_of_inj in Heq; lia.
  - apply insert_request_inv in Hins
      as (row & _ & _ & _ & Hnum & _ & _ & _ & _ & _ & Hreq & _).
    simpl. split; [eauto|]. unfold numbers in *. simpl.
    rewrite Hreq, map_app, filter_app, Hday. simpl.
    rewrite Hnum, filter_cons, decide_True by exact Hlike.
    by rewrite day_numbers_S.
Qed.

(** *** Reading the history *)

#[local] Instance latest_first_total : Total latest_first.
Proof.
  intros a b. unfold latest_first.
  destruct (String.leb_total (changed_at (hv_row b)) (changed_at (hv_row a)));
    auto.
Qed.

#[local] Instance latest_first_trans : Transitive latest_first.
Proof.
  intros a b c. unfold latest_first, String.leb. intros Hab Hbc.
  pose proof (string_compare_trans_le (changed_at (hv_row c))
                (changed_at (hv_row b)) (changed_at (hv_row a))) as Ht.
  destruct (String.compare (changed_at (hv_row c)) (changed_at (hv_row b)));
    try done;
    destruct (String.compare (changed_at (hv_row b)) (changed_at (hv_row a)));
    try done;
    destruct (String.compare (changed_at (hv_row c)) (changed_at (hv_row a)));
    try done; exfalso; by apply Ht.
Qed.

Lemma history_join_rows t rid :
  NoDup (map u_id (users t)) ->
  map hv_row (history_join rid t) = history_of rid t.
Proof.
  intros Hnd. unfold history_join.
  induction (history_of rid t) as [|h l IH]; [done|].
  rewrite bind_cons, map_app, IH.
  destruct (joined_names_single t (changed_by h) Hnd) as [n ->].
  by rewrite bind_singleton.
Qed.

Lemma history_join_name t rid v :
  v ∈ history_join rid t ->
  match changed_by (hv_row v) with
  | None => changed_by_name v = VNone
  | Some uid =>
      (exists u, u ∈ users t /\ u_id u = uid
                 /\ changed_by_name v = full_name u)
      \/ ((uid ∉ map u_id (users t)) /\ changed_by_name v = VNone)
  end.
Proof.
  unfold history_join. intros Hv.
  apply list_elem_of_bind in Hv as (h & Hv & _).
  apply list_elem_of_bind in Hv as (n & Hv & Hn).
  apply list_elem_of_singleton in Hv as ->. simpl.
  unfold joined_names in Hn.
  destruct (filter _ (users t)) as [|u us] eqn:Hf.
  - apply list_elem_of_singleton in Hn as ->.
    destruct (changed_by h) as [uid|]; [|done]. right. split; [|done].
    intros Hin. apply list_elem_of_fmap in Hin as (u & -> & Hu).
    assert (u ∈ filter (fun u0 => Some (u_id u0) = Some (u_id u)) (users t))
      as Hin by (by apply list_elem_of_filter).
    rewrite Hf in Hin. by apply elem_of_nil in Hin.
  - apply list_elem_of_fmap in Hn as (u' & -> & Hu').
    rewrite <- Hf in Hu'. apply list_elem_of_filter in Hu' as [Heq Hu'].
    rewrite <- Heq. left. eauto.
Qed.

(** X15.  [get_status_history] changes nothing and, when the keys of the
    accounts are unique, returns every history entry of the request exactly
    once, the latest change first, each with the full name of the account
    that made the change, or with no name for an entry without actor. *)
Theorem status_history_lists_each_entry (db : Database) (rid : Z) :
  NoDup (map u_id (users (working db))) ->
  exists l,
    get_status_history rid db = (db, Ok l)
    /\ map hv_row l ≡ₚ history_of rid (working db)
    /\ StronglySorted latest_first l
    /\ forall v, v ∈ l ->
         match changed_by (hv_row v) with
         | None => changed_by_name v = VNone
         | Some uid =>
             (exists u, u ∈ users (working db) /\ u_id u = uid
                        /\ changed_by_name v = full_name u)
             \/ ((uid ∉ map u_id (users (working db)))
                 /\ changed_by_name v = VNone)
         end.
Proof.
  intros Hnd. exists (select_status_history rid (working db)).
  split; [done|]. split; [|split].
  - rewrite <- (history_join_rows _ rid Hnd). unfold select_status_history.
    apply fmap_Permutation, merge_sort_Permutation.
  - apply StronglySorted_merge_sort; apply _.
  - intros v Hv. apply history_join_name with rid.
    unfold select_status_history in Hv.
    by rewrite merge_sort_Permutation in Hv.
Qed.

(** X16.  After a status change that returned true, the history read back
    for the request has one entry more than before, and among its entries
    is the one of this change: from the status before the call to the new
    one, stamped with the time of the insertion, by the given account and
    under its full name (by nobody for an absent actor or the key 0). *)
Theorem status_change_is_read_back (db : Database) (rid : Z) (new : string)
  (who : option Z) (now ts : datetime) :
  NoDup (map u_id (users (working db))) ->
  (update_request_status rid new who now ts db).2 = Ok true ->
  let db' := (update_request_status rid new who now ts db).1 in
  exists l old v,
    get_status_history rid db' = (db', Ok l)
    /\ length l = S (length (history_of rid (working db)))
    /\ select_status rid (working db) = Some old
    /\ v ∈ l
    /\ old_status (hv_row v) = Some old
    /\ new_status (hv_row v) = new
    /\ changed_at (hv_row v) = strftime_iso ts
    /\ changed_by (hv_row v) = actor_of who
    /\ match actor_of who with
       | None => changed_by_name v = VNone
       | Some uid => exists u, u ∈ users (working db) /\ u_id u = uid
                               /\ changed_by_name v = full_name u
       end.
Proof.
  intros Hnd. cbv zeta. rewrite update_request_status_unfold.
  destruct (select_status rid (working db)) as [old|] eqn:Hsel; [|done].
  cbv zeta. destruct (user_ref_ok (working db) (actor_of who)) eqn:Hu;
    [|done].
  intros _. cbn [fst snd].
  set (t1 := with_status (working db) rid new (completion_stamp new now)).
  set (e := history_entry t1 rid (Some old) new (actor_of who) ts).
  set (t2 := with_history t1 e).
  assert (history_of rid t2 = app (history_of rid (working db)) [e]) as Hh.
  { unfold history_of, t2. simpl. rewrite filter_app, filter_cons.
    simpl. by rewrite decide_True. }
  assert (users t2 = users (working db)) as Hus by done.
  assert (NoDup (map u_id (users t2))) as Hnd2 by (by rewrite Hus).
  pose proof (history_join_rows t2 rid Hnd2) as Hrows.
  assert (map hv_row (select_status_history rid t2) ≡ₚ history_of rid t2)
    as Hperm.
  { rewrite <- Hrows. unfold select_status_history.
    apply fmap_Permutation, merge_sort_Permutation. }
  assert (e ∈ map hv_row (select_status_history rid t2)) as Hin.
  { rewrite Hperm, Hh. apply elem_of_app. right. by left. }
  apply list_elem_of_fmap in Hin as (v & Hv & Hvin).
  exists (select_status_history rid t2), old, v.
  split; [done|]. split.
  { rewrite <- (length_map hv_row), Hperm, Hh, length_app. simpl. lia. }
  split; [done|]. split; [done|].
  rewrite <- Hv. repeat split; try done.
  assert (v ∈ history_join rid t2) as Hj.
  { unfold select_status_history in Hvin.
    by rewrite merge_sort_Permutation in Hvin. }
  apply history_join_name in Hj. rewrite <- Hv in Hj.
  change (changed_by e) with (actor_of who) in Hj.
  destruct (actor_of who) as [uid|]; [|done].
  destruct Hj as [Hj|[Hno _]]; [by rewrite Hus in Hj|].
  exfalso. apply Hno. rewrite Hus. unfold user_ref_ok, user_exists in Hu.
  by apply bool_decide_eq_true in Hu.
Qed.

(** *** The buttons of the pages *)

Lemma view_request_open_unfold vid db :
  view_request_open vid db =
  (db, Ok match selected vid with
          | None => inl (shown (st_error "Заявка не выбрана."))
          | Some rid =>
              match select_request rid (working db) with
              | None => inl (shown (st_error "Заявка не найдена."))
              | Some rv =>
                  match cost_line (estimated_cost (rv_row rv)) with
                  | Some e => inl (raised e)
                  | None =>
                      match cost_line (actual_cost (rv_row rv)) with
                      | Some e => inl (raised e)
                      | None => inr (rv_row rv)
                      end
                  end
              end
          end).
Proof. unfold view_request_open. by destruct (selected vid). Qed.

Lemma select_request_head rid t :
  rv_row <$> select_request rid t
  = head (filter (fun r => r_id r = rid) (requests t)).
Proof.
  unfold select_request.
  destruct (filter (fun r => r_id r = rid) (requests t)) as [|r l]; [done|].
  pose proof (joined_names_nonempty t (assigned_to r)) as E1.
  pose proof (joined_names_nonempty t (assist_to r)) as E2.
  pose proof (joined_names_nonempty t (extended_by r)) as E3.
  rewrite bind_cons.
  destruct (joined_names t (assigned_to r)) as [|n1 l1]; [done|].
  rewrite bind_cons.
  destruct (joined_names t (assist_to r)) as [|n2 l2]; [done|].
  rewrite bind_cons.
  destruct (joined_names t (extended_by r)) as [|n3 l3]; [done|].
  by rewrite bind_cons.
Qed.

Lemma filter_update_where_id rid f rs :
  (forall r, r_id (f r) = r_id r) ->
  filter (fun r => r_id r = rid) (update_where_id rid f rs)
  = map f (filter (fun r => r_id r = rid) rs).
Proof.
  intros Hf. unfold update_where_id.
  induction rs as [|r rs IH]; [done|].
  cbn [map]. rewrite !filter_cons.
  destruct (decide (r_id r = rid)) as [Hr|Hr].
  - rewrite decide_True by (by rewrite Hf). cbn [map]. by rewrite IH.
  - by rewrite decide_False.
Qed.

Lemma select_request_updated rid f t rv :
  (forall r, r_id (f r) = r_id r) ->
  select_request rid t = Some rv ->
  exists rv',
    select_request rid
      (with_requests t (update_where_id rid f (requests t))) = Some rv'
    /\ rv_row rv' = f (rv_row rv).
Proof.
  intros Hf Hrv.
  pose proof (select_request_head rid t) as Hh. rewrite Hrv in Hh.
  pose proof (select_request_head rid
                (with_requests t (update_where_id rid f (requests t))))
    as Hh'.
  assert (requests (with_requests t (update_where_id rid f (requests t)))
          = update_where_id rid f (requests t)) as Hreq by done.
  rewrite Hreq, filter_update_where_id in Hh' by done.
  revert Hh Hh'.
  destruct (filter (fun r => r_id r = rid) (requests t)) as [|r l];
    [done|].
  simpl. intros [= Hr].
  destruct (select_request rid (with_requests t _)) as [rv'|]; [|done].
  simpl. intros [= Hr']. exists rv'. split; [done|]. congruence.
Qed.

Lemma status_now_completed r :
  String.eqb (status_now r) "завершена" = String.eqb (status r) "завершена".
Proof.
  unfold status_now. destruct (String.eqb_spec (status r) "") as [->|]; done.
Qed.

(** X17.  The button with which a specialist takes a request assigns the
    request to them exactly when the page gets as far as its controls (the
    request exists and [float] accepts the costs it shows), it is shown to
    a specialist, the request has no master and is not completed, and the
    account of the specialist exists.  The request then carries the
    specialist as master, which is what the status control of the page
    asks of a specialist, and the change is committed; in every other case
    the database is left as it was. *)
Theorem taking_a_request_gives_its_controls (db : Database) (user : session)
  (view_request_id : option Z) :
  let res := view_request_take user view_request_id db in
  let taken := Ok (shown (st_success "Заявка назначена на вас.")) in
  (res.2 = taken <->
     exists rid rv,
       selected view_request_id = Some rid
       /\ select_request rid (working db) = Some rv
       /\ cost_line (estimated_cost (rv_row rv)) = None
       /\ cost_line (actual_cost (rv_row rv)) = None
       /\ is_specialist user = true
       /\ unassigned (rv_row rv) = true
       /\ status (rv_row rv) <> "завершена"
       /\ user_exists (working db) (user_id user) = true)
  /\ (res.2 = taken ->
        exists rid rv',
          selected view_request_id = Some rid
          /\ get_request rid res.1 = (res.1, Ok (Some rv'))
          /\ assigned_to (rv_row rv') = Some (user_id user)
          /\ (user_id user <> 0 -> can_manage user (rv_row rv') = true)
          /\ committed res.1 = working res.1)
  /\ (res.2 <> taken -> res.1 = db).
Proof.
  cbv zeta. unfold view_request_take, mbind, sql_bind, bind.
  rewrite view_request_open_unfold.
  destruct (selected view_request_id) as [rid|];
    [|split; [split; [done|by intros (? & ? & ? & _)]|done]].
  destruct (select_request rid (working db)) as [rv|] eqn:Hrv.
  2: { split; [split; [done|]|done].
       intros (? & ? & [= <-] & ? & _). congruence. }
  destruct (select_request_row _ _ _ Hrv) as [Hr Hid].
  assert (rid ∈ map r_id (requests (working db))) as Hin.
  { apply list_elem_of_fmap. eauto. }
  destruct (cost_line (estimated_cost (rv_row rv))) as [e1|] eqn:He1.
  { split; [split; [done|]|done].
    intros (? & ? & [= <-] & ? & ? & _). congruence. }
  destruct (cost_line (actual_cost (rv_row rv))) as [e2|] eqn:He2.
  { split; [split; [done|]|done].
    intros (? & ? & [= <-] & ? & _ & ? & _). congruence. }
  rewrite status_now_completed.
  destruct (is_specialist user) eqn:Hs; simpl.
  2: { split; [split; [done|]|done].
       intros (? & ? & _ & _ & _ & _ & ? & _). congruence. }
  destruct (unassigned (rv_row rv)) eqn:Hun; simpl.
  2: { split; [split; [done|]|done].
       intros (? & ? & [= <-] & ? & _ & _ & _ & ? & _). congruence. }
  destruct (String.eqb_spec (status (rv_row rv)) "завершена") as [Hc|Hc];
    simpl.
  { split; [split; [done|]|done].
    intros (? & ? & [= <-] & ? & _ & _ & _ & _ & ? & _). congruence. }
  rewrite Hid, assign_request_unfold, matched_ltb.
  rewrite (bool_decide_eq_true_2 _ Hin).
  destruct (user_exists (working db) (user_id user)) eqn:Hu; simpl.
  2: { split; [split; [done|]|done].
       intros (? & ? & _ & _ & _ & _ & _ & _ & _ & ?). congruence. }
  split; [split; [intros _; by exists rid, rv|done]|].
  split; [|done]. intros _.
  destruct (select_request_updated rid (set_assigned_to (user_id user))
              (working db) rv) as (rv' & Hrv' & Hrow); [done|done|].
  exists rid, rv'. split; [done|].
  split. { unfold get_request, query. simpl. by rewrite Hrv'. }
  rewrite Hrow. split; [done|]. split; [|done].
  intros Hne. unfold can_manage, assigned_to_user. rewrite Hs. simpl.
  rewrite Z.eqb_refl, andb_true_r.
  destruct (Z.eqb_spec (user_id user) 0); [done|]. by rewrite orb_true_r.
Qed.

Lemma assigned_to_user_spec r user :
  assigned_to_user r user = true <->
  assigned_to r = Some (user_id user) /\ user_id user <> 0.
Proof.
  unfold assigned_to_user.
  destruct (assigned_to r) as [a|]; [|split; [done|by intros [? _]]].
  split.
  - intros Hb. apply andb_true_iff in Hb as [Ha Hb].
    apply Z.eqb_eq in Hb as ->. split; [done|].
    intros Hz. by rewrite Hz in Ha.
  - intros [[= ->] Hn]. rewrite Z.eqb_refl, andb_true_r.
    by destruct (Z.eqb_spec (user_id user) 0).
Qed.

(** X18.  The help form of the page of a request creates a help request
    only when the page gets as far as the form (the request exists and
    [float] accepts the costs it shows), for the specialist who is the
    master of the request, while the request is not completed, and with a
    message that is not blank; it stores the message without the blanks
    around it, as an open help request of this specialist, and commits.
    For such a specialist whose account exists the help request is
    created; whenever none is created the database is left as it was. *)
Theorem help_form_sends_for_assigned_master (db : Database) (user : session)
  (view_request_id : option Z) (msg : string) (ts : datetime) :
  let res := view_request_send_help user view_request_id msg ts db in
  let allowed_for rid :=
    exists rv,
      selected view_request_id = Some rid
      /\ select_request rid (working db) = Some rv
      /\ cost_line (estimated_cost (rv_row rv)) = None
      /\ cost_line (actual_cost (rv_row rv)) = None
      /\ is_specialist user = true
      /\ assigned_to (rv_row rv) = Some (user_id user)
      /\ user_id user <> 0
      /\ status (rv_row rv) <> "завершена"
      /\ strip msg <> "" in
  let created rid :=
    exists h,
      help_requests (working res.1) = app (help_requests (working db)) [h]
      /\ h_request_id h = rid /\ requested_by h = user_id user
      /\ message h = strip msg /\ h_status h = "open"
      /\ requests (working res.1) = requests (working db)
      /\ committed res.1 = working res.1 in
  (res.1 = db \/ exists rid, allowed_for rid /\ created rid)
  /\ (forall rid, allowed_for rid ->
        user_exists (working db) (user_id user) = true -> created rid).
Proof.
  cbv zeta. unfold view_request_send_help, mbind, sql_bind, bind.
  rewrite view_request_open_unfold.
  destruct (selected view_request_id) as [rid|];
    [|split; [by left|by intros ? (? & ? & _)]].
  destruct (select_request rid (working db)) as [rv|] eqn:Hrv.
  2: { split; [by left|]. intros ? (? & [= <-] & ? & _). congruence. }
  destruct (select_request_row _ _ _ Hrv) as [Hr Hid].
  assert (rid ∈ map r_id (requests (working db))) as Hin.
  { apply list_elem_of_fmap. eauto. }
  destruct (cost_line (estimated_cost (rv_row rv))) as [e1|] eqn:He1.
  { split; [by left|]. intros ? (? & [= <-] & ? & ? & _). congruence. }
  destruct (cost_line (actual_cost (rv_row rv))) as [e2|] eqn:He2.
  { split; [by left|]. intros ? (? & [= <-] & ? & _ & ? & _). congruence. }
  rewrite status_now_completed.
  destruct (is_specialist user) eqn:Hs; simpl.
  2: { split; [by left|]. intros ? (? & _ & _ & _ & _ & ? & _).
       congruence. }
  destruct (assigned_to_user (rv_row rv) user) eqn:Has; simpl.
  2: { split; [by left|].
       intros ? (rv0 & [= <-] & ? & _ & _ & _ & Ha & Hn & _).
       assert (rv0 = rv) as -> by congruence.
       assert (assigned_to_user (rv_row rv) user = true) as Hx
         by (by apply assigned_to_user_spec).
       congruence. }
  apply assigned_to_user_spec in Has as [Has Hn0].
  destruct (String.eqb_spec (status (rv_row rv)) "завершена") as [Hc|Hc];
    simpl.
  { split; [by left|].
    intros ? (? & [= <-] & ? & _ & _ & _ & _ & _ & ? & _). congruence. }
  destruct (String.eqb_spec (strip msg) "") as [Hm|Hm].
  { split; [by left|].
    intros ? (? & _ & _ & _ & _ & _ & _ & _ & _ & ?). done. }
  rewrite Hid, create_help_request_unfold.
  unfold insert_help_request, request_exists.
  rewrite (bool_decide_eq_true_2 _ Hin). simpl.
  destruct (user_exists (working db) (user_id user)) eqn:Hu; simpl.
  - split.
    + right. exists rid. split; [by exists rv|].
      eexists. split; [reflexivity|done].
    + intros rid' (? & [= <-] & _) _.
      eexists. split; [reflexivity|done].
  - split; [by left|]. intros ? _ ?. done.
Qed.

(** *** The quality page *)

Lemma listing_unique db l :
  list_open_help_requests db = (db, Ok l) ->
  l = select_open_help (working db).
Proof. intros Hl. by injection Hl as <-. Qed.

Lemma listed_help_exists db l hr :
  wf (working db) ->
  list_open_help_requests db = (db, Ok l) ->
  hr ∈ l ->
  exists h, h ∈ help_requests (working db) /\ h_id h = help_id hr
            /\ h_status h = "open".
Proof.
  intros Hwf Hl Hhr.
  destruct (list_open_help_requests_spec db Hwf) as (l0 & Hl0 & Hp & _).
  assert (l0 = l) as -> by congruence.
  assert ((help_id hr, oh_created_at hr) ∈ listed l) as Hin.
  { unfold listed. apply list_elem_of_fmap. by exists hr. }
  rewrite Hp in Hin. apply open_helps_elem in Hin as (h & ? & ? & _ & ?).
  eauto.
Qed.

Lemma open_helps_resolved hid uid at_ note (hs : list help_requests_row) :
  map (fun h => (h_id h, h_created_at h))
    (filter (fun h => String.eqb (h_status h) "open" = true)
       (map (fun h => if decide (h_id h = hid)
                      then set_resolved uid at_ note h else h) hs))
  = filter (fun p => p.1 <> hid)
      (map (fun h => (h_id h, h_created_at h))
         (filter (fun h => String.eqb (h_status h) "open" = true) hs)).
Proof.
  induction hs as [|h hs IH]; [done|].
  cbn [map]. rewrite !filter_cons.
  destruct (decide (h_id h = hid)) as [Hh|Hh].
  - rewrite decide_False by done.
    destruct (decide (String.eqb (h_status h) "open" = true)).
    + cbn [map]. rewrite filter_cons, decide_False by (simpl; tauto). done.
    + done.
  - destruct (decide (String.eqb (h_status h) "open" = true)).
    + cbn [map]. rewrite filter_cons, decide_True by done. by rewrite IH.
    + done.
Qed.

(** X19.  The closing button of the quality page refuses a visitor who is
    neither quality manager nor administrator and changes nothing.  For a
    quality manager or an administrator whose account exists, closing a
    listed help request succeeds and is committed: the help request is
    resolved by them with the note without the blanks around it, it is no
    longer listed, and every other listed help request still is. *)
Theorem closing_a_help_request_unlists_it (db : Database) (user : session)
  (hr : open_help_row) (note : string) (ts : datetime)
  (l : list open_help_row) :
  wf (working db) ->
  list_open_help_requests db = (db, Ok l) ->
  hr ∈ l ->
  let res := quality_control_close user hr note ts db in
  (can_qm_actions user = false ->
     res = (db, Ok (st_error "Доступ запрещен.")))
  /\ (can_qm_actions user = true ->
      user_exists (working db) (user_id user) = true ->
      res.2 = Ok (st_success "Запрос закрыт.")
      /\ committed res.1 = working res.1
      /\ (forall h, h ∈ help_requests (working res.1) ->
            h_id h = help_id hr ->
            h_status h = "resolved"
            /\ resolved_by h = Some (user_id user)
            /\ resolution_note h = Some (strip note))
      /\ exists l',
           list_open_help_requests res.1 = (res.1, Ok l')
           /\ listed l' ≡ₚ filter (fun p => p.1 <> help_id hr) (listed l)).
Proof.
  intros Hwf Hl Hhr. cbv zeta. unfold quality_control_close.
  split; [by intros ->|]. intros -> Hu. cbn [negb].
  destruct (listed_help_exists db l hr Hwf Hl Hhr) as (h0 & Hh0 & Hid0 & _).
  assert (help_id hr ∈ map h_id (help_requests (working db))) as Hin.
  { apply list_elem_of_fmap. eauto. }
  assert (user_id user ∈ map u_id (users (working db))) as Hu'.
  { unfold user_exists in Hu. by apply bool_decide_eq_true in Hu. }
  destruct (resolve_help_request_ok (help_id hr) (user_id user) (strip note)
              ts db Hin Hu') as (t' & Hres & Hhs & _ & _ & _ & Hst).
  unfold mbind, sql_bind, bind, mret, sql_ret, ret. rewrite Hres.
  cbn [fst snd working committed].
  assert (wf t') as Hwf' by (by eapply wf_stmt).
  split; [done|]. split; [done|]. split.
  { intros h Hh Hid. rewrite Hhs in Hh.
    apply list_elem_of_fmap in Hh as (h1 & -> & _).
    destruct (decide (h_id h1 = help_id hr)); [done|]. done. }
  destruct (list_open_help_requests_spec
              {| committed := t'; working := t' |} Hwf')
    as (l' & Hl' & Hp' & _).
  exists l'. split; [done|]. rewrite Hp'.
  destruct (list_open_help_requests_spec db Hwf) as (l0 & Hl0 & Hp & _).
  assert (l0 = l) as -> by congruence.
  rewrite Hp. unfold open_helps. cbn [working]. rewrite Hhs.
  by rewrite open_helps_resolved.
Qed.

Lemma open_help_join_elem t o :
  o ∈ open_help_join t ->
  exists h r,
    h ∈ help_requests t /\ r ∈ requests t /\ r_id r = h_request_id h
    /\ help_id o = h_id h /\ oh_request_id o = h_request_id h
    /\ oh_deadline o = deadline r
    /\ oh_deadline_extended_to o = deadline_extended_to r
    /\ oh_status o = status r.
Proof.
  unfold open_help_join. intros Ho.
  apply list_elem_of_bind in Ho as (h & Ho & Hh).
  apply list_elem_of_bind in Ho as (r & Ho & Hr).
  apply list_elem_of_filter in Hr as [Hid Hr].
  apply list_elem_of_bind in Ho as (n1 & Ho & _).
  apply list_elem_of_bind in Ho as (n2 & Ho & _).
  apply list_elem_of_bind in Ho as (u3 & Ho & _).
  destruct (String.eqb (h_status h) "open"); [|by apply elem_of_nil in Ho].
  apply list_elem_of_singleton in Ho as ->. exists h, r. done.
Qed.

(** X20.  Extending the deadline from the quality page does not close the
    help request it was started from: after a successful extension the
    same help requests are listed, and the listed rows of the request show
    the picked date and time as extended deadline, with the planned
    deadline as it was. *)
Theorem extension_keeps_the_help_request_listed (db : Database)
  (user : session) (hr : open_help_row) (new_dt : datetime)
  (reason approval : string) (approved : bool) (ts : datetime)
  (l : list open_help_row) :
  wf (working db) ->
  list_open_help_requests db = (db, Ok l) ->
  hr ∈ l ->
  (quality_control_extend user hr new_dt reason approval approved ts db).2
  = Ok (st_success "Срок продлён.") ->
  let db' :=
    (quality_control_extend user hr new_dt reason approval approved ts db).1
  in
  exists l',
    list_open_help_requests db' = (db', Ok l')
    /\ listed l' ≡ₚ listed l
    /\ (exists o, o ∈ l' /\ help_id o = help_id hr)
    /\ (forall o, o ∈ l' -> oh_request_id o = oh_request_id hr ->
          oh_deadline_extended_to o = Some (strftime_iso new_dt))
    /\ map deadline (requests (working db'))
       = map deadline (requests (working db)).
Proof.
  intros Hwf Hl Hhr. cbv zeta. unfold quality_control_extend.
  destruct (negb (can_qm_actions user)); [done|].
  destruct (negb approved); [done|].
  destruct (String.eqb (strip reason) ""); [done|].
  destruct (String.eqb (strip approval) ""); [done|].
  unfold mbind, sql_bind, bind, mret, sql_ret, ret.
  rewrite extend_deadline_unfold.
  destruct (_ && _); [done|]. cbv zeta.
  destruct (0 <? matched _ _); [|done]. intros _. cbn [fst snd].
  set (f := set_extension (strftime_iso new_dt) (strip reason)
              (strip approval) (strftime_iso ts) (user_id user)).
  set (t' := with_requests (working db)
               (update_where_id (oh_request_id hr) f
                  (requests (working db)))).
  assert (wf t') as Hwf' by (eapply wf_stmt; [|exact Hwf]; constructor).
  destruct (list_open_help_requests_spec
              {| committed := t'; working := t' |} Hwf')
    as (l' & Hl' & Hp' & _).
  destruct (list_open_help_requests_spec db Hwf) as (l0 & Hl0 & Hp & _).
  assert (l0 = l) as -> by congruence.
  assert (listed l' ≡ₚ listed l) as Hsame by (by rewrite Hp', Hp).
  exists l'. split; [done|]. split; [done|]. split; [|split].
  - assert ((help_id hr, oh_created_at hr) ∈ listed l') as Hin.
    { rewrite Hsame. unfold listed. apply list_elem_of_fmap. by exists hr. }
    unfold listed in Hin. apply list_elem_of_fmap in Hin as (o & [= Ho _] & ?).
    eauto.
  - intros o Ho Hrid. apply listing_unique in Hl'. subst l'.
    unfold select_open_help in Ho. rewrite merge_sort_Permutation in Ho.
    apply open_help_join_elem in Ho
      as (h & r & _ & Hr & Hidr & _ & Hoid & _ & -> & _).
    cbn [working t' requests with_requests] in Hr.
    apply update_where_id_elem in Hr as (r0 & Hr0 & ->).
    destruct (decide (r_id r0 = oh_request_id hr)) as [|Hne]; [done|].
    congruence.
  - cbn [working t' requests with_requests]. unfold update_where_id.
    rewrite map_map. apply map_ext. intros r. by case_decide.
Qed.

(** *** The forms for a request *)

Lemma new_request_data_get f :
  dict_get (new_request_data f) "equipment_type"
  = of_text (in_equipment_type f)
  /\ dict_get (new_request_data f) "device_model"
     = VStr (strip (in_device_model f))
  /\ dict_get (new_request_data f) "fault_type"
     = VStr (fault_of (in_fault_type f))
  /\ dict_get (new_request_data f) "problem_description"
     = VStr (strip (in_problem_description f))
  /\ dict_get (new_request_data f) "customer_name"
     = VStr (strip (in_customer_name f))
  /\ dict_get (new_request_data f) "customer_phone"
     = VStr (strip (in_customer_phone f))
  /\ dict_get (new_request_data f) "estimated_cost"
     = VFloat (float_or_0 (in_estimated_cost f)).
Proof. repeat split. Qed.

(** X21.  The form of a new request creates nothing for a visitor who is
    neither administrator nor specialist, and nothing while the equipment
    type, the model, the customer's name or phone or the description is
    empty.  The five are tested as typed, before the blanks around them are
    removed: a request it creates is open and stores the equipment type as
    chosen, the four texts without the blanks around them (the empty text
    for an input of blanks only) and the fault type, empty for the option
    that names none. *)
Theorem new_request_form_outcome (db : Database) (user : session)
  (f : request_form) (t1 t2 t3 t4 : datetime) :
  let res := page_new_request_submit user f t1 t2 t3 t4 db in
  (is_admin user || is_specialist user = false ->
     res = (db, Ok (st_error "Доступ запрещен.")))
  /\ (is_admin user || is_specialist user = true ->
      (in_equipment_type f = None \/ in_equipment_type f = Some ""
       \/ in_device_model f = "" \/ in_customer_name f = ""
       \/ in_customer_phone f = "" \/ in_problem_description f = "") ->
      res = (db, Ok (st_error "Заполните все обязательные поля (*)")))
  /\ (res.2 = Ok (st_success "Заявка создана.") ->
      exists row,
        requests (working res.1) = app (requests (working db)) [row]
        /\ status row = "открыта"
        /\ of_text (in_equipment_type f) = equipment_type row
        /\ device_model row = VStr (strip (in_device_model f))
        /\ fault_type row = VStr (fault_of (in_fault_type f))
        /\ problem_description row
           = VStr (strip (in_problem_description f))
        /\ customer_name row = VStr (strip (in_customer_name f))
        /\ customer_phone row = VStr (strip (in_customer_phone f))
        /\ committed res.1 = working res.1).
Proof.
  cbv zeta. unfold page_new_request_submit.
  destruct (is_admin user || is_specialist user); cbn [negb].
  2: { split; [done|]. split; done. }
  split; [done|]. split.
  { intros _ Hempty.
    assert (required_filled f = false) as ->; [|done].
    unfold required_filled.
    destruct Hempty as [-> | [-> | [-> | [-> | [-> | ->]]]]]; simpl;
      rewrite ?andb_false_r; done. }
  destruct (required_filled f); cbn [negb]; [|done].
  unfold mbind, sql_bind, bind, mret, sql_ret, ret.
  rewrite add_request_unfold. cbv zeta.
  destruct (new_request_data_get f)
    as (-> & -> & -> & -> & -> & -> & ->).
  destruct (add_days t2 DEFAULT_DEADLINE_DAYS); [done|].
  destruct (float_of _); [done|].
  unfold insert_request. case_bool_decide; [done|].
  cbn [fst snd working committed]. intros _.
  eexists. split; [reflexivity|]. done.
Qed.

Context `{Widgets}.

Lemma cost_input_end v pe :
  cost_input v = Some pe -> pe <> AttributeError.
Proof.
  unfold cost_input. destruct (float_of _); [by intros [= <-]|].
  destruct (number_input_accepts _); [done|by intros [= <-]].
Qed.

Lemma select_request_None rid t :
  select_request rid t = None <-> rid ∉ map r_id (requests t).
Proof.
  split.
  - intros Hn Hin. destruct (select_request_Some _ _ Hin) as [rv Hrv].
    congruence.
  - intros Hn. destruct (select_request rid t) as [rv|] eqn:Hrv; [|done].
    exfalso. apply Hn. apply select_request_row in Hrv as [Hr <-].
    apply list_elem_of_fmap. eauto.
Qed.

Lemma specialist_only user :
  is_specialist user = true ->
  is_admin user = false /\ can_qm_actions user = false.
Proof.
  unfold can_qm_actions, is_quality_manager, is_admin, is_specialist,
    value_is.
  destruct (role_of user) as [| |?|s]; try done.
  intros Hs. apply String.eqb_eq in Hs as ->. done.
Qed.

Lemma assigned_to_other_spec r user :
  assigned_to_other r user = false <->
  assigned_to r = None \/ assigned_to r = Some 0
  \/ assigned_to r = Some (user_id user).
Proof.
  unfold assigned_to_other.
  destruct (assigned_to r) as [a|]; [|split; auto].
  split.
  - intros Hb. apply andb_false_iff in Hb as [Hb|Hb];
      apply negb_false_iff, Z.eqb_eq in Hb as ->; auto.
  - intros [?|[[= ->]|[= ->]]]; [done|done|].
    by rewrite Z.eqb_refl, andb_false_r.
Qed.

(** X22.  The edit page writes nothing for a visitor who is neither
    administrator nor specialist, without a chosen request, for a
    specialist when the request has another master, and when a cost input
    of the form cannot take its default.  For a key that no request has it
    ends with the AttributeError of [r.get] on [None], with the database
    as it was: the message for a missing request is never reached.  So
    whenever saving changes the database, the request exists, both cost
    inputs took their defaults, and the visitor is an administrator, or a
    specialist and the request has no master or has them as master. *)
Theorem edit_page_refusals (db : Database) (user : session)
  (edit_request_id : option Z) (f : request_form) (actual : pyfloat)
  (sel_status new_deadline : string) (now ts : datetime) :
  let res := page_edit_request_save user edit_request_id f actual sel_status
               new_deadline now ts db in
  (res.2 = Ok AttributeError <->
     is_admin user || is_specialist user = true
     /\ exists rid, selected edit_request_id = Some rid
                    /\ (rid ∉ map r_id (requests (working db))))
  /\ (res.2 = Ok AttributeError -> res.1 = db)
  /\ (res.1 <> db ->
      exists rid rv,
        selected edit_request_id = Some rid
        /\ select_request rid (working db) = Some rv
        /\ cost_input (estimated_cost (rv_row rv)) = None
        /\ cost_input (actual_cost (rv_row rv)) = None
        /\ (is_admin user = true
            \/ is_specialist user = true
               /\ (assigned_to (rv_row rv) = None
                   \/ assigned_to (rv_row rv) = Some 0
                   \/ assigned_to (rv_row rv) = Some (user_id user)))).
Proof.
  cbv zeta. unfold page_edit_request_save.
  destruct (is_admin user || is_specialist user) eqn:Hrole; cbn [negb].
  2: { split; [split; [done|by intros [? _]]|done]. }
  destruct (selected edit_request_id) as [rid|].
  2: { split; [split; [done|by intros [_ (? & ? & _)]]|done]. }
  unfold mbind, sql_bind, bind, mret, sql_ret, ret, get_request, query.
  destruct (select_request rid (working db)) as [rv|] eqn:Hrv.
  2: { split; [|done]. split; [|done]. intros _. split; [done|].
       exists rid. split; [done|]. by apply select_request_None. }
  assert (rid ∈ map r_id (requests (working db))) as Hin.
  { apply select_request_row in Hrv as [Hr <-].
    apply list_elem_of_fmap. eauto. }
  assert (forall x : Database * outcome page_end,
            (exists pe, x.2 = Ok pe /\ pe <> AttributeError) ->
            (is_specialist user && assigned_to_other (rv_row rv) user = false
             /\ cost_input (estimated_cost (rv_row rv)) = None
             /\ cost_input (actual_cost (rv_row rv)) = None
             \/ x.1 = db) ->
            (x.2 = Ok AttributeError <->
               true = true
               /\ exists rid0, Some rid = Some rid0
                     /\ (rid0 ∉ map r_id (requests (working db))))
            /\ (x.2 = Ok AttributeError -> x.1 = db)
            /\ (x.1 <> db ->
                exists rid0 rv0,
                  Some rid = Some rid0
                  /\ select_request rid0 (working db) = Some rv0
                  /\ cost_input (estimated_cost (rv_row rv0)) = None
                  /\ cost_input (actual_cost (rv_row rv0)) = None
                  /\ (is_admin user = true
                      \/ is_specialist user = true
                         /\ (assigned_to (rv_row rv0) = None
                             \/ assigned_to (rv_row rv0) = Some 0
                             \/ assigned_to (rv_row rv0)
                                = Some (user_id user))))) as Hshape.
  { intros x (pe & Hpe & Hnot) Hguard. rewrite Hpe.
    split; [split; [by intros [= ->]|]|].
    { intros [_ (? & [= <-] & ?)]. done. }
    split; [by intros [= ->]|]. intros Hne.
    destruct Hguard as [(Hg & Hc1 & Hc2)|Hg]; [|done].
    exists rid, rv. split; [done|]. split; [done|].
    split; [done|]. split; [done|].
    destruct (is_specialist user) eqn:Hs.
    - right. split; [done|]. by apply assigned_to_other_spec.
    - left. by rewrite orb_false_r in Hrole. }
  destruct (is_specialist user && assigned_to_other (rv_row rv) user)
    eqn:Hguard.
  { apply Hshape; [by eexists|by right]. }
  destruct (cost_input (estimated_cost (rv_row rv))) as [e1|] eqn:He1.
  { apply Hshape; [|by right]. exists e1. split; [done|].
    by eapply cost_input_end. }
  destruct (cost_input (actual_cost (rv_row rv))) as [e2|] eqn:He2.
  { apply Hshape; [|by right]. exists e2. split; [done|].
    by eapply cost_input_end. }
  apply Hshape; [|by left].
  rewrite update_request_unfold.
  destruct (collect_fields _) as [|kv fields]; cbv zeta;
    try destruct (0 <? matched _ _); cbn [negb]; try (by eexists);
    (destruct (negb (String.eqb sel_status (status_now (rv_row rv))));
     [|by eexists]);
    rewrite update_request_status_unfold;
    (destruct (select_status _ _);
     [cbv zeta; destruct (user_ref_ok _ _)|]); by eexists.
Qed.

Lemma edit_request_upd_specialist user f actual new_deadline :
  can_qm_actions user = false ->
  collect_fields (edit_request_upd user f actual new_deadline)
  = [ ("equipment_type", of_text (in_equipment_type f));
      ("device_model", VStr (strip (in_device_model f)));
      ("fault_type", VStr (fault_of (in_fault_type f)));
      ("problem_description", VStr (strip (in_problem_description f)));
      ("customer_name", VStr (strip (in_customer_name f)));
      ("customer_phone", VStr (strip (in_customer_phone f)));
      ("estimated_cost", VFloat (float_or_0 (in_estimated_cost f)));
      ("actual_cost", VFloat (float_or_0 actual)) ].
Proof.
  intros Hq. unfold edit_request_upd. rewrite Hq. reflexivity.
Qed.

Lemma update_request_writes rid data db :
  collect_fields data <> [] ->
  update_request rid data db =
  ({| committed :=
        with_requests (working db)
          (update_where_id rid (set_columns (collect_fields data))
             (requests (working db)));
      working :=
        with_requests (working db)
          (update_where_id rid (set_columns (collect_fields data))
             (requests (working db))) |},
   Ok (0 <? matched rid (requests (working db)))).
Proof.
  intros Hne. rewrite update_request_unfold.
  by destruct (collect_fields data).
Qed.

(** X23.  For a specialist the edit page asks less than the status control
    of the view page: on a request that has no master, saving with another
    status chosen stores the fields of the form and the chosen status,
    with the completion time that belongs to it and a history entry by the
    specialist, and commits, once the two cost inputs of the form took
    their defaults; the request still has no master.  The costs are stored
    as entered when they are no NaN.  The status control of the view page
    does nothing for the same specialist, request and status. *)
Theorem edit_page_saves_without_master (db : Database) (user : session)
  (rid : Z) (f : request_form) (actual : pyfloat)
  (sel_status new_deadline : string) (now ts : datetime) :
  rid <> 0 ->
  rid ∈ map r_id (requests (working db)) ->
  (forall r, r ∈ requests (working db) -> r_id r = rid ->
     assigned_to r = None /\ status_now r <> sel_status
     /\ cost_input (estimated_cost r) = None
     /\ cost_input (actual_cost r) = None) ->
  is_specialist user = true ->
  user_exists (working db) (user_id user) = true ->
  let res := page_edit_request_save user (Some rid) f actual sel_status
               new_deadline now ts db in
  res.2 = Ok (shown (st_success "Сохранено."))
  /\ committed res.1 = working res.1
  /\ (forall r', r' ∈ requests (working res.1) -> r_id r' = rid ->
        status r' = sel_status
        /\ completed_date r' = completion_stamp sel_status now
        /\ assigned_to r' = None
        /\ customer_name r' = VStr (strip (in_customer_name f))
        /\ customer_phone r' = VStr (strip (in_customer_phone f))
        /\ equipment_type r' = of_text (in_equipment_type f)
        /\ device_model r' = VStr (strip (in_device_model f))
        /\ fault_type r' = VStr (fault_of (in_fault_type f))
        /\ problem_description r'
           = VStr (strip (in_problem_description f))
        /\ (nan (in_estimated_cost f) = false ->
            estimated_cost r' = VFloat (float_or_0 (in_estimated_cost f)))
        /\ (nan actual = false ->
            actual_cost r' = VFloat (float_or_0 actual)))
  /\ (exists e,
        status_history (working res.1)
        = app (status_history (working db)) [e]
        /\ sh_request_id e = rid /\ new_status e = sel_status
        /\ changed_by e = actor_of (Some (user_id user)))
  /\ view_request_save_status user rid sel_status now ts db
     = (db, Ok nothing).
Proof.
  intros Hrid Hin Hrows Hs Hu.
  destruct (specialist_only user Hs) as [Ha Hq].
  destruct (select_request_Some _ _ Hin) as [rv Hrv].
  destruct (select_request_row _ _ _ Hrv) as [Hr Hid].
  destruct (Hrows _ Hr Hid) as (Hnone & Hsel & Hc1 & Hc2).
  assert (String.eqb sel_status (status_now (rv_row rv)) = false) as Hneq.
  { apply String.eqb_neq. congruence. }
  assert (view_request_save_status user rid sel_status now ts db
          = (db, Ok nothing)) as Hview.
  { unfold view_request_save_status, get_request, mbind, sql_bind, bind,
      query. rewrite Hrv.
    rewrite (can_manage_false user (rv_row rv) Ha); [done|].
    intros [_ ?]. congruence. }
  set (upd := edit_request_upd user f actual new_deadline).
  set (t1 := with_requests (working db)
               (update_where_id rid (set_columns (collect_fields upd))
                  (requests (working db)))).
  assert (rid ∈ map r_id (requests t1)) as Hin1.
  { assert (requests t1
            = update_where_id rid (set_columns (collect_fields upd))
                (requests (working db))) as -> by reflexivity.
    rewrite update_where_id_ids; [done|].
    intros r. by rewrite set_columns_collect. }
  destruct (select_status_Some rid t1 Hin1) as [old Hold].
  set (t1s := with_status t1 rid sel_status
                (completion_stamp sel_status now)).
  set (e := history_entry t1s rid (Some old) sel_status
              (actor_of (Some (user_id user))) ts).
  set (t2 := with_history t1s e).
  assert (page_edit_request_save user (Some rid) f actual sel_status
            new_deadline now ts db
          = ({| committed := t2; working := t2 |},
             Ok (shown (st_success "Сохранено.")))) as Hres.
  { unfold page_edit_request_save. rewrite Ha, Hs. cbn [orb negb].
    unfold selected. destruct (Z.eqb_spec rid 0) as [|_]; [done|].
    unfold mbind, sql_bind, bind, mret, sql_ret, ret, get_request, query.
    rewrite Hrv. unfold assigned_to_other. rewrite Hnone, andb_false_r.
    rewrite Hc1, Hc2.
    fold upd. rewrite update_request_writes.
    2: { unfold upd. by rewrite edit_request_upd_specialist by done. }
    rewrite Hid, matched_ltb, (bool_decide_eq_true_2 _ Hin). cbn [negb].
    rewrite Hneq. cbn [negb]. rewrite update_request_status_unfold.
    cbn [working]. pose proof Hold as Hold'. unfold t1 in Hold'.
    rewrite Hold'. cbv zeta.
    match goal with
    | |- context [user_ref_ok ?t ?a] =>
        assert (user_ref_ok t a = true) as ->
    end.
    { unfold actor_of. destruct (user_id user =? 0); [done|]. exact Hu. }
    reflexivity. }
  cbv zeta. rewrite Hres. cbn [fst snd working committed].
  split; [done|]. split; [done|]. split; [|split; [|exact Hview]].
  - intros r' Hr' Hid'.
    assert (requests t2
            = update_where_id rid
                (set_status sel_status (completion_stamp sel_status now))
                (update_where_id rid (set_columns (collect_fields upd))
                   (requests (working db)))) as Hreq by reflexivity.
    rewrite Hreq in Hr'.
    apply update_where_id_elem in Hr' as (r1 & Hr1 & ->).
    apply update_where_id_elem in Hr1 as (r0 & Hr0 & ->).
    destruct (decide (r_id r0 = rid)) as [Hid0|Hid0].
    + rewrite set_columns_collect. rewrite decide_True by exact Hid0.
      destruct (Hrows _ Hr0 Hid0) as (Hn0 & _).
      unfold upd, edit_request_upd. rewrite Hq. cbn [andb].
      repeat split; try reflexivity. exact Hn0.
    + rewrite decide_False in Hid' by exact Hid0. done.
  - exists e. repeat split; reflexivity.
Qed.

(** *** Masters, accounts and help requests *)

(** X24.  The master and the assistant of a request are set independently
    of each other: for an existing request and existing accounts, setting
    the assistant after the master gives the same database and the same
    answer as setting the master after the assistant, and the request then
    has both.  Nothing asks that the two be different accounts. *)
Theorem master_and_assistant_independent (db : Database) (rid u1 u2 : Z) :
  rid ∈ map r_id (requests (working db)) ->
  user_exists (working db) u1 = true ->
  user_exists (working db) u2 = true ->
  let a := set_assistant_master rid u2 (assign_request rid u1 db).1 in
  let b := assign_request rid u1 (set_assistant_master rid u2 db).1 in
  a = b
  /\ a.2 = Ok true
  /\ forall r, r ∈ requests (working a.1) -> r_id r = rid ->
       assigned_to r = Some u1 /\ assist_to r = Some u2.
Proof.
  intros Hin Hu1 Hu2. cbv zeta.
  rewrite (assign_request_unfold rid u1 db),
    (set_assistant_master_unfold rid u2 db), Hu1, Hu2, !andb_false_r.
  cbv zeta. cbn [fst].
  rewrite assign_request_unfold, set_assistant_master_unfold.
  cbn [working].
  assert (forall rs, user_exists (with_requests (working db) rs) u1 = true)
    as Hu1' by (intros rs; exact Hu1).
  assert (forall rs, user_exists (with_requests (working db) rs) u2 = true)
    as Hu2' by (intros rs; exact Hu2).
  rewrite Hu1', Hu2', !andb_false_r. cbv zeta.
  assert (forall f g,
            (forall r, r_id (f r) = r_id r) ->
            requests (with_requests (working db)
                        (update_where_id rid f (requests (working db))))
            = update_where_id rid f (requests (working db))) as Hreq by done.
  rewrite !matched_ltb.
  assert (forall f, (forall r, r_id (f r) = r_id r) ->
            bool_decide
              (rid ∈ map r_id
                 (requests (with_requests (working db)
                    (update_where_id rid f (requests (working db))))))
            = true) as Hstill.
  { intros f Hf. apply bool_decide_eq_true_2.
    assert (requests (with_requests (working db)
                        (update_where_id rid f (requests (working db))))
            = update_where_id rid f (requests (working db))) as -> by done.
    by rewrite update_where_id_ids. }
  rewrite !Hstill by done.
  assert (update_where_id rid (set_assist_to u2)
            (update_where_id rid (set_assigned_to u1)
               (requests (working db)))
          = update_where_id rid (set_assigned_to u1)
              (update_where_id rid (set_assist_to u2)
                 (requests (working db)))) as Hcomm.
  { unfold update_where_id. rewrite !map_map. apply map_ext. intros r.
    destruct (decide (r_id r = rid)) as [Hr|Hr].
    - rewrite !decide_True by done. done.
    - rewrite !decide_False by done. done. }
  split; [|split; [done|]].
  - unfold with_requests. cbn [users requests status_history help_requests
      seq_requests seq_status_history seq_help_requests].
    by rewrite Hcomm.
  - cbn [fst working]. intros r Hr Hid.
    assert (forall t rs, requests (with_requests t rs) = rs) as Hwr by done.
    rewrite !Hwr in Hr.
    apply update_where_id_elem in Hr as (r1 & Hr1 & ->).
    apply update_where_id_elem in Hr1 as (r0 & Hr0 & ->).
    destruct (decide (r_id r0 = rid)) as [Hid0|Hid0].
    + rewrite decide_True by done. done.
    + rewrite decide_False in Hid by done. done.
Qed.

#[local] Instance accounts_and_helps_stay_preorder :
  PreOrder accounts_and_helps_stay.
Proof.
  split.
  - intros t. by split.
  - intros t1 t2 t3 [Hu1 Hh1] [Hu2 Hh2]. split; [congruence|].
    by etransitivity.
Qed.

Lemma stmt_accounts_and_helps_stay t t' :
  stmt t t' -> accounts_and_helps_stay t t'.
Proof.
  intros Hst. destruct Hst as
    [t rid new now|t rid fields|t rid uid|t rid uid
    |t rid dl reason approval at_ uid
    |t number e m f d cn cp cost dl ts t' rid Hins
    |t rid old new by_user ts t' hid Hins
    |t rid uid msg ts t' hid Hins
    |t hid uid note ts t' n Hupd]; try (by split).
  - unfold insert_request in Hins. case_bool_decide; [done|].
    injection Hins as <- _. by split.
  - unfold insert_status_history in Hins. destruct (_ && _); [|done].
    injection Hins as <- _. by split.
  - unfold insert_help_request in Hins. destruct (_ && _); [|done].
    injection Hins as <- _. split; [done|]. simpl.
    rewrite map_app. by apply prefix_app_r.
  - unfold update_help_resolved in Hupd. destruct (_ && _); [done|].
    injection Hupd as <- _. split; [done|]. simpl.
    rewrite map_map.
    assert (map (fun h => help_subject
                   (if decide (h_id h = hid)
                    then set_resolved uid (strftime_iso ts) note h else h))
              (help_requests t)
            = map help_subject (help_requests t)) as ->; [|done].
    apply map_ext. intros h. by case_decide.
Qed.

(** X25.  No operation on requests writes the accounts, and none removes a
    help request or changes what it is about: after any calls the accounts
    are the same, and the help requests of before are still there, in the
    same order, with the same request, requester, message and creation
    time.  Only [create_help_request] and [resolve_help_request] change
    the help requests at all. *)
Theorem accounts_and_help_subjects_stable (db : Database) (cs : list call) :
  users (working (run cs db)) = users (working db)
  /\ map help_subject (help_requests (working db))
     `prefix_of` map help_subject (help_requests (working (run cs db)))
  /\ forall c,
       help_requests (working (step c db)) = help_requests (working db)
       \/ (exists rid uid msg ts, c = CreateHelpRequest rid uid msg ts)
       \/ (exists hid uid note ts, c = ResolveHelpRequest hid uid note ts).
Proof.
  pose proof (run_related accounts_and_helps_stay
                stmt_accounts_and_helps_stay cs db) as [Hu Hh].
  split; [done|]. split; [done|].
  intros c.
  destruct c as [data days n1 n2 ts1 ts2|rid data|rid new who now ts
                 |rid uid|rid uid|rid uid|rid dl reason approval uid ts
                 |rid uid msg ts|hid uid note ts]; simpl.
  - left. rewrite add_request_unfold. cbv zeta.
    destruct (add_days _ _); [done|]. destruct (float_of _); [done|].
    unfold insert_request. by case_bool_decide.
  - left. rewrite update_request_unfold. by destruct (collect_fields data).
  - left. rewrite update_request_status_unfold.
    destruct (select_status _ _); [|done]. cbv zeta.
    by destruct (user_ref_ok _ _).
  - left. rewrite assign_request_unfold. by destruct (_ && _).
  - left. rewrite set_assistant_master_unfold. by destruct (_ && _).
  - left. unfold reassign_master. rewrite assign_request_unfold.
    by destruct (_ && _).
  - left. rewrite extend_deadline_unfold. by destruct (_ && _).
  - right. left. eauto.
  - right. right. eauto.
Qed.

End Operations.


(** ** The claims on the sample database *)

Module Checks.
Import Sample.

Definition complete : call :=
  UpdateRequestStatus 1 "завершена" (Some 2) t0 utc0.
Definition reopen : call :=
  UpdateRequestStatus 1 "открыта" (Some 2) t0 utc0.
Definition create : call :=
  AddRequest sample_data DEFAULT_DEADLINE_DAYS t0 t0 utc0 utc0.

(** A help request of the listing, for the form of the quality page. *)
Definition listed_help : open_help_row :=
  {| help_id := 1; oh_request_id := 1; oh_message := "нужна помощь";
     oh_created_at := "2026-01-10 07:00:00";
     oh_request_number := "REQ202601100001"; oh_status := "открыта";
     oh_deadline := VStr "2026-01-13 09:30:00";
     oh_deadline_extended_to := None;
     oh_assigned_to := Some 2; oh_assigned_name := VStr "Иванов Иван Иванович";
     oh_assist_to := None; oh_assist_name := VNone;
     oh_requested_by := 2;
     oh_requested_by_name := VStr "Иванов Иван Иванович" |}.

(** The tables of a day on which 9999 requests were created. *)
Definition busy_row (i : Z) : requests_row :=
  {| r_id := i; request_number := number_of "20260110" i;
     created_date := "2026-01-10 06:30:00";
     equipment_type := VNone; device_model := VNone; fault_type := VNone;
     problem_description := VNone; customer_name := VNone;
     customer_phone := VNone; status := "открыта";
     assigned_to := None; assist_to := None;
     estimated_cost := VFloat (PyFloat 0); actual_cost := VNone;
     deadline := VStr "2026-01-13 09:30:00"; deadline_extended_to := None;
     extension_reason := None; client_approval := None;
     client_approval_at := None; extended_by := None;
     completed_date := None |}.

Definition busy_tables : tables :=
  {| users := users fresh_tables;
     requests := map busy_row (seqZ 1 9999);
     status_history := []; help_requests := [];
     seq_requests := 9999; seq_status_history := 0;
     seq_help_requests := 0 |}.

Definition busy_db : Database :=
  {| committed := busy_tables; working := busy_tables |}.

Lemma db1_completed_inv : holds completed_inv db1.
Proof. split; apply completed_check_sound; vm_compute; reflexivity. Qed.

Lemma db1_wf : wf (working db1).
Proof. apply wf_check_sound. vm_compute. reflexivity. Qed.

(** The characters of [str.isspace], by their UTF-8 bytes. *)
Definition spaces : list (list N) :=
  [ [9]; [10]; [11]; [12]; [13]; [28]; [29]; [30]; [31]; [32];
    [194; 133]; [194; 160]; [225; 154; 128];
    [226; 128; 128]; [226; 128; 129]; [226; 128; 130]; [226; 128; 131];
    [226; 128; 132]; [226; 128; 133]; [226; 128; 134]; [226; 128; 135];
    [226; 128; 136]; [226; 128; 137]; [226; 128; 138];
    [226; 128; 168]; [226; 128; 169]; [226; 128; 175];
    [226; 129; 159]; [227; 128; 128] ]%N.

(** [strip] removes each of them before and after a text, alone or with
    another one next to it, and keeps them inside the text. *)
Lemma strip_removes_every_space :
  forallb (fun a =>
    forallb (fun b =>
      String.eqb (strip (text_of (a ++ b) +:+ "м " +:+ text_of a +:+ "x"
                         +:+ text_of (b ++ a)))
                 ("м " +:+ text_of a +:+ "x")
      && String.eqb (strip (text_of (a ++ b))) "") spaces) spaces = true.
Proof. vm_compute. reflexivity. Qed.

(** C1 on the sample: complete, reopen, complete again. *)
Lemma completed_date_iff_completed_witness :
  holds completed_inv db1
  /\ Forall (holds completed_inv) (trace [complete; reopen; complete] db1).
Proof.
  split; [exact db1_completed_inv|].
  exact (proj1 (completed_date_iff_completed db1 [complete; reopen; complete]
                  db1_completed_inv)).
Defined.

(** C2 fails on the code: the quality manager, who is neither admin nor
    the assigned technician of request 1, changes its status through
    [update_request_status]. *)
Lemma update_request_status_unguarded :
  is_admin (Some qmanager) = false
  /\ is_specialist (Some qmanager) = false
  /\ map assigned_to (requests (working db1)) = [None]
  /\ (update_request_status 1 "завершена" (Some 3) t0 utc0 db1).2 = Ok true
  /\ map status (requests (working db1)) = ["открыта"]
  /\ map status
       (requests (committed
          (update_request_status 1 "завершена" (Some 3) t0 utc0 db1).1))
     = ["завершена"]
  /\ map completed_date
       (requests (committed
          (update_request_status 1 "завершена" (Some 3) t0 utc0 db1).1))
     = [Some "2026-01-10 09:30:00"]
  /\ length (status_history (committed db1)) = 1%nat
  /\ length (status_history (committed
          (update_request_status 1 "завершена" (Some 3) t0 utc0 db1).1))
     = 2%nat.
Proof. vm_compute. repeat split; reflexivity. Qed.

Lemma status_change_guarded_by_page_witness :
  (exists db',
     update_request_status 1 "завершена" (Some 3) t0 utc0 db1
     = (db', Ok true))
  /\ view_request_save_status (Some qmanager) 1 "завершена" t0 utc0 db1
     = (db1, Ok nothing).
Proof.
  destruct (status_change_guarded_by_page (Some qmanager) db1 1 "завершена"
              t0 utc0) as [(db' & Hdb & _) Hpage].
  - apply (bool_decide_unpack _). vm_compute. exact I.
  - vm_compute. reflexivity.
  - vm_compute. reflexivity.
  - intros r _ _ [Hs _]. vm_compute in Hs. discriminate.
  - split; [by exists db' | exact Hpage].
Defined.

(** C3 fails on the code: [extend_deadline] takes an empty reason and an
    empty approval text and writes the five fields. *)
Lemma extend_deadline_accepts_empty :
  (extend_deadline 1 "2026-01-20 18:00:00" "" "" 3 utc0 db1).2 = Ok true
  /\ map (fun r => (deadline_extended_to r, extension_reason r,
                    client_approval r, client_approval_at r, extended_by r))
       (requests (working db1))
     = [(None, None, None, None, None)]
  /\ map (fun r => (deadline_extended_to r, extension_reason r,
                    client_approval r, client_approval_at r, extended_by r))
       (requests (committed
          (extend_deadline 1 "2026-01-20 18:00:00" "" "" 3 utc0 db1).1))
     = [(Some "2026-01-20 18:00:00", Some "", Some "",
         Some "2026-01-10 06:30:00", Some 3)].
Proof. vm_compute. repeat split; reflexivity. Qed.

Lemma extension_inputs_checked_by_page_witness :
  strip "  " = ""
  /\ exists msg,
      quality_control_extend (Some qmanager) listed_help
        (mk_datetime 2026 1 20 18 0 0 0) "  " "по телефону" true utc0 db1
      = (db1, Ok (st_error msg)).
Proof.
  split; [vm_compute; reflexivity|].
  apply (extension_inputs_checked_by_page (Some qmanager) listed_help
           (mk_datetime 2026 1 20 18 0 0 0) "  " "по телефону" true utc0 db1).
  left. vm_compute. reflexivity.
Defined.

(** C4 fails on the code: with an actor that is no user the history entry
    is rejected and the call returns false, but the status update it
    executed first is not rolled back; the connection sees the new status,
    and the next commit, here of [update_request], stores it without any
    history entry. *)
Lemma status_update_without_history :
  (update_request_status 1 "завершена" (Some 99) t0 utc0 db1).2 = Ok false
  /\ map status (requests (working db1)) = ["открыта"]
  /\ map status
       (requests (working
          (update_request_status 1 "завершена" (Some 99) t0 utc0 db1).1))
     = ["завершена"]
  /\ status_history (working
        (update_request_status 1 "завершена" (Some 99) t0 utc0 db1).1)
     = status_history (working db1)
  /\ map status
       (requests (committed
          (update_request 1 {[ "device_model" := VStr "Midea Y" ]}
             (update_request_status 1 "завершена" (Some 99) t0 utc0 db1).1).1))
     = ["завершена"]
  /\ status_history (committed
        (update_request 1 {[ "device_model" := VStr "Midea Y" ]}
           (update_request_status 1 "завершена" (Some 99) t0 utc0 db1).1).1)
     = status_history (working db1).
Proof. vm_compute. repeat split; reflexivity. Qed.


(** The rest of C5 on the sample: the first request of a new database. *)
Lemma add_request_creates_open_request_witness :
  (add_request sample_data DEFAULT_DEADLINE_DAYS t0 t0 utc0 utc0 fresh_db).2
  = Ok (Some 1)
  /\ exists row dl e,
      requests (working db1) = [row]
      /\ status row = "открыта"
      /\ micros dl = micros t0 + 3 * US_PER_DAY
      /\ deadline row = VStr (strftime_iso dl)
      /\ history_of 1 (working db1) = [e]
      /\ old_status e = None /\ new_status e = "открыта".
Proof.
  split; [vm_compute; reflexivity|].
  destruct (add_request_creates_open_request fresh_db sample_data
              DEFAULT_DEADLINE_DAYS t0 t0 utc0 utc0 1)
    as (row & dl & e & H1 & _ & _ & H4 & _ & _ & H7 & H8 & _ & _ & _ & H12
        & H13 & _ & _ & H16 & _).
  - intros h Hh. vm_compute in Hh. by apply elem_of_nil in Hh.
  - vm_compute. reflexivity.
  - exists row, dl, e. repeat split; assumption.
Defined.

Lemma busy_numbers :
  numbers busy_tables = map (number_of "20260110") (seqZ 1 9999).
Proof.
  unfold numbers, busy_tables. cbn [requests]. rewrite map_map.
  apply map_ext. intros i. reflexivity.
Qed.

Lemma busy_count :
  count_like ("REQ" +:+ "20260110" +:+ "%") busy_tables = 9999.
Proof.
  rewrite count_like_numbers, busy_numbers, filter_all.
  - rewrite length_map, length_seqZ. lia.
  - intros n Hin. apply list_elem_of_fmap in Hin as (i & -> & _).
    unfold number_of. rewrite <- !(string_app_assoc "REQ" "20260110").
    apply like_prefix.
Qed.

(** C6 fails on the code: the 10000th number of a day has five digits of
    sequence. *)
Lemma ten_thousandth_number_has_five_digits :
  count_like (day_pattern t0) (working busy_db) = 9999
  /\ (generate_request_number t0 busy_db).2 = Ok "REQ2026011010000"
  /\ ~ four_digit_form "REQ2026011010000".
Proof.
  assert (day_pattern t0 = "REQ" +:+ "20260110" +:+ "%") as Hpat
    by (vm_compute; reflexivity).
  assert (strftime_Ymd t0 = "20260110") as Hday by (vm_compute; reflexivity).
  assert (count_like (day_pattern t0) (working busy_db) = 9999) as Hcnt.
  { rewrite Hpat. exact busy_count. }
  split; [exact Hcnt|]. split.
  - rewrite generate_request_number_unfold. cbn [snd].
    rewrite Hcnt, Hday. vm_compute. reflexivity.
  - apply not_four_digit_form_16. reflexivity.
Qed.

Lemma request_numbers_consecutive_witness :
  Forall (created_on "20260110") [create; complete; create; create]
  /\ numbers (working (run [create; complete; create; create] fresh_db))
     = ["REQ202601100001"; "REQ202601100002"; "REQ202601100003"]
  /\ exists m : nat,
      numbers (working (run [create; complete; create; create] fresh_db))
      = map (fun i : nat => number_of "20260110" (0 + Z.of_nat i)) (seq 1 m).
Proof.
  assert (Forall (created_on "20260110") [create; complete; create; create])
    as Hall.
  { repeat constructor; vm_compute; reflexivity. }
  split; [exact Hall|]. split; [vm_compute; reflexivity|].
  destruct (proj2 (proj2 (request_numbers_consecutive fresh_db "20260110"
                            [create; complete; create; create] Hall)))
    as (m & Hm & _).
  exists m. exact Hm.
Defined.

(** C8 on the sample: two help requests of the technician on request 1,
    the first resolved by the quality manager. *)
Lemma resolving_one_help_request_leaves_the_other_witness :
  wf (working db1)
  /\ exists h1 h2 db2 db3 l3,
      h1 <> h2
      /\ resolve_help_request h1 3 "решено" utc0 db2 = (db3, Ok true)
      /\ list_open_help_requests db3 = (db3, Ok l3)
      /\ (h2, strftime_iso t0) ∈ listed l3
      /\ (h1 ∉ map help_id l3).
Proof.
  split; [exact db1_wf|].
  destruct (resolving_one_help_request_leaves_the_other db1 1 2 3
              "нужна помощь" "всё ещё нужна" "решено" utc0 t0 utc0)
    as [(h1 & h2 & d1 & d2 & d3 & l2 & l3 & _ & _ & Hne & _ & _ & _ & Hres
         & _ & _ & _ & _ & _ & Hl3 & Hin & Hnot) _].
  - exact db1_wf.
  - apply (bool_decide_unpack _). vm_compute. exact I.
  - apply (bool_decide_unpack _). vm_compute. exact I.
  - apply (bool_decide_unpack _). vm_compute. exact I.
  - exists h1, h2, d2, d3, l3. repeat split; assumption.
Defined.

End Checks.

(** ** The further properties on the sample database *)

Module OperationChecks.
Import Sample.

(** Request 1 with the technician as master and his help request, sent at
    07:00:00 UTC. *)
Definition helped_db : Database :=
  (create_help_request 1 2 "нужна помощь"
     (mk_datetime 2026 1 10 7 0 0 0) (assign_request 1 2 db1).1).1.

(** Tables in which the only request of the day carries the second number
    of the day. *)
Definition gap_db : Database :=
  let t := {| users := users fresh_tables;
              requests := [Checks.busy_row 2];
              status_history := []; help_requests := [];
              seq_requests := 2; seq_status_history := 0;
              seq_help_requests := 0 |} in
  {| committed := t; working := t |}.

(** What the form of a request holds when it is submitted. *)
Definition sample_form : request_form :=
  {| in_equipment_type := Some "Кондиционер";
     in_device_model := " Midea X ";
     in_fault_type := "Не указано";
     in_customer_name := "Иванов";
     in_customer_phone := "89990000000";
     in_problem_description := "Не запускается";
     in_estimated_cost := f1000 |}.

Definition later : datetime := mk_datetime 2026 1 14 0 0 0 0.

(** A number input that takes the defaults whose sign bit is clear. *)
#[local] Instance widgets : Widgets :=
  {| number_input_accepts x := float_bits x <? 2 ^ 63 |}.

Lemma helped_db_wf : wf (working helped_db).
Proof. apply wf_check_sound. vm_compute. reflexivity. Qed.

Lemma helped_db_listing :
  list_open_help_requests helped_db = (helped_db, Ok [Checks.listed_help]).
Proof. vm_compute. reflexivity. Qed.

Lemma schema_guarantees_kept_witness :
  holds wf db1
  /\ Forall (holds wf) (trace [Checks.create; Checks.complete] db1).
Proof.
  assert (holds wf db1) as Hwf
    by (split; apply wf_check_sound; vm_compute; reflexivity).
  split; [exact Hwf|].
  exact (schema_guarantees_kept db1 [Checks.create; Checks.complete] Hwf).
Defined.

Lemma add_request_all_or_nothing_witness :
  forallb binds (request_texts sample_data) = true
  /\ exists rid,
      (add_request sample_data DEFAULT_DEADLINE_DAYS t0 t0 utc0 utc0
         fresh_db).2 = Ok (Some rid).
Proof.
  assert (forallb binds (request_texts sample_data) = true) as Hb
    by (vm_compute; reflexivity).
  split; [exact Hb|].
  apply (proj1 (add_request_all_or_nothing fresh_db sample_data
                  DEFAULT_DEADLINE_DAYS t0 t0 utc0 utc0 Hb)).
  split; [vm_compute; by eexists|]. split; [vm_compute; by eexists|].
  intros Hin. vm_compute in Hin. by apply elem_of_nil in Hin.
Defined.

Lemma update_request_result_witness :
  binds (VInt 7) = true
  /\ (update_request 7 {[ "customer_phone" := VInt 89990000000 ]} db1).2
     = Ok false.
Proof.
  assert (binds (VInt 7) = true) as Hb by reflexivity.
  split; [exact Hb|].
  destruct (update_request_result db1 7
              {[ "customer_phone" := VInt 89990000000 ]} Hb) as [_ Hres].
  - intros k v Hk Hv. apply lookup_singleton_Some in Hv as [_ <-].
    reflexivity.
  - destruct Hres as [_ ->].
    + refine (ex_intro _ "customer_phone" (conj _ _)).
      * apply (bool_decide_unpack _). vm_compute. exact I.
      * by eexists.
    + vm_compute. reflexivity.
Defined.

Lemma extension_sets_effective_deadline_witness :
  1 ∈ map r_id (requests (working db1))
  /\ (extend_deadline 1 "2026-01-11 10:00:00" "нет детали" "по телефону" 3
        utc0 db1).2 = Ok true.
Proof.
  assert (1 ∈ map r_id (requests (working db1))) as Hin
    by (apply (bool_decide_unpack _); vm_compute; exact I).
  split; [exact Hin|].
  refine (proj1 (extension_sets_effective_deadline db1 1
                   "2026-01-11 10:00:00" "нет детали" "по телефону" 3 utc0
                   _ Hin _)).
  - vm_compute. reflexivity.
  - vm_compute. reflexivity.
Defined.

Lemma resolve_help_request_overwrites_witness :
  1 ∈ map h_id (help_requests (working helped_db))
  /\ (resolve_help_request 1 1 "закрыто повторно" t0
        (resolve_help_request 1 3 "решено" utc0 helped_db).1).2 = Ok true.
Proof.
  assert (1 ∈ map h_id (help_requests (working helped_db))) as Hin
    by (apply (bool_decide_unpack _); vm_compute; exact I).
  split; [exact Hin|].
  refine (proj1 (proj2 (resolve_help_request_overwrites helped_db 1 3 1
                          "решено" "закрыто повторно" utc0 t0 Hin _ _))).
  - apply (bool_decide_unpack _). vm_compute. exact I.
  - apply (bool_decide_unpack _). vm_compute. exact I.
Defined.

Lemma deadline_state_progress_witness :
  micros t0 <= micros later
  /\ (deadline_state (Checks.busy_row 1) t0 = ""
      <-> deadline_state (Checks.busy_row 1) later = "").
Proof.
  assert (micros t0 <= micros later) as Hle by (vm_compute; discriminate).
  split; [exact Hle|].
  exact (proj2 (proj2 (deadline_state_progress (Checks.busy_row 1) t0 later
                         Hle))).
Defined.

Lemma only_rejected_status_change_leaves_pending_witness :
  working db1 = committed db1
  /\ (working (step (UpdateRequestStatus 1 "завершена" (Some 7) t0 utc0) db1)
      = committed (step (UpdateRequestStatus 1 "завершена" (Some 7) t0 utc0)
                     db1)
      \/ user_ref_ok (working db1) (Some 7) = false).
Proof.
  assert (working db1 = committed db1) as Hclean by (vm_compute; reflexivity).
  split; [exact Hclean|].
  destruct (only_rejected_status_change_leaves_pending db1
              (UpdateRequestStatus 1 "завершена" (Some 7) t0 utc0) Hclean)
    as [Hsame|(rid & new & who & now & ts & Hc & _ & Hu & _)].
  - by left.
  - right. injection Hc as _ _ <- _ _. exact Hu.
Defined.

Lemma created_request_is_read_back_witness :
  (add_request sample_data DEFAULT_DEADLINE_DAYS t0 t0 utc0 utc0 fresh_db).2
  = Ok (Some 1)
  /\ exists rv,
      get_request 1 db1 = (db1, Ok (Some rv))
      /\ customer_name (rv_row rv) = VStr "Иванов"
      /\ assigned_name rv = VNone.
Proof.
  assert ((add_request sample_data DEFAULT_DEADLINE_DAYS t0 t0 utc0 utc0
             fresh_db).2 = Ok (Some 1)) as Hadd by (vm_compute; reflexivity).
  split; [exact Hadd|].
  destruct (created_request_is_read_back fresh_db sample_data
              DEFAULT_DEADLINE_DAYS t0 t0 utc0 utc0 1)
    as (rv & cost & Hget & _ & _ & _ & _ & _ & _ & Hname & _ & _ & _ & _ & _
        & _ & Han & _).
  - vm_compute. reflexivity.
  - intros c Hc. vm_compute in Hc. injection Hc as <-. vm_compute.
    reflexivity.
  - exact Hadd.
  - exists rv. split; [exact Hget|]. split; [exact Hname | exact Han].
Defined.

Lemma number_collision_blocks_creation_witness :
  numbers (working gap_db) = ["REQ202601100002"]
  /\ add_request sample_data DEFAULT_DEADLINE_DAYS t0 t0 utc0 utc0 gap_db
     = (gap_db, Ok None).
Proof.
  split; [vm_compute; reflexivity|].
  apply (number_collision_blocks_creation gap_db "20260110").
  - apply (bool_decide_unpack _). vm_compute. exact I.
  - vm_compute. reflexivity.
Defined.

Lemma serialized_creation_never_collides_witness :
  numbers (working fresh_db) = []
  /\ exists rid,
      (add_request sample_data DEFAULT_DEADLINE_DAYS t0 t0 utc0 utc0
         fresh_db).2 = Ok (Some rid).
Proof.
  split; [reflexivity|].
  refine (proj1 (serialized_creation_never_collides fresh_db "20260110" 0
                   sample_data DEFAULT_DEADLINE_DAYS t0 t0 utc0 utc0
                   _ _ _ _ _)).
  - reflexivity.
  - vm_compute. reflexivity.
  - vm_compute. by eexists.
  - vm_compute. by eexists.
  - vm_compute. reflexivity.
Defined.

Lemma status_history_lists_each_entry_witness :
  NoDup (map u_id (users (working db1)))
  /\ exists l,
      get_status_history 1 db1 = (db1, Ok l)
      /\ map hv_row l ≡ₚ history_of 1 (working db1).
Proof.
  assert (NoDup (map u_id (users (working db1)))) as Hnd
    by (apply (bool_decide_unpack _); vm_compute; exact I).
  split; [exact Hnd|].
  destruct (status_history_lists_each_entry db1 1 Hnd)
    as (l & Hl & Hp & _).
  exists l. split; [exact Hl | exact Hp].
Defined.

Lemma status_change_is_read_back_witness :
  (update_request_status 1 "в процессе ремонта" (Some 2) t0 utc0 db1).2
  = Ok true
  /\ exists l v,
      get_status_history 1
        (update_request_status 1 "в процессе ремонта" (Some 2) t0 utc0 db1).1
      = ((update_request_status 1 "в процессе ремонта" (Some 2) t0 utc0
            db1).1, Ok l)
      /\ length l = 2%nat
      /\ v ∈ l
      /\ old_status (hv_row v) = Some "открыта"
      /\ new_status (hv_row v) = "в процессе ремонта"
      /\ changed_by (hv_row v) = Some 2.
Proof.
  assert ((update_request_status 1 "в процессе ремонта" (Some 2) t0 utc0
             db1).2 = Ok true) as Hok by (vm_compute; reflexivity).
  split; [exact Hok|].
  assert (NoDup (map u_id (users (working db1)))) as Hnd
    by (apply (bool_decide_unpack _); vm_compute; exact I).
  destruct (status_change_is_read_back db1 1 "в процессе ремонта" (Some 2)
              t0 utc0 Hnd Hok)
    as (l & old & v & Hl & Hlen & Hold & Hv & Ho & Hn & _ & Hby & _).
  exists l, v. split; [exact Hl|]. split; [exact Hlen|]. split; [exact Hv|].
  split; [|split; [exact Hn | exact Hby]].
  rewrite Ho. rewrite <- Hold. vm_compute. reflexivity.
Defined.

Lemma closing_a_help_request_unlists_it_witness :
  wf (working helped_db)
  /\ list_open_help_requests helped_db = (helped_db, Ok [Checks.listed_help])
  /\ (quality_control_close (Some qmanager) Checks.listed_help " решено "
        t0 helped_db).2 = Ok (st_success "Запрос закрыт.").
Proof.
  split; [exact helped_db_wf|]. split; [exact helped_db_listing|].
  refine (proj1 (proj2 (closing_a_help_request_unlists_it helped_db
                          (Some qmanager) Checks.listed_help " решено " t0
                          [Checks.listed_help] helped_db_wf helped_db_listing
                          _) _ _)).
  - left.
  - vm_compute. reflexivity.
  - vm_compute. reflexivity.
Defined.

Lemma extension_keeps_the_help_request_listed_witness :
  (quality_control_extend (Some qmanager) Checks.listed_help later
     "нет детали" "по телефону" true t0 helped_db).2
  = Ok (st_success "Срок продлён.")
  /\ exists l',
      list_open_help_requests
        (quality_control_extend (Some qmanager) Checks.listed_help later
           "нет детали" "по телефону" true t0 helped_db).1
      = ((quality_control_extend (Some qmanager) Checks.listed_help later
            "нет детали" "по телефону" true t0 helped_db).1, Ok l')
      /\ listed l' ≡ₚ listed [Checks.listed_help].
Proof.
  assert ((quality_control_extend (Some qmanager) Checks.listed_help later
             "нет детали" "по телефону" true t0 helped_db).2
          = Ok (st_success "Срок продлён.")) as Hok
    by (vm_compute; reflexivity).
  split; [exact Hok|].
  destruct (extension_keeps_the_help_request_listed helped_db
              (Some qmanager) Checks.listed_help later "нет детали"
              "по телефону" true t0 [Checks.listed_help] helped_db_wf
              helped_db_listing) as (l' & Hl' & Hp & _).
  - left.
  - exact Hok.
  - exists l'. split; [exact Hl' | exact Hp].
Defined.

Lemma edit_page_saves_without_master_witness :
  is_specialist (Some ivanov) = true
  /\ (page_edit_request_save (Some ivanov) (Some 1) sample_form f1000
        "в процессе ремонта" "" t0 utc0 db1).2
     = Ok (shown (st_success "Сохранено."))
  /\ view_request_save_status (Some ivanov) 1 "в процессе ремонта" t0 utc0
       db1 = (db1, Ok nothing).
Proof.
  assert (is_specialist (Some ivanov) = true) as Hs
    by (vm_compute; reflexivity).
  split; [exact Hs|].
  destruct (edit_page_saves_without_master db1 (Some ivanov) 1 sample_form
              f1000 "в процессе ремонта" "" t0 utc0)
    as (Hres & _ & _ & _ & Hview).
  - discriminate.
  - apply (bool_decide_unpack _). vm_compute. exact I.
  - intros r Hr _. apply list_elem_of_In in Hr. vm_compute in Hr.
    destruct Hr as [<-|[]]. split; [reflexivity|].
    split; [intros E; vm_compute in E; discriminate|].
    split; vm_compute; reflexivity.
  - exact Hs.
  - vm_compute. reflexivity.
  - split; [exact Hres | exact Hview].
Defined.

Lemma master_and_assistant_independent_witness :
  user_exists (working db1) 2 = true
  /\ (set_assistant_master 1 2 (assign_request 1 2 db1).1).2 = Ok true.
Proof.
  assert (user_exists (working db1) 2 = true) as Hu
    by (vm_compute; reflexivity).
  split; [exact Hu|].
  refine (proj1 (proj2 (master_and_assistant_independent db1 1 2 2 _ Hu Hu))).
  apply (bool_decide_unpack _). vm_compute. exact I.
Defined.

End OperationChecks.
